(** * saspy/sasiocom.py: the COM/IOM access method of saspy

    A shallow embedding of [SASConfigCOM] and [SASSessionCOM] and the
    properties of the session protocol: submission framing, the chunked
    drain loops, schema-derived conversions, the override policy of the
    configuration, and the file-transfer policy.

    Python [str] is modelled by [string] (8-bit characters, so the model
    covers ASCII text), [bytes] by [list byte], [int] by [Z], a [dict] used
    as a map by [gmap string _], and keyword arguments, whose order
    matters, by a list in the order of the call.  Exceptions are the
    [Raise] outcome of a state-and-error monad; the state persists when
    an exception is raised, as Python's side effects do.

    The methods that read tables and move CSV files ([read_sasdata],
    [sasdata2dataframe], [sasdata2dataframeCSV], [read_csv], [write_csv])
    build program text and leave the values to the engine, to the ADODB
    provider and to pandas, which are parameters of the model.
    [dataframe2sasdata] works on a pandas frame throughout (its dtypes,
    its per-row coercions) and is not embedded. *)

From Stdlib Require Import ZArith String Ascii List Bool Lia.
From Stdlib Require Import Strings.Byte.
From stdpp Require Import base option list strings gmap pretty.
Import ListNotations.

Local Open Scope Z_scope.
Local Open Scope string_scope.

(** ** Python values and exceptions *)

Module Py.

(** Scalars that configuration options and keyword arguments hold. *)
Inductive value :=
| VNone
| VBool (b : bool)
| VInt (n : Z)
| VStr (s : string).

#[global] Instance value_eq_dec : EqDecision value.
Proof. solve_decision. Defined.

Inductive exn :=
| NameError (name : string)
| KeyError (key : string)
| AttributeError (attr : string)
| TypeError
| ValueError
| OverflowError
| KeyboardInterrupt
| OSError (path : string)
| com_error (what : string).

#[global] Instance exn_eq_dec : EqDecision exn.
Proof. solve_decision. Defined.

Inductive outcome (A : Type) :=
| Ok (a : A)
| Raise (e : exn).
Arguments Ok {A} a.
Arguments Raise {A} e.

Definition is_ok {A} (r : outcome A) : bool :=
  match r with Ok _ => true | Raise _ => false end.

(** [x is None], [x is False]: identity with the singletons. *)
Definition is_None (v : value) : bool :=
  match v with VNone => true | _ => false end.

Definition is_False (v : value) : bool :=
  match v with VBool false => true | _ => false end.

(** [str(v)], as [str.format] renders a [{}] field. *)
Definition str (v : value) : string :=
  match v with
  | VNone => "None"
  | VBool true => "True"
  | VBool false => "False"
  | VInt n => pretty n
  | VStr s => s
  end.

(** Truth value of a [str] or a [bytes]: non-empty. *)
Definition truthy_str (s : string) : bool :=
  match s with EmptyString => false | String _ _ => true end.

Definition truthy_bytes (b : list byte) : bool :=
  match b with [] => false | _ :: _ => true end.

(** [str.lower] on ASCII text. *)
Definition lower_ascii (c : ascii) : ascii :=
  let n := N_of_ascii c in
  if ((65 <=? n) && (n <=? 90))%N then ascii_of_N (n + 32) else c.

Fixpoint lower (s : string) : string :=
  match s with
  | EmptyString => EmptyString
  | String c s' => String (lower_ascii c) (lower s')
  end.

(** The text after the last occurrence of [sep] in [s], if [sep] occurs
    ([sep] non-empty). *)
Fixpoint after_last (sep s : string) : option string :=
  match s with
  | EmptyString => None
  | String _ s' =>
      match after_last sep s' with
      | Some t => Some t
      | None =>
          if String.prefix sep s
          then Some (String.substring (String.length sep)
                       (String.length s - String.length sep) s)
          else None
      end
  end.

(** [s.rpartition(sep)[2]]: the part after the last separator, the whole
    of [s] when the separator does not occur; an empty separator raises
    [ValueError]. *)
Definition rpartition_2 (s sep : string) : outcome string :=
  match sep with
  | EmptyString => Raise ValueError
  | _ => Ok (default s (after_last sep s))
  end.

End Py.
Export Py.

(** Characters that a string literal cannot hold directly. *)
Definition nl : string := String (ascii_of_nat 10) EmptyString.
Definition dquote : string := String (ascii_of_nat 34) EmptyString.
Definition bytes_of (s : string) : list byte := list_byte_of_string s.

(** ** Stream pump

    [_getlst], [_getlog] and [_getfile] each carry a copy of one loop:
<<
    flushed = handle.Read(buf)
    result = flushed
    while flushed:
        flushed = handle.Read(buf)
        result += flushed
>>
    A read handle is modelled by the chunks it has yet to yield; a read
    from an exhausted handle yields the empty chunk (end of stream). *)

Section Pump.
Context {chunk : Type}.
Variable empty : chunk.
Variable truthy : chunk -> bool.
Variable cat : chunk -> chunk -> chunk.

Definition read (h : list chunk) : chunk * list chunk :=
  match h with
  | [] => (empty, [])
  | c :: h' => (c, h')
  end.

(** The [while flushed:] loop, from the point where its test is evaluated;
    the third component counts the reads made. *)
Fixpoint pump_while (h : list chunk) (flushed result : chunk) (reads : nat)
  : chunk * list chunk * nat :=
  if truthy flushed then
    match h with
    | [] => (cat result empty, [], S reads)
    | c :: h' => pump_while h' c (cat result c) (S reads)
    end
  else (result, h, reads).

Definition drain (h : list chunk) : chunk * list chunk * nat :=
  let '(flushed, h1) := read h in
  pump_while h1 flushed flushed 1.

End Pump.

Definition drain_str := drain EmptyString truthy_str String.append.
Definition drain_bytes := drain (@nil byte) truthy_bytes (@app byte).

(** ** The session object [sb] and the configuration

    [SASConfigCOM] reads its options from the owning [SASsession] object
    [sb], which this file does not define: its fields and the collaborators
    it supplies are the fields of [SASsession]. *)

Abbreviation dict := (gmap string value).

(** A remote path as the file service sees it. *)
Inductive remote_node :=
| RemoteDir
| RemoteFile (content : list byte).

#[global] Instance byte_eq_dec : EqDecision byte.
Proof. intros a b. destruct (Byte.byte_eq_dec a b); [left | right]; assumption. Defined.
#[global] Instance remote_node_eq_dec : EqDecision remote_node.
Proof. solve_decision. Defined.

(** A table cell as the ADODB provider hands it over, and after conversion
    ([datetime] values as microseconds since 0001-01-01T00:00:00).  The
    numbers of the model are the whole ones: a number with a fraction,
    which [timedelta] accepts as well, has no cell. *)
Inductive cell :=
| CNone
| CInt (n : Z)
| CStr (s : string)
| CDatetime (us : Z).

#[global] Instance cell_eq_dec : EqDecision cell.
Proof. solve_decision. Defined.

Record SASsession := {
  (* sb.sascfg: the selected configuration definition and its options *)
  cfg : dict;
  SAS_config_options : dict;
  SAS_output_options : dict;
  (* attributes of sb itself *)
  workpath : string;
  HTML_Style : string;
  hostsep : string;
  sas_date_fmts : list string;
  sas_datetime_fmts : list string;
  SAS_EPOCH : Z;
  (* methods of sb *)
  _tablepath : string -> option string -> string;
  file_info : gmap string remote_node -> string -> option dict;
}.

(** A keyword argument of the constructors: a scalar under its keyword,
    or the session object under the keyword [sb].  A list of them is
    [kwargs], in the order of the call. *)
Inductive keyword :=
| Kw (key : string) (val : value)
| KwSb (session : SASsession).

Definition key_of (x : keyword) : string :=
  match x with
  | Kw key _ => key
  | KwSb _ => "sb"
  end.

(** The keywords that hold scalars. *)
Definition scalars (kwargs : list keyword) : list (string * value) :=
  omap (fun x => match x with Kw key val => Some (key, val) | KwSb _ => None end) kwargs.

(** [kwargs.get('sb')], when it is a session object. *)
Definition session_of (kwargs : list keyword) : option SASsession :=
  match List.find (fun x => String.eqb (key_of x) "sb") kwargs with
  | Some (KwSb session) => Some session
  | _ => None
  end.

(** [x in s] for two strings: [x] occurs in [s]. *)
Definition str_in (x s : string) : bool :=
  match String.index 0 x s with Some _ => true | None => false end.

Module SASConfigCOM.

Definition NO_OVERRIDE : list string := ["kernel"; "sb"].

(** [d.get(key)] and [d.get(key, dflt)]. *)
Definition get (d : dict) (key : string) : value := default VNone (d !! key).
Definition get_or (d : dict) (key : string) (dflt : value) : value :=
  default dflt (d !! key).

Definition getattr (self : dict) (attr : string) : outcome value :=
  match self !! attr with
  | Some v => Ok v
  | None => Raise (AttributeError attr)
  end.

Definition warning (attr : string) : string :=
  "Param '" +:+ attr +:+ "' was ignored due to configuration restriction".

(** The attributes of an object that no scalar can be assigned to. *)
Definition reserved : list string := ["__class__"; "__dict__"; "__weakref__"].

(** [setattr(self, attr, value)] for a scalar [value]: [__class__] must
    be set to a class and [__dict__] to a dictionary, [__weakref__] is
    not writable, and any other name becomes an attribute of the
    object. *)
Definition setattr (self : dict) (attr : string) (val : value) : outcome dict :=
  if String.eqb attr "__weakref__" then Raise (AttributeError attr)
  else if bool_decide (attr ∈ reserved) then Raise TypeError
  else Ok (<[attr := val]> self).

(** [_try_override]: the new attribute dictionary of [self] and the lines
    printed to [sys.stderr]. *)
Definition _try_override (self : dict) (attr : string) (val : value)
  : outcome dict * list string :=
  match getattr self "_lock" with
  | Raise e => (Raise e, [])
  | Ok lock =>
      if is_False lock
      then (setattr self attr val, [])
      else (Ok self, [warning attr])
  end.

(** [_try_override('sb', session)]: the session object is no scalar, and
    neither class reads an attribute [sb] of the configuration object, so
    the dictionary does not record it. *)
Definition _try_override_sb (self : dict) : outcome dict * list string :=
  match getattr self "_lock" with
  | Raise e => (Raise e, [])
  | Ok lock =>
      if is_False lock
      then (Ok self, [])
      else (Ok self, [warning "sb"])
  end.

(** [x[0] not in self.NO_OVERRIDE], evaluated when the filter reaches the
    keyword: [self.NO_OVERRIDE] is the class attribute unless an override
    has set an attribute of that name on the object; [in] is then the
    substring test on a string and raises [TypeError] on the other
    scalars. *)
Definition passes_filter (self : dict) (key : string) : outcome bool :=
  match self !! "NO_OVERRIDE" with
  | None => Ok (negb (bool_decide (key ∈ NO_OVERRIDE)))
  | Some (VStr s) => Ok (negb (str_in key s))
  | Some _ => Raise TypeError
  end.

(** [self._try_override(key, value)]: the method, unless an override has
    set an attribute of that name on the object; a scalar is not
    callable. *)
Definition call_try_override (self : dict) (x : keyword) : outcome dict * list string :=
  match self !! "_try_override" with
  | Some _ => (Raise TypeError, [])
  | None =>
      match x with
      | Kw key val => _try_override self key val
      | KwSb _ => _try_override_sb self
      end
  end.

(** The [for key, value in filter(...)] loop of [__init__].  The filter
    is lazy: its test of a keyword runs after the body has run for the
    keywords before it. *)
Fixpoint override_all (self : dict) (items : list keyword)
  : outcome dict * list string :=
  match items with
  | [] => (Ok self, [])
  | x :: rest =>
      match passes_filter self (key_of x) with
      | Raise e => (Raise e, [])
      | Ok false => override_all self rest
      | Ok true =>
          match call_try_override self x with
          | (Raise e, err) => (Raise e, err)
          | (Ok self', err) =>
              let '(r, err') := override_all self' rest in (r, (err ++ err')%list)
          end
      end
  end.

(** The attributes [__init__] sets before any override ([_prompt], a
    function of the configuration, is kept apart: see [SASSessionCOM]). *)
Definition from_config (kwargs : list (string * value)) (session : SASsession)
  : dict :=
  let cfg := cfg session in
  let opts := SAS_config_options session in
  let outs := SAS_output_options session in
  <["_lock" := get_or opts "lock_down" (VBool true)]>
  (<["output" := get_or outs "output" (VStr "html5")]>
  (<["cachesize" := get_or cfg "cachesize" (VInt 1)]>
  (<["pagesize" := get_or cfg "pagesize" (VInt 55)]>
  (<["max_rows" := get_or cfg "max_open_rows" (VInt 100)]>
  (<["encoding" := get_or cfg "encoding" (VStr "utf-8")]>
  (<["provider" := get cfg "provider"]>
  (<["class_id" := get cfg "class_id"]>
  (<["pw" := get cfg "omrpw"]>
  (<["user" := get cfg "omruser"]>
  (<["port" := get cfg "iomport"]>
  (<["host" := get cfg "iomhost"]>
  (<["_kernel" := default VNone (snd <$> List.find (fun x => String.eqb (fst x) "kernel") kwargs)]>
   ∅)))))))))))).

(** The constructor, called with the keyword arguments [kwargs].
    [kwargs['sb']] raises [KeyError] when the keyword is absent, and a
    scalar has no attribute [sascfg]. *)
Definition __init__ (kwargs : list keyword) : outcome dict * list string :=
  match List.find (fun x => String.eqb (key_of x) "sb") kwargs with
  | None => (Raise (KeyError "sb"), [])
  | Some (Kw _ _) => (Raise (AttributeError "sascfg"), [])
  | Some (KwSb session) =>
      override_all (from_config (scalars kwargs) session) kwargs
  end.

End SASConfigCOM.

(** ** The broker, the remote workspace and the local process

    What the COM objects do is outside this file; the model keeps the
    state the session can observe through them, and a trace of the calls
    the session makes. *)

(** The workspace's language and file services. *)
Record Engine := {
  ls_error : bool;                      (* the parser is in its error state *)
  ls_log : list string;                 (* chunks [FlushLog] has yet to yield *)
  ls_lst : list string;                 (* chunks [FlushList] has yet to yield *)
  remote_fs : gmap string remote_node;
}.

Record ServerDef := {
  MachineDNSName : value;
  Port : value;
  Protocol : Z;
  ClassIdentifier : option value;
}.

Inductive com_call :=
| LS_Submit (text : string)
| LS_FlushLog (buf : Z)
| LS_FlushList (buf : Z)
| LS_Reset
| Factory_CreateObjectByServer (name : string) (server : ServerDef) (user password : value)
| Keeper_AddObject (id : string)
| Keeper_RemoveObject (id : string)
| Workspace_Close (id : string)
| ADODB_Open (connection : string)
| ADODB_Close
| ADODB_OpenSchema (tablepath : string)
| FS_AssignFileref (name path options : string)
| FS_DeassignFileref (name : string)
| Stream_Open (mode : Z)
| Stream_Read (buf : Z)
| Stream_Write (data : list byte)
| Stream_Close.

Inductive local_node :=
| LocalDir
| LocalFile (content : list byte).

#[global] Instance local_node_eq_dec : EqDecision local_node.
Proof. solve_decision. Defined.

Record World := {
  engine : Engine;
  calls : list com_call;                (* oldest first *)
  broker_ids : list string;             (* identifiers of the workspaces the broker creates next *)
  schemas : gmap string (list (list (string * cell)));
                                        (* rows of the column query, by table path *)
  local_fs : gmap string local_node;
  stdout : list string;
  stderr : list string;
  answers : list (option string);       (* what the prompt collaborator returns next *)
}.

(** Collaborators whose code is elsewhere: the engine's execution of a
    program unit, the platform's path functions, the codecs, and whether
    the platform lets a file be created at a path that is free (its
    directory exists and can be written to). *)
Class Externals := {
  sas_run : string -> Engine -> Engine;
  os_path_basename : string -> string;
  os_path_join : string -> string -> string;
  decode : string -> list byte -> outcome string;
  can_create : gmap string local_node -> string -> bool;
}.

Record SASSessionCOM := {
  sascfg : dict;
  _sb : SASsession;
  _log : string;
  workspace : option string;            (* the workspace object, by its UniqueIdentifier *)
  keeper : list string;
  adodb : option Z;                     (* the connection object and its State *)
  pid : option string;
}.

Record State := {
  self : SASSessionCOM;
  world : World;
}.

(** *** State and exceptions *)

Definition M (A : Type) : Type := State -> outcome A * State.

#[global] Instance M_ret : MRet M := fun A a st => (Ok a, st).
#[global] Instance M_bind : MBind M := fun A B f c st =>
  match c st with
  | (Ok a, st') => f a st'
  | (Raise e, st') => (Raise e, st')
  end.

Definition raise {A} (e : exn) : M A := fun st => (Raise e, st).
Definition gets {A} (f : State -> A) : M A := fun st => (Ok (f st), st).
Definition modify (f : State -> State) : M unit := fun st => (Ok tt, f st).
Definition lift {A} (r : outcome A) : M A := fun st => (r, st).

Definition set_engine (f : Engine -> Engine) (st : State) : State :=
  let w := world st in
  {| self := self st;
     world := {| engine := f (engine w); calls := calls w;
                 broker_ids := broker_ids w; schemas := schemas w;
                 local_fs := local_fs w; stdout := stdout w;
                 stderr := stderr w; answers := answers w |} |}.

Definition set_local_fs (f : gmap string local_node -> gmap string local_node)
  (st : State) : State :=
  let w := world st in
  {| self := self st;
     world := {| engine := engine w; calls := calls w;
                 broker_ids := broker_ids w; schemas := schemas w;
                 local_fs := f (local_fs w); stdout := stdout w;
                 stderr := stderr w; answers := answers w |} |}.

Definition add_calls (cs : list com_call) (st : State) : State :=
  let w := world st in
  {| self := self st;
     world := {| engine := engine w; calls := (calls w ++ cs)%list;
                 broker_ids := broker_ids w; schemas := schemas w;
                 local_fs := local_fs w; stdout := stdout w;
                 stderr := stderr w; answers := answers w |} |}.

Definition set_io (out err : list string) (ans : list (option string))
  (ids : list string) (st : State) : State :=
  let w := world st in
  {| self := self st;
     world := {| engine := engine w; calls := calls w;
                 broker_ids := ids; schemas := schemas w;
                 local_fs := local_fs w; stdout := out;
                 stderr := err; answers := ans |} |}.

Definition set_self (f : SASSessionCOM -> SASSessionCOM) (st : State) : State :=
  {| self := f (self st); world := world st |}.

Definition call (c : com_call) : M unit := modify (add_calls [c]).

(** [self.workspace], as every method but [_startsas] reads it. *)
Definition the_workspace : M string :=
  fun st =>
    match workspace (self st) with
    | Some ws => (Ok ws, st)
    | None => (Raise (AttributeError "workspace"), st)
    end.

Definition cfgattr (attr : string) : M value :=
  fun st => (SASConfigCOM.getattr (sascfg (self st)) attr, st).

#[global] Instance outcome_ret : MRet outcome := fun A a => Ok a.
#[global] Instance outcome_bind : MBind outcome := fun A B f r =>
  match r with
  | Ok a => f a
  | Raise e => Raise e
  end.
#[global] Instance outcome_fmap : FMap outcome := fun A B f r =>
  match r with
  | Ok a => Ok (f a)
  | Raise e => Raise e
  end.

(** ** Calendar values

    [datetime] and [timedelta] of Python's standard library, in
    microseconds: a [datetime] lies between 0001-01-01 and the end of
    9999-12-31, a [timedelta] holds at most 999999999 days in absolute
    value, and both constructors and [+] raise [OverflowError] outside. *)

Definition US_PER_SECOND : Z := 1000000.
Definition US_PER_DAY : Z := 86400 * US_PER_SECOND.
Definition MAX_DELTA_DAYS : Z := 999999999.
Definition DATETIME_DAYS : Z := 3652059.

Definition timedelta (days seconds : Z) : outcome Z :=
  let us := days * US_PER_DAY + seconds * US_PER_SECOND in
  let d := us / US_PER_DAY in
  if ((- MAX_DELTA_DAYS <=? d) && (d <=? MAX_DELTA_DAYS))%Z
  then Ok us else Raise OverflowError.

Definition datetime_add (dt delta : Z) : outcome Z :=
  let r := dt + delta in
  if ((0 <=? r) && (r <? DATETIME_DAYS * US_PER_DAY))%Z
  then Ok r else Raise OverflowError.

(** ** Column metadata *)

(** The three functions [_schema] stores under [CONVERT]:
    [lambda x: SAS_EPOCH + timedelta(days=x)],
    [lambda x: SAS_EPOCH + timedelta(seconds=x)] and [lambda x: x]. *)
Inductive convert :=
| ConvertDate
| ConvertDatetime
| ConvertIdentity.

Inductive field :=
| Value (c : cell)
| Lambda (f : convert).

#[global] Instance convert_eq_dec : EqDecision convert.
Proof. solve_decision. Defined.
#[global] Instance field_eq_dec : EqDecision field.
Proof. solve_decision. Defined.

(** A [dict] whose insertion order is kept. *)
Fixpoint dict_set {K V} `{EqDecision K} (d : list (K * V)) (k : K) (v : V)
  : list (K * V) :=
  match d with
  | [] => [(k, v)]
  | (k', v') :: d' =>
      if decide (k' = k) then (k, v) :: d' else (k', v') :: dict_set d' k v
  end.

Fixpoint dict_get {K V} `{EqDecision K} (d : list (K * V)) (k : K) : option V :=
  match d with
  | [] => None
  | (k', v') :: d' => if decide (k' = k) then Some v' else dict_get d' k
  end.

Abbreviation col_info := (list (string * field)).

Definition getitem (d : col_info) (key : string) : outcome field :=
  match dict_get d key with
  | Some v => Ok v
  | None => Raise (KeyError key)
  end.

(** [x in names] for a tuple of strings. *)
Definition field_in (x : field) (names : list string) : bool :=
  match x with
  | Value (CStr s) => bool_decide (s ∈ names)
  | _ => false
  end.

Definition apply_convert (sb : SASsession) (f : convert) (x : cell) : outcome cell :=
  match f with
  | ConvertIdentity => Ok x
  | ConvertDate =>
      match x with
      | CInt n => d ← timedelta n 0; CDatetime <$> datetime_add (SAS_EPOCH sb) d
      | _ => Raise TypeError
      end
  | ConvertDatetime =>
      match x with
      | CInt n => d ← timedelta 0 n; CDatetime <$> datetime_add (SAS_EPOCH sb) d
      | _ => Raise TypeError
      end
  end.

(** ** Collaborators of the table and text methods

    The option formatters of [sb], the provider's record sets and pandas,
    whose code is elsewhere.  A record set is the list of its records;
    the operations on it are not recorded in the trace of calls. *)
Class Marshalling := {
  options : Type;                        (* a dict of dataset, import or export options *)
  no_options : options;                  (* the empty dict *)
  _dsopts : options -> string;
  _impopts : options -> string;
  _expopts : options -> string;
  recordset : World -> string -> list (list (string * cell));
                                         (* the records of the table a RecordSet is opened
                                            on, each the [(Name, Value)] of its fields *)
  py_repr : field -> string;             (* [str] of a value the model does not render *)
  text_encode : string -> list byte;     (* what writing text to a local file puts there *)
  DataFrame : Type;
  from_records : list (list cell) -> list string -> DataFrame;
  pd_read_csv : string -> list field -> DataFrame;
}.

(** ** [SASSessionCOM] *)

Module SASSessionCOM.
Section Methods.
Context `{Externals}.

Definition SAS_APP : string := "SASApp".
Definition HTML_RESULT_FILE : string := "saspy_results.html".
Definition PROTOCOL_COM : Z := 0.
Definition PROTOCOL_IOM : Z := 2.
Definition SCHEMA_COLUMNS : Z := 4.
Definition STATE_CLOSED : Z := 0.
Definition STATE_OPEN : Z := 1.
Definition STREAM_READ : Z := 1.
Definition STREAM_WRITE : Z := 2.

Definition with_connection (ws : option string) (kp : list string)
  (db : option Z) (s : SASSessionCOM) : SASSessionCOM :=
  {| sascfg := sascfg s; _sb := _sb s; _log := _log s;
     workspace := ws; keeper := kp; adodb := db; pid := pid s |}.

Definition with_log (l : string) (s : SASSessionCOM) : SASSessionCOM :=
  {| sascfg := sascfg s; _sb := _sb s; _log := l;
     workspace := workspace s; keeper := keeper s; adodb := adodb s;
     pid := pid s |}.

Definition with_parser (err : bool) (e : Engine) : Engine :=
  {| ls_error := err; ls_log := ls_log e; ls_lst := ls_lst e;
     remote_fs := remote_fs e |}.

Definition with_queues (log lst : list string) (e : Engine) : Engine :=
  {| ls_error := ls_error e; ls_log := log; ls_lst := lst;
     remote_fs := remote_fs e |}.

Definition with_remote_fs (fs : gmap string remote_node) (e : Engine) : Engine :=
  {| ls_error := ls_error e; ls_log := ls_log e; ls_lst := ls_lst e;
     remote_fs := fs |}.

(** *** The language service *)

(** Modelled from the spec: the parser of the remote engine, which is
    not part of this repository.  "Submitting syntactically incomplete
    input leaves the parser in a state that rejects all further input
    until reset": a unit handed over while the parser is in its error
    state is rejected with a broker error; otherwise the engine runs it,
    and [sas_run] decides the state the parser is left in. *)
Definition LanguageService_Submit (text : string) : M unit :=
  _ ← the_workspace;
  call (LS_Submit text);;
  stuck ← gets (fun st => ls_error (engine (world st)));
  if stuck : bool then raise (com_error "LanguageService.Submit")
  else modify (set_engine (sas_run text)).

(** Modelled from the spec: [LanguageService.Reset], which releases the
    parser of the remote engine from its error state. *)
Definition LanguageService_Reset : M unit :=
  _ ← the_workspace;
  call LS_Reset;;
  modify (set_engine (with_parser false)).

(** *** [_startsas], [_endsas] *)

(** The object factory: the broker creates the workspace and names it, or
    fails when it has no workspace to give. *)
Definition CreateObjectByServer (name : string) (server : ServerDef)
  (user password : value) : M string :=
  call (Factory_CreateObjectByServer name server user password);;
  ids ← gets (fun st => broker_ids (world st));
  match ids with
  | [] => raise (com_error "CreateObjectByServer")
  | id :: rest =>
      modify (fun st =>
        set_io (stdout (world st)) (stderr (world st)) (answers (world st)) rest st);;
      mret id
  end.

Definition _startsas : M string :=
  ws ← gets (fun st => workspace (self st));
  match ws with
  | Some id =>
      (* Do not create a new connection *)
      mret id
  | None =>
      modify (set_self (with_connection None [] (Some STATE_CLOSED)));;
      host ← cfgattr "host";
      '(server, user, password) ←
        (if is_None host then
           mret ({| MachineDNSName := VStr "127.0.0.1"; Port := VInt 0;
                    Protocol := PROTOCOL_COM; ClassIdentifier := None |},
                 VNone, VNone)
         else
           port ← cfgattr "port";
           class_id ← cfgattr "class_id";
           user ← cfgattr "user";
           pw ← cfgattr "pw";
           mret ({| MachineDNSName := host; Port := port;
                    Protocol := PROTOCOL_IOM; ClassIdentifier := Some class_id |},
                 user, pw));
      id ← CreateObjectByServer SAS_APP server user password;
      modify (set_self (with_connection (Some id) [] (Some STATE_CLOSED)));;
      call (Keeper_AddObject id);;
      modify (set_self (with_connection (Some id) [id] (Some STATE_CLOSED)));;
      provider ← cfgattr "provider";
      call (ADODB_Open ("Provider=" +:+ str provider +:+ "; Data Source=iom-id://" +:+ id));;
      modify (set_self (with_connection (Some id) [id] (Some STATE_OPEN)));;
      mret id
  end.

Definition _endsas : M unit :=
  db ← gets (fun st => adodb (self st));
  match db with
  | None => raise (AttributeError "adodb")
  | Some _ =>
      call ADODB_Close;;
      ws ← the_workspace;
      call (Keeper_RemoveObject ws);;
      call (Workspace_Close ws);;
      modify (set_self (fun s =>
        with_connection (workspace s) (List.filter (fun x => negb (String.eqb x ws)) (keeper s))
          (Some STATE_CLOSED) s))
  end.

(** *** The drain loops

    [FlushList] and [FlushLog] yield the next chunk the engine holds
    ready, and the empty string when none is left; a binary stream
    yields the next bytes of the file, at most [buf] of them. *)

Definition _getlst (buf : Z) : M string :=
  _ ← the_workspace;
  q ← gets (fun st => ls_lst (engine (world st)));
  let '(result, q', reads) := drain_str q in
  modify (add_calls (repeat (LS_FlushList buf) reads));;
  modify (set_engine (fun e => with_queues (ls_log e) q' e));;
  mret result.

Definition _getlog (buf : Z) : M string :=
  _ ← the_workspace;
  q ← gets (fun st => ls_log (engine (world st)));
  let '(result, q', reads) := drain_str q in
  modify (add_calls (repeat (LS_FlushLog buf) reads));;
  modify (set_engine (fun e => with_queues q' (ls_lst e) e));;
  (* Store flush result in running log *)
  modify (set_self (fun s => with_log (_log s +:+ result) s));;
  mret result.

(** The chunks a binary stream over [content] yields to reads of [buf]
    bytes: the content in slices of [buf] bytes, the last one shorter. *)
Fixpoint slices_fuel (fuel buf : nat) (content : list byte) : list (list byte) :=
  match fuel, content with
  | S fuel', _ :: _ => take buf content :: slices_fuel fuel' buf (drop buf content)
  | _, _ => []
  end.

Definition slices (buf : Z) (content : list byte) : list (list byte) :=
  slices_fuel (length content) (Z.to_nat buf) content.

(** What [_getfile] returns: [bytes], or [str] when [decode] is [True]. *)
Inductive filedata :=
| Bytes (b : list byte)
| Str (s : string).

Definition _getfile (fname : string) (buf : Z) (dec : bool) : M filedata :=
  _ ← the_workspace;
  call (FS_AssignFileref "outfile" fname "");;
  call (Stream_Open STREAM_READ);;
  node ← gets (fun st => remote_fs (engine (world st)) !! fname);
  match node with
  | Some (RemoteFile content) =>
      let '(result, _, reads) := drain_bytes (slices buf content) in
      modify (add_calls (repeat (Stream_Read buf) reads));;
      call Stream_Close;;
      call (FS_DeassignFileref "outfile");;
      if dec then
        encoding ← cfgattr "encoding";
        match encoding with
        | VStr enc => s ← lift (decode enc result); mret (Str s)
        | _ => raise TypeError
        end
      else mret (Bytes result)
  | _ => raise (com_error "OpenBinaryStream")
  end.

Definition _gethtmlfn : M string :=
  gets (fun st => workpath (_sb (self st)) +:+ HTML_RESULT_FILE).

Definition _reset : M unit := LanguageService_Reset.

(** *** [_schema], [exist] *)

Definition the_adodb : M Z :=
  fun st =>
    match adodb (self st) with
    | Some state => (Ok state, st)
    | None => (Raise (AttributeError "adodb"), st)
    end.

(** [adodb.OpenSchema(SCHEMA_COLUMNS, [None, None, tablepath])]: the rows
    of the query, each the list of its fields' [(Name, Value)]. *)
Definition OpenSchema (tablepath : string) : M (list (list (string * cell))) :=
  _ ← the_adodb;
  call (ADODB_OpenSchema tablepath);;
  gets (fun st => default [] (schemas (world st) !! tablepath)).

(** [{x.Name: x.Value for x in schema.Fields}] *)
Definition fields_dict (fields : list (string * cell)) : col_info :=
  foldl (fun d x => dict_set d (fst x) (Value (snd x))) [] fields.

Definition derive_convert (sb : SASsession) (format_name : field) : convert :=
  if field_in format_name (sas_date_fmts sb) then ConvertDate
  else if field_in format_name (sas_datetime_fmts sb) then ConvertDatetime
  (* elif FIXME TIME FORMATS *)
  else ConvertIdentity.

(** The [while not schema.EOF] loop; [metadata] is keyed by the value of
    [COLUMN_NAME]. *)
Fixpoint schema_loop (sb : SASsession) (rows : list (list (string * cell)))
  (metadata : list (field * col_info)) : outcome (list (field * col_info)) :=
  match rows with
  | [] => Ok metadata
  | fields :: rest =>
      let col_info := fields_dict fields in
      format_name ← getitem col_info "FORMAT_NAME";
      let col_info := dict_set col_info "CONVERT" (Lambda (derive_convert sb format_name)) in
      column_name ← getitem col_info "COLUMN_NAME";
      schema_loop sb rest (dict_set metadata column_name col_info)
  end.

(** [schema.MoveFirst()] on a recordset without rows is an error of the
    provider (ADO: "generates an error" when BOF and EOF are both true). *)
Definition _schema (table : string) (libref : option string)
  : M (list (field * col_info)) :=
  sb ← gets (fun st => _sb (self st));
  let tablepath := _tablepath sb table libref in
  rows ← OpenSchema tablepath;
  match rows with
  | [] => raise (com_error "MoveFirst")
  | _ => lift (schema_loop sb rows [])
  end.

Definition exist (table : string) (libref : option string) : M bool :=
  sb ← gets (fun st => _sb (self st));
  let tablepath := _tablepath sb table libref in
  rows ← OpenSchema tablepath;
  (* exists = not schema.BOF *)
  mret (match rows with [] => false | _ => true end).

(** *** [_prompt] *)

(** The [while input_ok is False] loop over the answers of the prompt
    collaborator; with no answer left the collaborator returns [None].
    Returns the answers left and the lines printed. *)
Fixpoint ask (key : string) (ans : list (option string))
  : outcome (string * string) * list (option string) * list string :=
  match ans with
  | [] => (Raise KeyboardInterrupt, [], [])
  | None :: rest => (Raise KeyboardInterrupt, rest, [])
  | Some val :: rest =>
      if truthy_str val then (Ok (key, val), rest, [])
      else
        let '(r, rest', out) := ask key rest in
        (r, rest', "Input not valid." :: out)
  end.

Definition _prompt (key : string) (hide : value) : M (string * string) :=
  fun st =>
    match sascfg (self st) !! "_prompt" with
    | Some _ => (Raise TypeError, st)   (* the attribute was overridden by a keyword *)
    | None =>
        let w := world st in
        let '(r, rest, out) := ask key (answers w) in
        (r, set_io (stdout w ++ out)%list (stderr w) rest (broker_ids w) st)
    end.

(** *** [_asubmit], [submit] *)

Fixpoint spaces (n : nat) : string :=
  match n with
  | O => EmptyString
  | S n' => String " "%char (spaces n')
  end.

Definition ods_open (output : value) (htmlfn style : string) : string :=
  nl +:+ spaces 16 +:+ "ods listing close;" +:+
  nl +:+ spaces 16 +:+ "ods " +:+ str output +:+ " (id=saspy_internal) options(bitmap_mode='inline')" +:+
  nl +:+ spaces 20 +:+ "file=" +:+ dquote +:+ htmlfn +:+ dquote +:+
  nl +:+ spaces 20 +:+ "device=svg" +:+
  nl +:+ spaces 20 +:+ "style=" +:+ style +:+ ";" +:+
  nl +:+ spaces 16 +:+ "ods graphics on / outputfmt=png;" +:+
  nl +:+ spaces 12.

Definition ods_close (output : value) : string :=
  nl +:+ spaces 16 +:+ "ods " +:+ str output +:+ " (id=saspy_internal) close;" +:+
  nl +:+ spaces 16 +:+ "ods listing;" +:+
  nl +:+ spaces 12.

Definition is_html (results : string) : bool := String.eqb (lower results) "html".

Definition _asubmit (code results : string) : M unit :=
  (* Support html ods *)
  '(ods_open, ods_close) ←
    (if is_html results then
       output ← cfgattr "output";
       htmlfn ← _gethtmlfn;
       style ← gets (fun st => HTML_Style (_sb (self st)));
       output' ← cfgattr "output";
       mret (ods_open output htmlfn style, ods_close output')
     else mret (EmptyString, EmptyString));
  (* Submit program *)
  let full_code := ods_open +:+ code +:+ ods_close in
  LanguageService_Submit full_code.

Definition RESET : string := ";*';*" +:+ dquote +:+ ";*/;quit;run;".

(** A name that no scope binds. *)
Definition unbound {A} (name : string) : M A := raise (NameError name).

(** The [for key, value in prompt.items()] loop.  Its body is
    ['%let {} = {};\n'.format( *self._prompt(key, val))]: the loop binds
    [key] and [value], and [val] is a name of no scope of [submit]. *)
Fixpoint declare_macros (items : list (string * value)) (macro_declare : string)
  : M string :=
  match items with
  | [] => mret macro_declare
  | (key, value) :: rest =>
      val ← unbound "val";
      kv ← _prompt key val;
      declare_macros rest
        (macro_declare +:+ "%let " +:+ fst kv +:+ " = " +:+ snd kv +:+ ";" +:+ nl)
  end.

(** [s.replace(old, new)] for a non-empty [old]: [skip] characters of a
    match just replaced are still to be passed over. *)
Fixpoint replace_from (old new : string) (skip : nat) (s : string) : string :=
  match s with
  | EmptyString => EmptyString
  | String c s' =>
      match skip with
      | S k => replace_from old new k s'
      | O =>
          if String.prefix old s
          then new +:+ replace_from old new (String.length old - 1) s'
          else String c (replace_from old new 0 s')
      end
  end.

Definition replace (old new s : string) : string := replace_from old new 0 s.

Definition submit (code results : string) (prompt : option (list (string * value)))
  : M dict :=
  let prompt := default [] prompt in
  macro_declare ← declare_macros prompt EmptyString;
  (* Submit program *)
  _asubmit (RESET +:+ macro_declare +:+ code +:+ RESET) results;;
  (* Retrieve listing and log *)
  log ← _getlog 2048;
  listing ←
    (if is_html results then
       htmlfn ← _gethtmlfn;
       data ← _getfile htmlfn 2048 true;
       match data with
       | Str s =>
           mret (replace "font-size: x-small;" "font-size: normal;"
                  (replace ("<body class=" +:+ dquote +:+ "c body" +:+ dquote +:+ ">")
                           ("<body class=" +:+ dquote +:+ "l body" +:+ dquote +:+ ">")
                    (replace (String (ascii_of_nat 12) EmptyString) nl s)))
       | Bytes _ => raise TypeError
       end
     else _getlst 2048);
  (* Invalid syntax will put the interface in to an error state. Reset
     the LanguageService to prevent further errors. *)
  _reset;;
  mret ({[ "LOG" := VStr log; "LST" := VStr listing ]} : dict).

Definition saslog : M string := gets (fun st => _log (self st)).

(** *** [upload], [download] *)

Definition transfer_result (success : bool) (log : string) : dict :=
  {[ "Success" := VBool success; "LOG" := VStr log ]}.

(** The [with open(local, 'rb') as f:] block of [upload]. *)
Definition upload_to (local remote_file perms : string) : M dict :=
  f ← gets (fun st => local_fs (world st) !! local);
  match f with
  | Some (LocalFile data) =>
      _ ← the_workspace;
      call (FS_AssignFileref "infile" remote_file perms);;
      call (Stream_Open STREAM_WRITE);;
      target ← gets (fun st => remote_fs (engine (world st)) !! remote_file);
      match target with
      | Some RemoteDir => raise (com_error "OpenBinaryStream")
      | _ =>
          call (Stream_Write data);;
          modify (set_engine (fun e =>
            with_remote_fs (<[remote_file := RemoteFile data]> (remote_fs e)) e));;
          call Stream_Close;;
          call (FS_DeassignFileref "infile");;
          mret (transfer_result true "File successfully written using FileService.")
      end
  | _ => raise (OSError local)
  end.

Definition upload (local remote : string) (overwrite : value) (permission : string)
  : M dict :=
  let perms :=
    if truthy_str permission then "PERMISSION='" +:+ permission +:+ "'"
    else EmptyString in
  sb ← gets (fun st => _sb (self st));
  valid ← gets (fun st => file_info sb (remote_fs (engine (world st))) remote);
  if bool_decide (valid = Some ∅) then
    (* Parameter `remote` references a directory. Default to using the
       filename in `local` path. *)
    upload_to local (remote +:+ hostsep sb +:+ os_path_basename local) perms
  else if negb (bool_decide (valid = None)) && is_False overwrite then
    (* Parameter `remote` references a file that exists but we cannot
       overwrite it. *)
    mret (transfer_result false
            ("File " +:+ remote +:+ " exists and overwrite was set to False. Upload was stopped."))
  else
    upload_to local remote perms.

Definition download (local remote : string) (overwrite : value) : M dict :=
  sb ← gets (fun st => _sb (self st));
  valid ← gets (fun st => file_info sb (remote_fs (engine (world st))) remote);
  if bool_decide (valid = None) then
    (* Parameter `remote` references an invalid file path. *)
    mret (transfer_result false ("File " +:+ remote +:+ " does not exist."))
  else if bool_decide (valid = Some ∅) then
    (* Parameter `remote` references a directory. *)
    mret (transfer_result false ("File " +:+ remote +:+ " is a directory."))
  else
    isdir ← gets (fun st => bool_decide (local_fs (world st) !! local = Some LocalDir));
    local_file ←
      (if isdir : bool then
         (* Parameter `local` references a directory. Default to using the
            filename in `remote` path. *)
         base ← lift (rpartition_2 remote (hostsep sb));
         mret (os_path_join local base)
       else mret local);
    (* with open(local_file, 'wb') as f: a file is emptied; a path that
       is free is created, in the directory [local] or where the platform
       lets a file be created; [open] raises [IsADirectoryError] or
       [FileNotFoundError], both of them an [OSError], otherwise *)
    fs ← gets (fun st => local_fs (world st));
    if match fs !! local_file with
       | Some LocalDir => false
       | Some (LocalFile _) => true
       | None => isdir || can_create fs local_file
       end
    then
      modify (set_local_fs (<[local_file := LocalFile []]>));;
      data ← _getfile remote 2048 false;
      match data with
      | Bytes b =>
          modify (set_local_fs (<[local_file := LocalFile b]>));;
          mret (transfer_result true "File successfully read using FileService.")
      | Str _ => raise TypeError
      end
    else raise (OSError local_file).

(** *** The constructor *)

Definition __init__ (kwargs : list keyword) (w : World)
  : outcome SASSessionCOM * World :=
  let '(r, err) := SASConfigCOM.__init__ kwargs in
  let w1 :=
    {| engine := engine w; calls := calls w; broker_ids := broker_ids w;
       schemas := schemas w; local_fs := local_fs w; stdout := stdout w;
       stderr := (stderr w ++ err)%list; answers := answers w |} in
  match r, session_of kwargs with
  | Ok config, Some session =>
      let self0 :=
        {| sascfg := config; _sb := session; _log := EmptyString;
           workspace := None; keeper := []; adodb := None; pid := None |} in
      match _startsas {| self := self0; world := w1 |} with
      | (Ok id, st) =>
          (Ok {| sascfg := sascfg (self st); _sb := _sb (self st);
                 _log := _log (self st); workspace := workspace (self st);
                 keeper := keeper (self st); adodb := adodb (self st);
                 pid := Some id |}, world st)
      | (Raise e, st) => (Raise e, world st)
      end
  | Raise e, _ => (Raise e, w1)
  | Ok _, None => (Raise (KeyError "sb"), w1)
  end.

(** *** [__del__] *)

Definition __del__ : M unit :=
  state ← the_adodb;
  if (state =? STATE_OPEN)%Z then _endsas else mret tt.

(** *** Program text of the table and CSV methods *)

Context `{Mar : Marshalling}.

Definition upper_ascii (c : ascii) : ascii :=
  let n := N_of_ascii c in
  if ((97 <=? n) && (n <=? 122))%N then ascii_of_N (n - 32) else c.

Fixpoint upper (s : string) : string :=
  match s with
  | EmptyString => EmptyString
  | String c s' => String (upper_ascii c) (upper s')
  end.

(** [sep.join(l)] *)
Fixpoint join (sep : string) (l : list string) : string :=
  match l with
  | [] => EmptyString
  | x :: l' =>
      match l' with
      | [] => x
      | _ :: _ => x +:+ sep +:+ join sep l'
      end
  end.

Definition is_True (v : value) : bool :=
  match v with VBool true => true | _ => false end.

(** [str(x)] of a field of a column record. *)
Definition str_field (x : field) : string :=
  match x with
  | Value CNone => "None"
  | Value (CInt n) => pretty n
  | Value (CStr s) => s
  | _ => py_repr x
  end.

(** [dsopts] as the table methods render it:
    [self._sb._dsopts(dsopts) if dsopts is not None else '']. *)
Definition dsopts_text (dsopts : option options) : string :=
  match dsopts with
  | Some d => _dsopts d
  | None => EmptyString
  end.

(** [filepath.replace] of every double quote by two double quotes. *)
Definition double_quotes (filepath : string) : string :=
  replace dquote (dquote +:+ dquote) filepath.

(** *** [read_sasdata] *)

Definition TARGET : string := "_saspy_sd2df".

Definition read_export (tgt tbl dopt : string) : string :=
  nl +:+ spaces 12 +:+ "data " +:+ tgt +:+ ";" +:+
  nl +:+ spaces 16 +:+ "set " +:+ tbl +:+ " " +:+ dopt +:+ ";" +:+
  nl +:+ spaces 12 +:+ "run;" +:+
  nl +:+ spaces 8.

(** [[meta[x.Name]['CONVERT'](x.Value) for x in recordset.Fields]] *)
Fixpoint convert_fields (sb : SASsession) (meta : list (field * col_info))
  (fields : list (string * cell)) : outcome (list cell) :=
  match fields with
  | [] => Ok []
  | (name, x) :: rest =>
      col ← match dict_get meta (Value (CStr name)) with
            | Some col => Ok col
            | None => Raise (KeyError name)
            end;
      f ← getitem col "CONVERT";
      y ← match f with
          | Lambda g => apply_convert sb g x
          | Value _ => Raise TypeError
          end;
      ys ← convert_fields sb meta rest;
      Ok (y :: ys)
  end.

(** The [while not recordset.EOF] loop. *)
Fixpoint cursor_loop (sb : SASsession) (meta : list (field * col_info))
  (records : list (list (string * cell))) (rows : list (list cell))
  : outcome (list (list cell)) :=
  match records with
  | [] => Ok rows
  | fields :: rest =>
      row ← convert_fields sb meta fields;
      cursor_loop sb meta rest (rows ++ [row])%list
  end.

(** [recordset.MoveFirst()] on a record set without records is an error
    of the provider, as in [_schema]. *)
Definition read_sasdata (table : string) (libref : option string)
  (dsopts : option options) : M (list string * list (list cell)) :=
  sb ← gets (fun st => _sb (self st));
  let dsopts := dsopts_text dsopts in
  let tablepath := _tablepath sb table libref in
  (* Create an intermediate dataset with `dsopts` applied *)
  let export := read_export TARGET tablepath dsopts in
  LanguageService_Submit export;;
  meta ← _schema TARGET None;
  _ ← the_adodb;
  _ ← cfgattr "max_rows";
  _ ← cfgattr "pagesize";
  _ ← cfgattr "cachesize";
  records ← gets (fun st => recordset (world st) TARGET);
  match records with
  | [] => raise (com_error "MoveFirst")
  | first :: _ =>
      let header := map fst first in
      rows ← lift (cursor_loop sb meta records []);
      mret (header, rows)
  end.

(** *** [read_csv], [write_csv] *)

(** What [read_csv] returns: the program text, or the dict of [submit]. *)
Inductive code_or_result :=
| Code (proc_code : string)
| Result (d : dict).

Definition import_code (filepath tablepath opts : string) : string :=
  nl +:+ spaces 12 +:+ "filename csv_file " +:+ dquote +:+ filepath +:+ dquote +:+ ";" +:+
  nl +:+ spaces 12 +:+ "proc import datafile=csv_file out=" +:+ tablepath +:+ " dbms=csv replace;" +:+
  nl +:+ spaces 16 +:+ opts +:+
  nl +:+ spaces 12 +:+ "run;" +:+
  nl +:+ spaces 8.

Definition read_csv (filepath table : string) (libref : option string)
  (nosub : value) (opts : option options) : M code_or_result :=
  let opts := default no_options opts in
  let filepath :=
    if String.prefix "http" (lower filepath) then "url " +:+ filepath else filepath in
  sb ← gets (fun st => _sb (self st));
  let tablepath := _tablepath sb table libref in
  let proc_code := import_code (double_quotes filepath) tablepath (_impopts opts) in
  if is_True nosub then mret (Code proc_code)
  else d ← submit proc_code "text" None; mret (Result d).

(** The template of [write_csv] has three fields and its [format] call
    four arguments: the third field takes [_dsopts(dsopts)], and
    [_expopts(opts)], the fourth argument, goes nowhere. *)
Definition export_code (filepath tablepath dsopts expopts : string) : string :=
  nl +:+ spaces 12 +:+ "filename csv_file " +:+ dquote +:+ filepath +:+ dquote +:+ ";" +:+
  nl +:+ spaces 12 +:+ "proc export data=" +:+ tablepath +:+ " outfile=csv_file dbms=csv replace;" +:+
  nl +:+ spaces 16 +:+ dsopts +:+
  nl +:+ spaces 12 +:+ "run;" +:+
  nl +:+ spaces 8.

Definition write_csv (filepath table : string) (libref : option string)
  (nosub : value) (opts dsopts : option options) : M value :=
  let opts := default no_options opts in
  let dsopts := default no_options dsopts in
  sb ← gets (fun st => _sb (self st));
  let tablepath := _tablepath sb table libref in
  let proc_code :=
    export_code (double_quotes filepath) tablepath (_dsopts dsopts) (_expopts opts) in
  if is_True nosub then mret (VStr proc_code)
  else
    d ← submit proc_code "text" None;
    match d !! "LOG" with
    | Some log => mret log
    | None => raise (KeyError "LOG")
    end.

(** *** [sasdata2dataframeCSV], [sasdata2dataframe] *)

Definition FMT_DEFAULT_DATE_NAME : string := "E8601DA".
Definition FMT_DEFAULT_DATE_LENGTH : Z := 10.
Definition FMT_DEFAULT_DATE_PRECISION : Z := 0.
Definition FMT_DEFAULT_DATETIME_NAME : string := "E8601DT".
Definition FMT_DEFAULT_DATETIME_LENGTH : Z := 26.
Definition FMT_DEFAULT_DATETIME_PRECISION : Z := 6.

(** ['{column} {format}{length}.{precision}'.format(...)] *)
Definition FORMAT_STRING (column format length precision : field) : string :=
  str_field column +:+ " " +:+ str_field format +:+ str_field length +:+ "." +:+
  str_field precision.

Definition csv_export (fmt tbl dopt out : string) : string :=
  nl +:+ spaces 12 +:+ "data _saspy_sd2df;" +:+
  nl +:+ spaces 16 +:+ "format " +:+ fmt +:+ ";" +:+
  nl +:+ spaces 16 +:+ "set " +:+ tbl +:+ ";" +:+
  nl +:+ spaces 12 +:+ "run;" +:+
  nl +:+
  nl +:+ spaces 12 +:+ "proc export data=_saspy_sd2df " +:+ dopt +:+
  nl +:+ spaces 20 +:+ "outfile=" +:+ dquote +:+ out +:+ dquote +:+
  nl +:+ spaces 20 +:+ "dbms=csv replace;" +:+
  nl +:+ spaces 12 +:+ "run;" +:+
  nl +:+ spaces 8.

(** The [for name, col in self._schema(table, libref).items()] loop. *)
Fixpoint csv_formats (sb : SASsession) (items : list (field * col_info))
  (datecols : list field) (fmtlist : list string)
  : outcome (list field * list string) :=
  match items with
  | [] => Ok (datecols, fmtlist)
  | (name, col) :: rest =>
      format_name ← getitem col "FORMAT_NAME";
      '(datecols, col_format, col_length, col_precis) ←
        (if field_in format_name (sas_date_fmts sb) then
           Ok ((datecols ++ [name])%list,
               Value (CStr FMT_DEFAULT_DATE_NAME),
               Value (CInt FMT_DEFAULT_DATE_LENGTH),
               Value (CInt FMT_DEFAULT_DATE_PRECISION))
         else if field_in format_name (sas_datetime_fmts sb) then
           Ok ((datecols ++ [name])%list,
               Value (CStr FMT_DEFAULT_DATETIME_NAME),
               Value (CInt FMT_DEFAULT_DATETIME_LENGTH),
               Value (CInt FMT_DEFAULT_DATETIME_PRECISION))
         (* elif FIXME TIME FORMATS *)
         else
           col_format ← getitem col "FORMAT_NAME";
           col_length ← getitem col "FORMAT_LENGTH";
           col_precis ← getitem col "FORMAT_DECIMAL";
           Ok (datecols, col_format, col_length, col_precis));
      column ← getitem col "COLUMN_NAME";
      let full_format := FORMAT_STRING column col_format col_length col_precis in
      csv_formats sb rest datecols (fmtlist ++ [full_format])%list
  end.

(** [kwargs.get(key)] *)
Definition kwarg (kwargs : list (string * value)) (key : string) : value :=
  default VNone (snd <$> List.find (fun x => String.eqb (fst x) key) kwargs).

(** [with open(kwargs['tempfile'], 'w') as f: f.write(outstring)], for a
    path given as a string.  [open] raises [IsADirectoryError] on a
    directory and [FileNotFoundError] on a free path where no file can be
    created, both of them an [OSError]. *)
Definition write_text (path : value) (text : string) : M unit :=
  match path with
  | VStr p =>
      fs ← gets (fun st => local_fs (world st));
      match fs !! p with
      | Some LocalDir => raise (OSError p)
      | Some (LocalFile _) => modify (set_local_fs (<[p := LocalFile (text_encode text)]>))
      | None =>
          if can_create fs p
          then modify (set_local_fs (<[p := LocalFile (text_encode text)]>))
          else raise (OSError p)
      end
  | _ => raise TypeError
  end.

Definition sasdata2dataframeCSV (table : string) (libref : option string)
  (dsopts : option options) (kwargs : list (string * value)) : M DataFrame :=
  sb ← gets (fun st => _sb (self st));
  let sas_csv := workpath sb +:+ "saspy_sd2df.csv" in
  let opts := dsopts_text dsopts in
  let tablepath := _tablepath sb table libref in
  (* Convert any date format to one pandas can understand (ISO-8601). *)
  meta ← _schema table libref;
  '(datecols, fmtlist) ← lift (csv_formats sb meta [] []);
  let export := csv_export (join " " fmtlist) tablepath opts sas_csv in
  LanguageService_Submit export;;
  data ← _getfile sas_csv 2048 true;
  match data with
  | Str outstring =>
      (* Write temp file if requested by user *)
      (if is_True (kwarg kwargs "tempkeep") && negb (is_None (kwarg kwargs "tempfile"))
       then write_text (kwarg kwargs "tempfile") outstring
       else mret tt);;
      mret (pd_read_csv outstring datecols)
  | Bytes _ => raise TypeError
  end.

Definition sasdata2dataframe (table : string) (libref : option string)
  (dsopts : option options) (method : string) (kwargs : list (string * value))
  : M DataFrame :=
  if String.eqb (upper method) "CSV" then
    sasdata2dataframeCSV table libref dsopts kwargs
  else
    '(header, rows) ← read_sasdata table libref dsopts;
    mret (from_records rows header).

End Methods.
End SASSessionCOM.

(** ** A concrete installation

    A small engine, platform and session on which the statements below are
    evaluated. *)

Module Demo.

Definition contains (needle s : string) : bool :=
  match String.index 0 needle s with Some _ => true | None => false end.

Definition html_file : string := "/saswork/saspy_results.html".

(** The engine logs one note per unit and rewrites the capture file; a
    unit with an unbalanced quote leaves the parser in its error state. *)
Definition run (text : string) (e : Engine) : Engine :=
  {| ls_error := contains "title 'unbalanced;" text;
     ls_log := (ls_log e ++ ["NOTE: unit received." +:+ nl; "NOTE: done." +:+ nl])%list;
     ls_lst := (ls_lst e ++ ["The SAS System" +:+ nl])%list;
     remote_fs := <[html_file := RemoteFile (bytes_of "<html></html>")]> (remote_fs e) |}.

(** A file can be created where the part of the path before its last
    separator is a directory. *)
Definition creatable (fs : gmap string local_node) (p : string) : bool :=
  match after_last "/" p with
  | Some base =>
      bool_decide
        (fs !! String.substring 0 (String.length p - String.length base - 1) p =
         Some LocalDir)
  | None => false
  end.

Definition externals : Externals :=
  {| sas_run := run;
     os_path_basename := fun p => default p (after_last "/" p);
     os_path_join := fun a b => a +:+ "/" +:+ b;
     decode := fun _ b => Ok (string_of_list_byte b);
     can_create := creatable |}.



Definition info (fs : gmap string remote_node) (path : string) : option dict :=
  match fs !! path with
  | None => None
  | Some RemoteDir => Some ∅
  | Some (RemoteFile content) => Some {[ "Size" := VInt (Z.of_nat (length content)) ]}
  end.

Definition sb (lock_down : option value) : SASsession :=
  {| cfg := {[ "iomhost" := VStr "sas.example.com"; "iomport" := VInt 8591;
               "class_id" := VStr "440196d4"; "provider" := VStr "sas.iomprovider" ]};
     SAS_config_options :=
       match lock_down with Some v => {[ "lock_down" := v ]} | None => ∅ end;
     SAS_output_options := ∅;
     workpath := "/saswork/";
     HTML_Style := "HTMLBlue";
     hostsep := "/";
     sas_date_fmts := ["DATE"; "MMDDYY"; "YYMMDD"];
     sas_datetime_fmts := ["DATETIME"; "E8601DT"];
     SAS_EPOCH := 715509 * US_PER_DAY;
     _tablepath := fun table libref =>
       match libref with Some l => l +:+ "." +:+ table | None => table end;
     file_info := info |}.

Definition engine0 : Engine :=
  {| ls_error := false; ls_log := []; ls_lst := [];
     remote_fs := {[ "/data" := RemoteDir;
                     "/data/cars.csv" := RemoteFile (bytes_of "make,msrp") ]} |}.

Definition world0 : World :=
  {| engine := engine0; calls := []; broker_ids := ["8B1E"; "8B1F"];
     schemas := {[ "work.t" :=
       [ [("COLUMN_NAME", CStr "d"); ("FORMAT_NAME", CStr "DATE")];
         [("COLUMN_NAME", CStr "ts"); ("FORMAT_NAME", CStr "DATETIME")];
         [("COLUMN_NAME", CStr "x"); ("FORMAT_NAME", CStr "BEST")] ] ]};
     local_fs := {[ "/tmp" := LocalDir;
                    "/tmp/old.csv" := LocalFile (bytes_of "stale") ]};
     stdout := []; stderr := []; answers := [] |}.

(** A session as its constructor leaves it. *)
Definition session0 : SASSessionCOM :=
  {| sascfg := SASConfigCOM.from_config [] (sb None); _sb := sb None;
     _log := EmptyString; workspace := Some "8B1D"; keeper := ["8B1D"];
     adodb := Some 1; pid := Some "8B1D" |}.

Definition state0 : State := {| self := session0; world := world0 |}.

End Demo.

(** ** A concrete table

    A provider, a pandas and option formatters on which the statements
    about the table methods are evaluated. *)

Module DemoTables.

(** A data frame, by the constructor that made it. *)
Inductive frame :=
| Records (rows : list (list cell)) (columns : list string)
| Csv (text : string) (parse_dates : list field).

(** The intermediate table as the record set yields it. *)
Definition sales : list (list (string * cell)) :=
  [ [("make", CStr "Acura"); ("sold", CInt 1)];
    [("make", CStr "Audi"); ("sold", CInt 366)] ].

(** The same table with a missing date in its second record. *)
Definition sales_missing : list (list (string * cell)) :=
  [ [("make", CStr "Acura"); ("sold", CInt 1)];
    [("make", CStr "Audi"); ("sold", CNone)] ].

Definition marshalling (records : list (list (string * cell))) : Marshalling :=
  {| options := string;
     no_options := EmptyString;
     _dsopts := fun o => o;
     _impopts := fun o => o;
     _expopts := fun o => o;
     recordset := fun _ table =>
       if String.eqb table "_saspy_sd2df" then records else [];
     py_repr := fun _ => "<function>";
     text_encode := bytes_of;
     DataFrame := frame;
     from_records := Records;
     pd_read_csv := Csv |}.

(** The engine writes the CSV file of the export unit. *)
Definition run (text : string) (e : Engine) : Engine :=
  {| ls_error := Demo.contains "title 'unbalanced;" text;
     ls_log := (ls_log e ++ ["NOTE: unit received." +:+ nl])%list;
     ls_lst := ls_lst e;
     remote_fs :=
       <["/saswork/saspy_sd2df.csv" :=
           RemoteFile (bytes_of ("make,sold" +:+ nl +:+ "Acura,1960-01-02" +:+ nl))]>
         (remote_fs e) |}.

Definition externals : Externals :=
  {| sas_run := run;
     os_path_basename := fun p => default p (after_last "/" p);
     os_path_join := fun a b => a +:+ "/" +:+ b;
     decode := fun _ b => Ok (string_of_list_byte b);
     can_create := Demo.creatable |}.

Definition sales_columns : list (list (string * cell)) :=
  [ [("COLUMN_NAME", CStr "make"); ("FORMAT_NAME", CStr "$");
     ("FORMAT_LENGTH", CInt 13); ("FORMAT_DECIMAL", CInt 0)];
    [("COLUMN_NAME", CStr "sold"); ("FORMAT_NAME", CStr "DATE");
     ("FORMAT_LENGTH", CInt 9); ("FORMAT_DECIMAL", CInt 0)] ].

Definition world1 : World :=
  {| engine := Demo.engine0; calls := []; broker_ids := [];
     schemas := {[ "_saspy_sd2df" := sales_columns; "work.sales" := sales_columns ]};
     local_fs := {[ "/tmp" := LocalDir ]};
     stdout := []; stderr := []; answers := [] |}.

Definition state1 : State := {| self := Demo.session0; world := world1 |}.

End DemoTables.

(** ** Vocabulary of the statements *)

Import SASSessionCOM.

(** The chunks read before the first empty one. *)
Fixpoint payload {chunk} (truthy : chunk -> bool) (h : list chunk) : list chunk :=
  match h with
  | [] => []
  | c :: h' => if truthy c then c :: payload truthy h' else []
  end.

(** Concatenation, in order. *)
Definition join_str (l : list string) : string := foldr String.append "" l.
Definition join_bytes (l : list (list byte)) : list byte := foldr (@app byte) [] l.

(** The calls [_getfile] makes when it reads a file in [reads] reads. *)
Definition getfile_calls (fname : string) (buf : Z) (reads : nat) : list com_call :=
  ([FS_AssignFileref "outfile" fname ""; Stream_Open STREAM_READ]
   ++ repeat (Stream_Read buf) reads
   ++ [Stream_Close; FS_DeassignFileref "outfile"])%list.

(** The conversion an integer offset undergoes under each of the three
    stored functions, in closed form. *)
Definition in_datetime_range (us : Z) : bool :=
  ((0 <=? us) && (us <? DATETIME_DAYS * US_PER_DAY))%Z.

Definition in_delta_range (days : Z) : bool :=
  ((- MAX_DELTA_DAYS <=? days) && (days <=? MAX_DELTA_DAYS))%Z.

(** What [_schema] establishes for a column's metadata record. *)
Definition resolved (sb : SASsession) (col : col_info) : Prop :=
  exists format_name,
    dict_get col "FORMAT_NAME" = Some format_name /\
    dict_get col "CONVERT" = Some (Lambda (derive_convert sb format_name)).

(** The keywords that [__init__] passes to [_try_override] while
    [NO_OVERRIDE] is the attribute of the class. *)
Definition overriding (kwargs : list keyword) : list keyword :=
  List.filter (fun x => negb (bool_decide (key_of x ∈ SASConfigCOM.NO_OVERRIDE))) kwargs.

(** Keywords that leave the machinery of the configuration object alone:
    none of them is named [NO_OVERRIDE] or [_try_override], and each is
    a name that [setattr] accepts. *)
Definition plain_keywords (kwargs : list keyword) : Prop :=
  Forall (fun x => key_of x <> "NO_OVERRIDE" /\ key_of x <> "_try_override" /\
                   key_of x ∉ SASConfigCOM.reserved) kwargs.

(** Whatever its outcome, [c] only adds calls to the trace, and every
    call it adds satisfies [P]. *)
Definition appends {A} (P : com_call -> Prop) (c : M A) : Prop :=
  forall st, exists cs,
    calls (world (snd (c st))) = (calls (world st) ++ cs)%list /\ Forall P cs.

Definition is_submit (c : com_call) : Prop :=
  match c with LS_Submit _ => True | _ => False end.

Definition is_reset (c : com_call) : Prop :=
  match c with LS_Reset => True | _ => False end.

(** Calls that neither submit nor reset. *)
Definition quiet (c : com_call) : Prop := ~ is_submit c /\ ~ is_reset c.

(** The unit [submit] hands to [LanguageService.Submit] when no prompt
    is asked. *)
Definition submitted_unit (st : State) (code results : string) : string :=
  if is_html results then
    let output := default VNone (sascfg (self st) !! "output") in
    ods_open output (workpath (_sb (self st)) +:+ HTML_RESULT_FILE)
      (HTML_Style (_sb (self st)))
    +:+ RESET +:+ code +:+ RESET +:+ ods_close output
  else RESET +:+ code +:+ RESET.

(** What the file-info collaborator answers for a remote path. *)
Definition valid (st : State) (remote : string) : option dict :=
  file_info (_sb (self st)) (remote_fs (engine (world st))) remote.

(** The option string [upload] passes to [AssignFileref]. *)
Definition permission_option (permission : string) : string :=
  if truthy_str permission then "PERMISSION='" +:+ permission +:+ "'" else EmptyString.

Section Vocabulary.
Context `{Externals}.

(** [submit] after the unit is handed over: the listing, by mode, then
    the retrieval of log and listing and the reset. *)
Definition listing (results : string) : M string :=
  if is_html results then
    htmlfn ← _gethtmlfn;
    data ← _getfile htmlfn 2048 true;
    match data with
    | Str s =>
        mret (replace "font-size: x-small;" "font-size: normal;"
               (replace ("<body class=" +:+ dquote +:+ "c body" +:+ dquote +:+ ">")
                        ("<body class=" +:+ dquote +:+ "l body" +:+ dquote +:+ ">")
                 (replace (String (ascii_of_nat 12) EmptyString) nl s)))
    | Bytes _ => raise TypeError
    end
  else _getlst 2048.

Definition retrieve (results : string) : M dict :=
  log ← _getlog 2048;
  lst ← listing results;
  _reset;;
  mret ({[ "LOG" := VStr log; "LST" := VStr lst ]} : dict).

(** What rich output needs from the installation: the attributes
    [output] and [encoding], a codec that decodes, and an engine that
    leaves the capture file behind. *)
Definition capture_ready (s : SASSessionCOM) : Prop :=
  exists output enc,
    sascfg s !! "output" = Some output /\
    sascfg s !! "encoding" = Some (VStr enc) /\
    (forall b, exists text, decode enc b = Ok text) /\
    (forall unit e, exists content,
       remote_fs (sas_run unit e) !! (workpath (_sb s) +:+ HTML_RESULT_FILE) =
       Some (RemoteFile content)).

(** The local path [download] writes to. *)
Definition local_target (st : State) (local remote : string) : outcome string :=
  if bool_decide (local_fs (world st) !! local = Some LocalDir)
  then base ← rpartition_2 remote (hostsep (_sb (self st))); Ok (os_path_join local base)
  else Ok local.

(** [open(path, 'w')] succeeds: the path is a file, or it is free and the
    platform lets a file be created there. *)
Definition opens_for_writing (fs : gmap string local_node) (path : string) : bool :=
  match fs !! path with
  | Some (LocalFile _) => true
  | Some LocalDir => false
  | None => can_create fs path
  end.

End Vocabulary.

(** The server definition of a local connection, and the connection
    string [_startsas] opens the ADODB connection with. *)
Definition local_server : ServerDef :=
  {| MachineDNSName := VStr "127.0.0.1"; Port := VInt 0;
     Protocol := PROTOCOL_COM; ClassIdentifier := None |}.

Definition connection_string (provider : value) (id : string) : string :=
  "Provider=" +:+ str provider +:+ "; Data Source=iom-id://" +:+ id.

(** The calls of [_endsas] on the workspace [ws]. *)
Definition endsas_calls (ws : string) : list com_call :=
  [ADODB_Close; Keeper_RemoveObject ws; Workspace_Close ws].

(** The state [_startsas] leaves when it opens the workspace [id]. *)
Definition opened (id : string) (server : ServerDef) (user password provider : value)
  (rest : list string) (st : State) : State :=
  set_self (with_connection (Some id) [id] (Some STATE_OPEN))
    (add_calls [Factory_CreateObjectByServer SAS_APP server user password;
                Keeper_AddObject id;
                ADODB_Open (connection_string provider id)]
       (set_io (stdout (world st)) (stderr (world st)) (answers (world st)) rest st)).

(** The state [_endsas] leaves. *)
Definition closed (ws : string) (st : State) : State :=
  set_self (fun s =>
    with_connection (workspace s)
      (List.filter (fun x => negb (String.eqb x ws)) (keeper s)) (Some STATE_CLOSED) s)
    (add_calls (endsas_calls ws) st).

(** The state [upload_to] leaves when it writes [data] to [remote_file]. *)
Definition uploaded (remote_file perms : string) (data : list byte) (st : State) : State :=
  add_calls [Stream_Close; FS_DeassignFileref "infile"]
    (set_engine (fun e => with_remote_fs (<[remote_file := RemoteFile data]> (remote_fs e)) e)
       (add_calls [FS_AssignFileref "infile" remote_file perms;
                   Stream_Open STREAM_WRITE; Stream_Write data] st)).

(** The demonstration session with a copy of the local file already in
    the remote directory. *)
Definition demo_with_remote_copy : State :=
  set_engine (fun e => with_remote_fs
    (<["/data/old.csv" := RemoteFile (bytes_of "remote copy")]> (remote_fs e)) e)
    Demo.state0.

(** The last row of a column query that names the column [name]. *)
Fixpoint column_row (rows : list (list (string * cell))) (name : field)
  : option (list (string * cell)) :=
  match rows with
  | [] => None
  | row :: rest =>
      match column_row rest name with
      | Some r => Some r
      | None =>
          if decide (dict_get (fields_dict row) "COLUMN_NAME" = Some name)
          then Some row else None
      end
  end.

Definition row_format (row : list (string * cell)) : option field :=
  dict_get (fields_dict row) "FORMAT_NAME".

(** The format of the column [name], by the last row that names it. *)
Definition column_format (rows : list (list (string * cell))) (name : field)
  : option field :=
  column_row rows name ≫= row_format.

(** The metadata record of a row: its fields, and [CONVERT]. *)
Definition column_record (sb : SASsession) (row : list (string * cell))
  : option col_info :=
  fmt ← row_format row;
  Some (dict_set (fields_dict row) "CONVERT" (Lambda (derive_convert sb fmt))).

(** A row of the column query that has the two fields [_schema] reads. *)
Definition described (row : list (string * cell)) : Prop :=
  is_Some (dict_get (fields_dict row) "FORMAT_NAME") /\
  is_Some (dict_get (fields_dict row) "COLUMN_NAME").

(** The column names of a column query, and the records [_schema] makes
    of its rows. *)
Definition column_names (rows : list (list (string * cell))) : list field :=
  omap (fun row => dict_get (fields_dict row) "COLUMN_NAME") rows.

Definition schema_records (sb : SASsession) (rows : list (list (string * cell)))
  : list (field * col_info) :=
  omap (fun row =>
          name ← dict_get (fields_dict row) "COLUMN_NAME";
          col ← column_record sb row;
          Some (name, col)) rows.

(** A date or datetime format. *)
Definition temporal (sb : SASsession) (fmt : field) : bool :=
  field_in fmt (sas_date_fmts sb) || field_in fmt (sas_datetime_fmts sb).

(** A value that is not a number: [None] for a missing value, a string,
    a datetime. *)
Definition not_a_number (x : cell) : bool :=
  match x with
  | CNone | CStr _ | CDatetime _ => true
  | CInt _ => false
  end.

(** The names of the columns with a date or datetime format, in the
    order of the column query. *)
Definition temporal_columns (sb : SASsession) (rows : list (list (string * cell)))
  : list field :=
  omap (fun row =>
          fmt ← row_format row;
          if temporal sb fmt then dict_get (fields_dict row) "COLUMN_NAME" else None) rows.

(** A computation that leaves the observation [f] of the state as it
    was, whatever its outcome. *)
Definition preserves {A X} (f : State -> X) (c : M A) : Prop :=
  forall st, f (snd (c st)) = f st.

Section TableVocabulary.
Context `{Externals} `{Marshalling}.

(** The unit [read_sasdata] hands to the language service. *)
Definition read_unit (st : State) (table : string) (libref : option string)
  (dsopts : option options) : string :=
  read_export TARGET (_tablepath (_sb (self st)) table libref) (dsopts_text dsopts).

(** The state in which [read_sasdata] opens its record set: the unit has
    run and the column query of the intermediate table was made. *)
Definition after_export (unit : string) (st : State) : State :=
  add_calls [ADODB_OpenSchema (_tablepath (_sb (self st)) TARGET None)]
    (set_engine (sas_run unit) (add_calls [LS_Submit unit] st)).

(** The cell [read_sasdata] returns for a field of a record, the column
    query having returned [rows]. *)
Definition converts (sb : SASsession) (rows : list (list (string * cell)))
  (fld : string * cell) (y : cell) : Prop :=
  exists fmt,
    column_format rows (Value (CStr (fst fld))) = Some fmt /\
    apply_convert sb (derive_convert sb fmt) (snd fld) = Ok y.

(** The format [sasdata2dataframeCSV] gives the column of a row in its
    export unit. *)
Definition export_format (sb : SASsession) (row : list (string * cell)) (s : string)
  : Prop :=
  exists cn fmt,
    dict_get (fields_dict row) "COLUMN_NAME" = Some cn /\
    row_format row = Some fmt /\
    (if field_in fmt (sas_date_fmts sb)
     then s = str_field cn +:+ " E8601DA10.0"
     else if field_in fmt (sas_datetime_fmts sb)
     then s = str_field cn +:+ " E8601DT26.6"
     else exists len dec,
       dict_get (fields_dict row) "FORMAT_LENGTH" = Some len /\
       dict_get (fields_dict row) "FORMAT_DECIMAL" = Some dec /\
       s = FORMAT_STRING cn fmt len dec).

(** The file, the unit and the final state of [sasdata2dataframeCSV]. *)
Definition csv_file (sb : SASsession) : string := workpath sb +:+ "saspy_sd2df.csv".

Definition csv_unit (st : State) (table : string) (libref : option string)
  (dsopts : option options) (fmts : list string) : string :=
  csv_export (join " " fmts) (_tablepath (_sb (self st)) table libref)
    (dsopts_text dsopts) (csv_file (_sb (self st))).

Definition after_csv_export (st : State) (table : string) (libref : option string)
  (unit : string) (reads : nat) : State :=
  add_calls (getfile_calls (csv_file (_sb (self st))) 2048 reads)
    (set_engine (sas_run unit)
       (add_calls [ADODB_OpenSchema (_tablepath (_sb (self st)) table libref);
                   LS_Submit unit] st)).

(** [tempkeep] and [tempfile] ask for the temporary file. *)
Definition keeps_tempfile (kwargs : list (string * value)) : bool :=
  is_True (kwarg kwargs "tempkeep") && negb (is_None (kwarg kwargs "tempfile")).

End TableVocabulary.

(** A column query that names a column twice and whose last row lacks
    its format. *)
Definition twice_named : list (list (string * cell)) :=
  [ [("COLUMN_NAME", CStr "d"); ("FORMAT_NAME", CStr "BEST")];
    [("COLUMN_NAME", CStr "d"); ("FORMAT_NAME", CStr "DATE")];
    [("COLUMN_NAME", CStr "x")] ].

Definition state_twice_named : State :=
  {| self := Demo.session0;
     world := {| engine := Demo.engine0; calls := []; broker_ids := [];
                 schemas := {[ "work.t" := twice_named ]}; local_fs := ∅;
                 stdout := []; stderr := []; answers := [] |} |}.

(** What a drain returns of a queue of chunks, and what it leaves in the
    queue. *)
Definition flushed (q : list string) : string := join_str (payload truthy_str q).

Definition unflushed (q : list string) : list string :=
  drop (S (length (payload truthy_str q))) q.

(** The form feed, and the occurrence of a character in a text. *)
Definition form_feed : ascii := ascii_of_nat 12.

Fixpoint occurs (c : ascii) (s : string) : bool :=
  match s with
  | EmptyString => false
  | String a s' => Ascii.eqb a c || occurs c s'
  end.

Section SubmitVocabulary.
Context `{Externals}.

(** The state [submit] leaves in text mode: the unit has run, log and
    listing were drained, the language service was reset. *)
Definition after_text_submit (unit : string) (st : State) : State :=
  let e1 := sas_run unit (engine (world st)) in
  set_engine (with_parser false)
    (add_calls [LS_Reset]
       (set_engine (fun e => with_queues (ls_log e) (unflushed (ls_lst e1)) e)
          (add_calls (repeat (LS_FlushList 2048) (S (length (payload truthy_str (ls_lst e1)))))
             (set_self (with_log (_log (self st) +:+ flushed (ls_log e1)))
                (set_engine (fun e => with_queues (unflushed (ls_log e1)) (ls_lst e) e)
                   (add_calls
                      (repeat (LS_FlushLog 2048) (S (length (payload truthy_str (ls_log e1)))))
                      (set_engine (sas_run unit) (add_calls [LS_Submit unit] st)))))))).

End SubmitVocabulary.

(** The demonstration session with a file-info collaborator that still
    reports a file the file service no longer has. *)
Definition demo_with_stale_info : State :=
  {| self :=
       {| sascfg := sascfg Demo.session0;
          _sb := {| cfg := cfg (Demo.sb None);
                    SAS_config_options := SAS_config_options (Demo.sb None);
                    SAS_output_options := SAS_output_options (Demo.sb None);
                    workpath := workpath (Demo.sb None);
                    HTML_Style := HTML_Style (Demo.sb None);
                    hostsep := hostsep (Demo.sb None);
                    sas_date_fmts := sas_date_fmts (Demo.sb None);
                    sas_datetime_fmts := sas_datetime_fmts (Demo.sb None);
                    SAS_EPOCH := SAS_EPOCH (Demo.sb None);
                    _tablepath := _tablepath (Demo.sb None);
                    file_info := fun _ _ => Some {[ "Size" := VInt 9 ]} |};
          _log := _log Demo.session0; workspace := workspace Demo.session0;
          keeper := keeper Demo.session0; adodb := adodb Demo.session0;
          pid := pid Demo.session0 |};
     world := Demo.world0 |}.

(** * Properties *)

(** ** Strings and outcomes *)

Lemma append_nil_r (s : string) : s +:+ "" = s.
Proof.
  induction s as [|c s IH]; [reflexivity |].
  change (String c (s +:+ "") = String c s). now rewrite IH.
Qed.

Lemma append_assoc (a b c : string) : (a +:+ b) +:+ c = a +:+ (b +:+ c).
Proof.
  induction a as [|x a IH]; [reflexivity |].
  change (String x ((a +:+ b) +:+ c) = String x (a +:+ (b +:+ c))). now rewrite IH.
Qed.

Lemma prefix_append (a b : string) : String.prefix a (a +:+ b) = true.
Proof.
  induction a as [|x a IH]; [destruct b; reflexivity |].
  change (String.prefix (String x a) (String x (a +:+ b)) = true).
  simpl. destruct (ascii_dec x x); [exact IH | contradiction].
Qed.

Lemma truthy_str_false (s : string) : truthy_str s = false -> s = "".
Proof. destruct s; [reflexivity | discriminate]. Qed.

Lemma truthy_bytes_false (b : list byte) : truthy_bytes b = false -> b = [].
Proof. destruct b; [reflexivity | discriminate]. Qed.

(** ** Stream pump *)

Section PumpFacts.
Context {chunk : Type}.
Variable empty : chunk.
Variable truthy : chunk -> bool.
Variable cat : chunk -> chunk -> chunk.
Hypothesis truthy_empty : truthy empty = false.
Hypothesis falsy_is_empty : forall c, truthy c = false -> c = empty.
Hypothesis cat_empty_r : forall c, cat c empty = c.
Hypothesis cat_assoc : forall a b c, cat (cat a b) c = cat a (cat b c).

(** One turn of the loop, as the source writes it. *)
Lemma pump_while_turn h flushed result n :
  pump_while empty truthy cat h flushed result n =
  if truthy flushed then
    let '(flushed', h') := read empty h in
    pump_while empty truthy cat h' flushed' (cat result flushed') (S n)
  else (result, h, n).
Proof.
  destruct h as [|c h]; simpl.
  - rewrite truthy_empty. reflexivity.
  - reflexivity.
Qed.

Lemma foldl_cat result l :
  foldl cat result l = cat result (foldr cat empty l).
Proof.
  revert result. induction l as [|c l IH]; intros result; simpl.
  - now rewrite cat_empty_r.
  - rewrite IH. apply cat_assoc.
Qed.

Lemma pump_while_spec h flushed result n :
  truthy flushed = true ->
  pump_while empty truthy cat h flushed result n =
  (foldl cat result (payload truthy h),
   drop (S (length (payload truthy h))) h,
   (n + S (length (payload truthy h)))%nat).
Proof.
  revert flushed result n.
  induction h as [|c h IH]; intros flushed result n Hf; simpl; rewrite Hf.
  - rewrite cat_empty_r. f_equal. lia.
  - destruct (truthy c) eqn:Hc.
    + rewrite (IH c (cat result c) (S n) Hc). simpl. f_equal. lia.
    + destruct h as [|c' h]; simpl; rewrite Hc;
        rewrite (falsy_is_empty c Hc), cat_empty_r; f_equal; lia.
Qed.

Lemma drain_spec h :
  drain empty truthy cat h =
  (foldr cat empty (payload truthy h),
   drop (S (length (payload truthy h))) h,
   S (length (payload truthy h))).
Proof.
  unfold drain. destruct h as [|c h]; simpl.
  - rewrite truthy_empty. reflexivity.
  - destruct (truthy c) eqn:Hc.
    + rewrite (pump_while_spec h c c 1 Hc), foldl_cat. reflexivity.
    + destruct h as [|c' h]; simpl; rewrite Hc;
        rewrite (falsy_is_empty c Hc); reflexivity.
Qed.

End PumpFacts.

Lemma drain_bytes_spec (h : list (list byte)) :
  drain_bytes h =
  (join_bytes (payload truthy_bytes h),
   drop (S (length (payload truthy_bytes h))) h,
   S (length (payload truthy_bytes h))).
Proof.
  apply drain_spec.
  - reflexivity.
  - exact truthy_bytes_false.
  - intros c. apply app_nil_r.
  - intros a b c. symmetry. apply app_assoc.
Qed.

Lemma drain_str_spec (h : list string) :
  drain_str h =
  (join_str (payload truthy_str h),
   drop (S (length (payload truthy_str h))) h,
   S (length (payload truthy_str h))).
Proof.
  apply drain_spec.
  - reflexivity.
  - exact truthy_str_false.
  - exact append_nil_r.
  - exact append_assoc.
Qed.

(** When every chunk before the empty one is non-empty, they are the payload. *)
Lemma payload_app {chunk} (truthy : chunk -> bool) (pre rest : list chunk) (e : chunk) :
  forallb truthy pre = true -> truthy e = false ->
  payload truthy (pre ++ e :: rest) = pre.
Proof.
  intros Hpre He. induction pre as [|c pre IH]; simpl in *.
  - now rewrite He.
  - apply andb_prop in Hpre as [Hc Hpre]. rewrite Hc, IH; auto.
Qed.

Lemma payload_all {chunk} (truthy : chunk -> bool) (h : list chunk) :
  forallb truthy h = true -> payload truthy h = h.
Proof.
  induction h as [|c h IH]; simpl; [reflexivity |].
  intros Hh. apply andb_prop in Hh as [Hc Hh]. now rewrite Hc, IH.
Qed.

Lemma drop_past {A} (pre rest : list A) (e : A) :
  drop (S (length pre)) (pre ++ e :: rest) = rest.
Proof. induction pre as [|c pre IH]; simpl; [reflexivity | exact IH]. Qed.

(** A binary stream read with a positive buffer yields non-empty slices
    that add up to the content. *)
Lemma slices_fuel_spec (fuel buf : nat) (content : list byte) :
  (0 < buf)%nat -> (length content <= fuel)%nat ->
  forallb truthy_bytes (slices_fuel fuel buf content) = true /\
  join_bytes (slices_fuel fuel buf content) = content.
Proof.
  intros Hbuf. revert content.
  induction fuel as [|fuel IH]; intros content Hlen.
  - destruct content; [split; reflexivity | simpl in Hlen; lia].
  - destruct content as [|b content]; [split; reflexivity |].
    cbn [slices_fuel].
    destruct (IH (drop buf (b :: content))) as [Hall Hjoin].
    { rewrite length_drop. simpl in *. lia. }
    split.
    + cbn [forallb]. rewrite Hall.
      destruct buf as [|buf]; [lia | reflexivity].
    + cbn [join_bytes foldr]. fold (join_bytes (slices_fuel fuel buf (drop buf (b :: content)))).
      rewrite Hjoin. apply take_drop.
Qed.

Lemma drain_slices (buf : Z) (content : list byte) :
  0 < buf ->
  drain_bytes (slices buf content) =
  (content, [], S (length (slices buf content))).
Proof.
  intros Hbuf. rewrite drain_bytes_spec. unfold slices.
  destruct (slices_fuel_spec (length content) (Z.to_nat buf) content) as [Hall Hjoin];
    [lia | lia |].
  rewrite (payload_all _ _ Hall), Hjoin.
  f_equal. f_equal. apply drop_ge. lia.
Qed.

(** ** The drain loops of the session *)

Section SessionFacts.
Context `{Externals}.

Lemma _getlog_run st ws buf :
  workspace (self st) = Some ws ->
  _getlog buf st =
  let h := ls_log (engine (world st)) in
  let result := join_str (payload truthy_str h) in
  (Ok result,
   set_self (with_log (_log (self st) +:+ result))
     (set_engine (fun e => with_queues (drop (S (length (payload truthy_str h))) h) (ls_lst e) e)
        (add_calls (repeat (LS_FlushLog buf) (S (length (payload truthy_str h)))) st))).
Proof.
  intros Hws. unfold _getlog, the_workspace, mbind, M_bind, gets, modify.
  rewrite Hws, drain_str_spec. reflexivity.
Qed.

Lemma _getlst_run st ws buf :
  workspace (self st) = Some ws ->
  _getlst buf st =
  let h := ls_lst (engine (world st)) in
  (Ok (join_str (payload truthy_str h)),
   set_engine (fun e => with_queues (ls_log e) (drop (S (length (payload truthy_str h))) h) e)
     (add_calls (repeat (LS_FlushList buf) (S (length (payload truthy_str h)))) st)).
Proof.
  intros Hws. unfold _getlst, the_workspace, mbind, M_bind, gets, modify.
  rewrite Hws, drain_str_spec. reflexivity.
Qed.

Lemma add_calls_app cs1 cs2 st :
  add_calls cs2 (add_calls cs1 st) = add_calls (cs1 ++ cs2) st.
Proof. unfold add_calls. simpl. now rewrite <- app_assoc. Qed.

Lemma _getfile_bytes_run st ws fname buf content :
  workspace (self st) = Some ws ->
  remote_fs (engine (world st)) !! fname = Some (RemoteFile content) ->
  _getfile fname buf false st =
  let h := slices buf content in
  (Ok (Bytes (join_bytes (payload truthy_bytes h))),
   add_calls (getfile_calls fname buf (S (length (payload truthy_bytes h)))) st).
Proof.
  intros Hws Hfile.
  unfold _getfile, the_workspace, mbind, M_bind, gets, modify, call.
  rewrite Hws. cbn. rewrite Hfile, drain_bytes_spec. cbn.
  f_equal. unfold add_calls, getfile_calls. cbn.
  rewrite <- !app_assoc. reflexivity.
Qed.

End SessionFacts.

(** C4.  The drain loop reads chunks until one is empty and returns the
    concatenation, in order, of the chunks read before it; the handle is
    left after the empty chunk, and one read is made per chunk consumed.
    [_getlog] and [_getfile] return that concatenation for the log queue
    and for the stream of a remote file.  Draining [b"ab", b"cd", b""]
    gives [b"abcd"], and draining [b""] gives [b""] after one read. *)
Theorem drain_concatenates_until_empty `{Externals} :
  (forall h : list (list byte),
     drain_bytes h =
     (join_bytes (payload truthy_bytes h),
      drop (S (length (payload truthy_bytes h))) h,
      S (length (payload truthy_bytes h)))) /\
  (forall pre rest : list (list byte),
     forallb truthy_bytes pre = true ->
     drain_bytes (pre ++ [] :: rest) = (join_bytes pre, rest, S (length pre))) /\
  (forall st ws buf,
     workspace (self st) = Some ws ->
     fst (_getlog buf st) =
     Ok (join_str (payload truthy_str (ls_log (engine (world st)))))) /\
  (forall st ws fname buf content,
     workspace (self st) = Some ws ->
     remote_fs (engine (world st)) !! fname = Some (RemoteFile content) ->
     fst (_getfile fname buf false st) =
     Ok (Bytes (join_bytes (payload truthy_bytes (slices buf content))))) /\
  drain_bytes [bytes_of "ab"; bytes_of "cd"; []] = (bytes_of "abcd", [], 3%nat) /\
  drain_bytes [[]] = ([], [], 1%nat).
Proof.
  repeat split.
  - exact drain_bytes_spec.
  - intros pre rest Hpre. rewrite drain_bytes_spec.
    rewrite (payload_app truthy_bytes pre rest [] Hpre eq_refl).
    now rewrite drop_past.
  - intros st ws buf Hws. now rewrite (_getlog_run st ws buf Hws).
  - intros st ws fname buf content Hws Hfile.
    now rewrite (_getfile_bytes_run st ws fname buf content Hws Hfile).
Qed.

Lemma drain_concatenates_until_empty_witness :
  drain_bytes ([bytes_of "ab"; bytes_of "cd"] ++ [] :: [bytes_of "ef"]) =
  (bytes_of "abcd", [bytes_of "ef"], 3%nat) /\
  fst (_getfile (H := Demo.externals) "/data/cars.csv" 4 false Demo.state0) =
  Ok (Bytes (bytes_of "make,msrp")).
Proof.
  split.
  - exact (proj1 (proj2 (drain_concatenates_until_empty (H := Demo.externals)))
             [bytes_of "ab"; bytes_of "cd"] [bytes_of "ef"] eq_refl).
  - exact (proj1 (proj2 (proj2 (proj2 (drain_concatenates_until_empty (H := Demo.externals)))))
             Demo.state0 "8B1D" "/data/cars.csv" 4 (bytes_of "make,msrp") eq_refl eq_refl).
Defined.

(** ** Schema resolver *)

Lemma dict_get_set_eq {K V} `{EqDecision K} (d : list (K * V)) k v :
  dict_get (dict_set d k v) k = Some v.
Proof.
  induction d as [|[k' v'] d IH]; simpl.
  - now rewrite decide_True.
  - destruct (decide (k' = k)) as [->|Hne]; simpl.
    + now rewrite decide_True.
    + now rewrite decide_False.
Qed.

Lemma dict_get_set_ne {K V} `{EqDecision K} (d : list (K * V)) k k' v :
  k <> k' -> dict_get (dict_set d k v) k' = dict_get d k'.
Proof.
  intros Hne. induction d as [|[k0 v0] d IH]; simpl.
  - now rewrite decide_False.
  - destruct (decide (k0 = k)) as [->|Hne0]; simpl.
    + now rewrite !decide_False.
    + destruct (decide (k0 = k')); [reflexivity | exact IH].
Qed.

Lemma dict_set_in {K V} `{EqDecision K} (d : list (K * V)) k v x :
  In x (dict_set d k v) -> x = (k, v) \/ In x d.
Proof.
  induction d as [|[k' v'] d IH]; simpl.
  - intros [<-|[]]. now left.
  - destruct (decide (k' = k)) as [->|Hne]; simpl.
    + intros [<-|Hin]; [now left | right; now right].
    + intros [<-|Hin]; [right; now left |].
      destruct (IH Hin) as [->|Hin']; [now left | right; now right].
Qed.

Lemma convert_date_int (sb : SASsession) (n : Z) :
  apply_convert sb ConvertDate (CInt n) =
  if in_delta_range n && in_datetime_range (SAS_EPOCH sb + n * US_PER_DAY)
  then Ok (CDatetime (SAS_EPOCH sb + n * US_PER_DAY))
  else Raise OverflowError.
Proof.
  unfold apply_convert, timedelta, datetime_add, in_delta_range, in_datetime_range.
  replace (n * US_PER_DAY + 0 * US_PER_SECOND) with (n * US_PER_DAY) by lia.
  rewrite Z.div_mul by (unfold US_PER_DAY, US_PER_SECOND; lia).
  destruct ((- MAX_DELTA_DAYS <=? n) && (n <=? MAX_DELTA_DAYS))%Z; cbn; [|reflexivity].
  destruct ((0 <=? SAS_EPOCH sb + n * US_PER_DAY) &&
            (SAS_EPOCH sb + n * US_PER_DAY <? DATETIME_DAYS * US_PER_DAY))%Z; reflexivity.
Qed.

Lemma convert_datetime_int (sb : SASsession) (n : Z) :
  apply_convert sb ConvertDatetime (CInt n) =
  if in_delta_range (n / 86400) && in_datetime_range (SAS_EPOCH sb + n * US_PER_SECOND)
  then Ok (CDatetime (SAS_EPOCH sb + n * US_PER_SECOND))
  else Raise OverflowError.
Proof.
  unfold apply_convert, timedelta, datetime_add, in_delta_range, in_datetime_range.
  replace (0 * US_PER_DAY + n * US_PER_SECOND) with (n * US_PER_SECOND) by lia.
  unfold US_PER_DAY.
  rewrite Z.div_mul_cancel_r by (unfold US_PER_SECOND; lia).
  destruct ((- MAX_DELTA_DAYS <=? n / 86400) && (n / 86400 <=? MAX_DELTA_DAYS))%Z; cbn;
    [|reflexivity].
  destruct ((0 <=? SAS_EPOCH sb + n * US_PER_SECOND) &&
            (SAS_EPOCH sb + n * US_PER_SECOND <? DATETIME_DAYS * (86400 * US_PER_SECOND)))%Z;
    reflexivity.
Qed.

Lemma schema_loop_resolved sb rows metadata0 metadata :
  (forall name col, In (name, col) metadata0 -> resolved sb col) ->
  schema_loop sb rows metadata0 = Ok metadata ->
  forall name col, In (name, col) metadata -> resolved sb col.
Proof.
  revert metadata0. induction rows as [|fields rows IH]; intros metadata0 Hinv; simpl.
  - intros [= <-]. exact Hinv.
  - unfold mbind, outcome_bind, getitem.
    destruct (dict_get (fields_dict fields) "FORMAT_NAME") as [fmt|] eqn:Hfmt;
      [|discriminate].
    destruct (dict_get (dict_set (fields_dict fields) "CONVERT"
                (Lambda (derive_convert sb fmt))) "COLUMN_NAME") as [cn|] eqn:Hcn;
      [|discriminate].
    apply IH. intros name col Hin.
    apply dict_set_in in Hin as [[= -> ->]|Hin]; [|eauto].
    exists fmt. split.
    + rewrite dict_get_set_ne by discriminate. exact Hfmt.
    + apply dict_get_set_eq.
Qed.

Lemma _schema_resolved st table libref metadata st' :
  _schema table libref st = (Ok metadata, st') ->
  forall name col, In (name, col) metadata -> resolved (_sb (self st)) col.
Proof.
  unfold _schema, OpenSchema, the_adodb, mbind, M_bind, gets, call, modify, lift, raise.
  destruct (adodb (self st)); [|discriminate]. cbn.
  destruct (default [] (schemas (world st) !! _tablepath (_sb (self st)) table libref))
    as [|row rows] eqn:Hrows; [discriminate|].
  intros [= Hloop _].
  apply (schema_loop_resolved (_sb (self st)) (row :: rows) [] metadata);
    [intros ? ? [] | exact Hloop].
Qed.

(** C5.  Every column record that [_schema] returns carries under
    [CONVERT] a function fixed by the record's [FORMAT_NAME] alone: for a
    name of [sas_date_fmts] it maps an integer [n] to [SAS_EPOCH] plus [n]
    days, for a name (not a date name) of [sas_datetime_fmts] to
    [SAS_EPOCH] plus [n] seconds, and for any other name it is the
    identity.  The sums are Python's: outside the range of [timedelta] or
    [datetime] they raise [OverflowError]. *)
Theorem schema_conversion_by_format_name
  st table libref metadata st' :
  _schema table libref st = (Ok metadata, st') ->
  forall name col, In (name, col) metadata ->
  exists format_name f,
    dict_get col "FORMAT_NAME" = Some format_name /\
    dict_get col "CONVERT" = Some (Lambda f) /\
    f = derive_convert (_sb (self st)) format_name /\
    (field_in format_name (sas_date_fmts (_sb (self st))) = true ->
     forall n,
       apply_convert (_sb (self st)) f (CInt n) =
       if in_delta_range n &&
          in_datetime_range (SAS_EPOCH (_sb (self st)) + n * US_PER_DAY)
       then Ok (CDatetime (SAS_EPOCH (_sb (self st)) + n * US_PER_DAY))
       else Raise OverflowError) /\
    (field_in format_name (sas_date_fmts (_sb (self st))) = false ->
     field_in format_name (sas_datetime_fmts (_sb (self st))) = true ->
     forall n,
       apply_convert (_sb (self st)) f (CInt n) =
       if in_delta_range (n / 86400) &&
          in_datetime_range (SAS_EPOCH (_sb (self st)) + n * US_PER_SECOND)
       then Ok (CDatetime (SAS_EPOCH (_sb (self st)) + n * US_PER_SECOND))
       else Raise OverflowError) /\
    (field_in format_name (sas_date_fmts (_sb (self st))) = false ->
     field_in format_name (sas_datetime_fmts (_sb (self st))) = false ->
     forall x, apply_convert (_sb (self st)) f x = Ok x).
Proof.
  intros Hrun name col Hin.
  destruct (_schema_resolved st table libref metadata st' Hrun name col Hin)
    as (fmt & Hfmt & Hconv).
  exists fmt, (derive_convert (_sb (self st)) fmt).
  repeat split; try assumption; unfold derive_convert.
  - intros -> n. apply convert_date_int.
  - intros -> -> n. apply convert_datetime_int.
  - intros -> -> x. reflexivity.
Qed.

Lemma schema_conversion_by_format_name_witness :
  let run := _schema "t" (Some "work") Demo.state0 in
  let metadata := match fst run with Ok m => m | Raise _ => [] end in
  let col := default [] (dict_get metadata (Value (CStr "d"))) in
  exists format_name f,
    dict_get col "FORMAT_NAME" = Some format_name /\
    dict_get col "CONVERT" = Some (Lambda f) /\
    f = derive_convert (Demo.sb None) format_name /\
    (field_in format_name (sas_date_fmts (Demo.sb None)) = true ->
     forall n,
       apply_convert (Demo.sb None) f (CInt n) =
       if in_delta_range n &&
          in_datetime_range (SAS_EPOCH (Demo.sb None) + n * US_PER_DAY)
       then Ok (CDatetime (SAS_EPOCH (Demo.sb None) + n * US_PER_DAY))
       else Raise OverflowError) /\
    (field_in format_name (sas_date_fmts (Demo.sb None)) = false ->
     field_in format_name (sas_datetime_fmts (Demo.sb None)) = true ->
     forall n,
       apply_convert (Demo.sb None) f (CInt n) =
       if in_delta_range (n / 86400) &&
          in_datetime_range (SAS_EPOCH (Demo.sb None) + n * US_PER_SECOND)
       then Ok (CDatetime (SAS_EPOCH (Demo.sb None) + n * US_PER_SECOND))
       else Raise OverflowError) /\
    (field_in format_name (sas_date_fmts (Demo.sb None)) = false ->
     field_in format_name (sas_datetime_fmts (Demo.sb None)) = false ->
     forall x, apply_convert (Demo.sb None) f x = Ok x).
Proof.
  intros run metadata col.
  apply (schema_conversion_by_format_name
           Demo.state0 "t" (Some "work") metadata (snd run)
           eq_refl (Value (CStr "d")) col).
  vm_compute. left. reflexivity.
Defined.

(** The three columns of the demonstration table resolve to the three
    conversions, and day 1 after the epoch is 1960-01-02. *)
Example schema_demo :
  (match fst (_schema "t" (Some "work") Demo.state0) with
   | Ok m => map (fun x => (fst x, dict_get (snd x) "CONVERT")) m
   | Raise _ => []
   end) =
  [(Value (CStr "d"), Some (Lambda ConvertDate));
   (Value (CStr "ts"), Some (Lambda ConvertDatetime));
   (Value (CStr "x"), Some (Lambda ConvertIdentity))] /\
  apply_convert (Demo.sb None) ConvertDate (CInt 1) =
  Ok (CDatetime (715510 * US_PER_DAY)).
Proof. split; reflexivity. Qed.

(** ** The override policy of the configuration *)

Section OverridePolicy.
Import SASConfigCOM.

(** Locked: every override is turned down with a warning. *)
Lemma override_all_locked (self : dict) (lock : value) items :
  self !! "_lock" = Some lock -> is_False lock = false ->
  self !! "NO_OVERRIDE" = None -> self !! "_try_override" = None ->
  override_all self items = (Ok self, map warning (map key_of (overriding items))).
Proof.
  intros Hlock Hset Hno Htry. unfold overriding.
  induction items as [|x items IH]; [reflexivity |].
  cbn [override_all List.filter]. unfold passes_filter. rewrite Hno.
  destruct (negb (bool_decide (key_of x ∈ NO_OVERRIDE))); [| exact IH].
  unfold call_try_override. rewrite Htry.
  destruct x as [key val | session];
    unfold _try_override, _try_override_sb, getattr; rewrite Hlock, Hset, IH; reflexivity.
Qed.

(** A construction that succeeds never removes an attribute. *)
Lemma override_all_dom items : forall (self self' : dict) err,
  override_all self items = (Ok self', err) ->
  forall k, is_Some (self !! k) -> is_Some (self' !! k).
Proof.
  induction items as [|x items IH]; intros self self' err; cbn [override_all].
  - intros [= <- _] k Hk. exact Hk.
  - destruct (passes_filter self (key_of x)) as [[|]|e]; [| apply IH | discriminate].
    unfold call_try_override. destruct (self !! "_try_override"); [discriminate |].
    destruct x as [key val | session]; unfold _try_override, _try_override_sb, setattr;
      (destruct (getattr self "_lock") as [lock|e]; [| discriminate]);
      destruct (is_False lock);
      repeat match goal with
      | |- context [if ?b then Raise _ else _] => destruct b; [discriminate |]
      end;
      match goal with
      | |- context [override_all ?d items] =>
          destruct (override_all d items) as [[d'|e] err'] eqn:Hrest; [| discriminate];
          intros [= <- _] k Hk; apply (IH _ _ _ Hrest)
      end;
      try exact Hk.
    apply lookup_insert_is_Some'. now right.
Qed.

Lemma setattr_plain (self : dict) attr val :
  attr ∉ reserved -> setattr self attr val = Ok (<[attr := val]> self).
Proof.
  intros Hattr. unfold setattr.
  destruct (String.eqb_spec attr "__weakref__") as [-> | _].
  - exfalso. apply Hattr. unfold reserved. set_solver.
  - now rewrite bool_decide_false.
Qed.

(** With keywords that replace neither [NO_OVERRIDE] nor
    [_try_override], the loop runs to its end, and an attribute that no
    overriding keyword names keeps its value. *)
Lemma override_all_plain items : forall (self : dict) lock,
  self !! "_lock" = Some lock ->
  self !! "NO_OVERRIDE" = None -> self !! "_try_override" = None ->
  plain_keywords items ->
  exists self' err,
    override_all self items = (Ok self', err) /\
    (forall key, ~ In key (map key_of (overriding items)) -> self' !! key = self !! key).
Proof.
  unfold plain_keywords, overriding.
  induction items as [|x items IH]; intros self lock Hlock Hno Htry Hplain.
  - exists self, []. split; [reflexivity | auto].
  - apply Forall_cons in Hplain as [(Hx1 & Hx2 & Hx3) Hplain].
    cbn [override_all List.filter]. unfold passes_filter. rewrite Hno.
    destruct (negb (bool_decide (key_of x ∈ NO_OVERRIDE))) eqn:Hpass.
    + unfold call_try_override. rewrite Htry.
      destruct x as [k v | session]; unfold _try_override, _try_override_sb, getattr;
        rewrite Hlock; destruct (is_False lock);
        rewrite ?(setattr_plain self k v Hx3).
      * assert (Hlock' : is_Some (<[k := v]> self !! "_lock")).
        { apply lookup_insert_is_Some'. right. eauto. }
        destruct Hlock' as [lock' Hlock'].
        destruct (IH (<[k := v]> self) lock' Hlock') as (self' & err & -> & Hframe);
          [rewrite lookup_insert_ne by exact Hx1; exact Hno
          |rewrite lookup_insert_ne by exact Hx2; exact Htry | exact Hplain |].
        exists self', ([] ++ err)%list. split; [reflexivity |].
        intros key Hkey. cbn [map key_of In] in Hkey.
        rewrite Hframe by tauto. apply lookup_insert_ne. tauto.
      * destruct (IH self lock Hlock Hno Htry Hplain) as (self' & err & -> & Hframe).
        exists self', ([warning k] ++ err)%list. split; [reflexivity |].
        intros key Hkey. apply Hframe. cbn [map key_of In] in Hkey. tauto.
      * destruct (IH self lock Hlock Hno Htry Hplain) as (self' & err & -> & Hframe).
        exists self', ([] ++ err)%list. split; [reflexivity |].
        intros key Hkey. apply Hframe. cbn [map key_of In] in Hkey. tauto.
      * destruct (IH self lock Hlock Hno Htry Hplain) as (self' & err & -> & Hframe).
        exists self', ([warning "sb"] ++ err)%list. split; [reflexivity |].
        intros key Hkey. apply Hframe. cbn [map key_of In] in Hkey. tauto.
    + destruct (IH self lock Hlock Hno Htry Hplain) as (self' & err & -> & Hframe).
      exists self', err. split; [reflexivity | exact Hframe].
Qed.

(** Unlocked, and not locked again by an earlier keyword: the keyword's
    value is the attribute's value. *)
Lemma override_all_takes_effect items : forall (self : dict) lock key val,
  self !! "_lock" = Some lock -> is_False lock = true ->
  self !! "NO_OVERRIDE" = None -> self !! "_try_override" = None ->
  plain_keywords items ->
  List.NoDup (map key_of items) -> In (Kw key val) items ->
  key ∉ NO_OVERRIDE ->
  (forall v, In (Kw "_lock" v) items -> key = "_lock" \/ is_False v = true) ->
  exists self' err,
    override_all self items = (Ok self', err) /\ self' !! key = Some val.
Proof.
  induction items as [|x items IH];
    intros self lock key val Hlock Hclear Hno Htry Hplain Hnd Hin Hkey Hrelock;
    [destruct Hin |].
  apply List.NoDup_cons_iff in Hnd as [Hfresh Hnd]. simpl in Hfresh.
  apply Forall_cons in Hplain as [(Hx1 & Hx2 & Hx3) Hplain].
  cbn [override_all]. unfold passes_filter. rewrite Hno.
  destruct Hin as [-> | Hin].
  - cbn [key_of] in *. rewrite bool_decide_false by exact Hkey. cbn [negb].
    unfold call_try_override. rewrite Htry.
    unfold _try_override, getattr. rewrite Hlock, Hclear.
    rewrite (setattr_plain self key val Hx3).
    assert (Hlock' : is_Some (<[key := val]> self !! "_lock")).
    { apply lookup_insert_is_Some'. right. eauto. }
    destruct Hlock' as [lock' Hlock'].
    destruct (override_all_plain items (<[key := val]> self) lock' Hlock')
      as (self' & err & -> & Hframe);
      [rewrite lookup_insert_ne by exact Hx1; exact Hno
      |rewrite lookup_insert_ne by exact Hx2; exact Htry | exact Hplain |].
    exists self', ([] ++ err)%list. split; [reflexivity |].
    rewrite Hframe; [apply lookup_insert_eq |].
    intros Hk. apply Hfresh. unfold overriding in Hk.
    apply in_map_iff in Hk as (y & Hy & Hk). apply filter_In in Hk as [Hk _].
    apply in_map_iff. eauto.
  - assert (Hne : key_of x <> key).
    { intros Heq. apply Hfresh. rewrite Heq. change key with (key_of (Kw key val)).
      now apply in_map. }
    destruct (negb (bool_decide (key_of x ∈ NO_OVERRIDE))).
    + unfold call_try_override. rewrite Htry.
      destruct x as [k v | session]; unfold _try_override, _try_override_sb, getattr;
        rewrite Hlock, Hclear.
      * cbn [key_of] in *. rewrite (setattr_plain self k v Hx3).
        destruct (decide (k = "_lock")) as [->|Hk].
        -- destruct (Hrelock v (or_introl eq_refl)) as [->|Hv]; [congruence |].
           destruct (IH (<["_lock" := v]> self) v key val) as (self' & err & -> & Hget);
             [apply lookup_insert_eq | exact Hv
             | rewrite lookup_insert_ne by exact Hx1; exact Hno
             | rewrite lookup_insert_ne by exact Hx2; exact Htry
             | exact Hplain | exact Hnd | exact Hin | exact Hkey
             | intros v' Hv'; apply (Hrelock v'); now right |].
           exists self', ([] ++ err)%list. split; [reflexivity | exact Hget].
        -- destruct (IH (<[k := v]> self) lock key val) as (self' & err & -> & Hget);
             [rewrite lookup_insert_ne by exact Hk; exact Hlock | exact Hclear
             | rewrite lookup_insert_ne by exact Hx1; exact Hno
             | rewrite lookup_insert_ne by exact Hx2; exact Htry
             | exact Hplain | exact Hnd | exact Hin | exact Hkey
             | intros v' Hv'; apply (Hrelock v'); now right |].
           exists self', ([] ++ err)%list. split; [reflexivity | exact Hget].
      * destruct (IH self lock key val) as (self' & err & -> & Hget);
          [exact Hlock | exact Hclear | exact Hno | exact Htry | exact Hplain | exact Hnd
          | exact Hin | exact Hkey | intros v' Hv'; apply (Hrelock v'); now right |].
        exists self', ([] ++ err)%list. split; [reflexivity | exact Hget].
    + destruct (IH self lock key val) as (self' & err & -> & Hget);
        [exact Hlock | exact Hclear | exact Hno | exact Htry | exact Hplain | exact Hnd
        | exact Hin | exact Hkey | intros v' Hv'; apply (Hrelock v'); now right |].
      exists self', err. split; [reflexivity | exact Hget].
Qed.

Lemma from_config_lock kwargs session :
  from_config kwargs session !! "_lock" =
  Some (get_or (SAS_config_options session) "lock_down" (VBool true)).
Proof. unfold from_config. apply lookup_insert_eq. Qed.

(** The object of [__init__] carries neither [NO_OVERRIDE] nor
    [_try_override] before the overrides: they are attributes of the
    class. *)
Lemma from_config_class_attrs kwargs session :
  from_config kwargs session !! "NO_OVERRIDE" = None /\
  from_config kwargs session !! "_try_override" = None.
Proof.
  unfold from_config.
  split; repeat (rewrite lookup_insert_ne by discriminate); apply lookup_empty.
Qed.

(** With distinct keywords, the session object under [sb] is the one the
    constructor reads. *)
Lemma find_sb kwargs session :
  List.NoDup (map key_of kwargs) -> In (KwSb session) kwargs ->
  List.find (fun x => String.eqb (key_of x) "sb") kwargs = Some (KwSb session).
Proof.
  induction kwargs as [|x kwargs IH]; intros Hnd Hin; [destruct Hin |].
  apply List.NoDup_cons_iff in Hnd as [Hfresh Hnd]. cbn [List.find].
  destruct Hin as [-> | Hin]; [reflexivity |].
  destruct (String.eqb_spec (key_of x) "sb") as [Heq | Hne].
  - exfalso. apply Hfresh. rewrite Heq. change "sb" with (key_of (KwSb session)).
    now apply in_map.
  - now apply IH.
Qed.

End OverridePolicy.

(** The policy at the level of [SASConfigCOM]. *)
Lemma config_override_policy
  (session : SASsession) (kwargs : list keyword) (key : string) (val : value) :
  List.NoDup (map key_of kwargs) ->
  In (KwSb session) kwargs ->
  In (Kw key val) kwargs ->
  key ∉ SASConfigCOM.NO_OVERRIDE ->
  let lock :=
    SASConfigCOM.get_or (SAS_config_options session) "lock_down" (VBool true) in
  (is_False lock = false ->
   SASConfigCOM.__init__ kwargs =
   (Ok (SASConfigCOM.from_config (scalars kwargs) session),
    map SASConfigCOM.warning (map key_of (overriding kwargs))) /\
   In (SASConfigCOM.warning key) (map SASConfigCOM.warning (map key_of (overriding kwargs)))) /\
  (is_False lock = true ->
   plain_keywords kwargs ->
   (forall v, In (Kw "_lock" v) kwargs -> key = "_lock" \/ is_False v = true) ->
   exists self err,
     SASConfigCOM.__init__ kwargs = (Ok self, err) /\
     self !! key = Some val).
Proof.
  intros Hnd Hsb Hin Hkey lock.
  destruct (from_config_class_attrs (scalars kwargs) session) as [Hno Htry].
  split.
  - intros Hset. split.
    + unfold SASConfigCOM.__init__. rewrite (find_sb kwargs session Hnd Hsb).
      apply (override_all_locked _ lock);
        [apply from_config_lock | exact Hset | exact Hno | exact Htry].
    + apply in_map. change key with (key_of (Kw key val)). apply in_map.
      apply filter_In. split; [exact Hin |]. cbn. now rewrite bool_decide_false.
  - intros Hclear Hplain Hrelock.
    unfold SASConfigCOM.__init__. rewrite (find_sb kwargs session Hnd Hsb).
    apply (override_all_takes_effect _ _ lock);
      [apply from_config_lock | exact Hclear | exact Hno | exact Htry | exact Hplain
      | exact Hnd | exact Hin | exact Hkey | exact Hrelock].
Qed.

(** Opening the workspace touches neither the configuration nor [stderr]. *)
Lemma _startsas_frame st :
  sascfg (self (snd (_startsas st))) = sascfg (self st) /\
  stderr (world (snd (_startsas st))) = stderr (world st).
Proof.
  unfold _startsas, mbind, M_bind, gets.
  destruct (workspace (self st)) as [ws|]; [split; reflexivity |].
  unfold cfgattr, CreateObjectByServer, call, modify, mret, M_ret, mbind, M_bind,
    gets, raise, SASConfigCOM.getattr. cbn.
  repeat match goal with
  | |- context [match ?m !! ?k with _ => _ end] => destruct (m !! k); cbn
  | |- context [if is_None ?v then _ else _] => destruct (is_None v); cbn
  | |- context [match broker_ids ?w with _ => _ end] => destruct (broker_ids w); cbn
  end;
  split; reflexivity.
Qed.

(** The session a successful constructor returns holds the configuration
    object, and the world its warnings. *)
Lemma session_init_config kwargs w s w' config err :
  SASConfigCOM.__init__ kwargs = (Ok config, err) ->
  SASSessionCOM.__init__ kwargs w = (Ok s, w') ->
  sascfg s = config /\ stderr w' = (stderr w ++ err)%list.
Proof.
  intros Hcfg. unfold SASSessionCOM.__init__. rewrite Hcfg.
  destruct (session_of kwargs) as [session|]; [| discriminate].
  match goal with
  | |- context [_startsas ?st0] =>
      pose proof (_startsas_frame st0) as [Hframe Herr];
      destruct (_startsas st0) as [[id|e] st]
  end; [| discriminate].
  intros [= <- <-]. simpl in *. now split.
Qed.

(** C6.  An override of the attribute [key] by [val] is honoured exactly
    when the lock flag is clear: [_try_override] sets the attribute when
    [_lock] is [False], and otherwise leaves the configuration as it is
    and prints a warning.  So, constructing a session with an overriding
    keyword [key = val] (any keyword but [kernel] and [sb]): when the
    lock flag is set (the default), every attribute keeps the value read
    from the configuration file and one warning per overriding keyword is
    printed to [stderr], the one for [key] among them; when the lock flag
    is clear ([lock_down] is [False]), the attribute [key] ends as [val],
    provided that no keyword replaces the object's own [NO_OVERRIDE] or
    [_try_override], which the loop reads again for every keyword, that
    every keyword is a name [setattr] accepts, and that no keyword sets
    the flag (overrides [_lock] itself with a value other than
    [False]). *)
Theorem override_honoured_only_if_unlocked
  (session : SASsession) (kwargs : list keyword) (key : string) (val : value) :
  (forall (self : dict) lock,
     self !! "_lock" = Some lock ->
     SASConfigCOM._try_override self key val =
     if is_False lock then (SASConfigCOM.setattr self key val, [])
     else (Ok self, [SASConfigCOM.warning key])) /\
  (List.NoDup (map key_of kwargs) ->
   In (KwSb session) kwargs ->
   In (Kw key val) kwargs ->
   key ∉ SASConfigCOM.NO_OVERRIDE ->
   let lock :=
     SASConfigCOM.get_or (SAS_config_options session) "lock_down" (VBool true) in
   let config := SASConfigCOM.from_config (scalars kwargs) session in
   let warnings := map SASConfigCOM.warning (map key_of (overriding kwargs)) in
   (is_False lock = false ->
    SASConfigCOM.__init__ kwargs = (Ok config, warnings) /\
    In (SASConfigCOM.warning key) warnings /\
    forall w s w',
      SASSessionCOM.__init__ kwargs w = (Ok s, w') ->
      sascfg s = config /\
      stderr w' = (stderr w ++ warnings)%list) /\
   (is_False lock = true ->
    plain_keywords kwargs ->
    (forall v, In (Kw "_lock" v) kwargs -> key = "_lock" \/ is_False v = true) ->
    (exists self err,
       SASConfigCOM.__init__ kwargs = (Ok self, err) /\
       self !! key = Some val) /\
    forall w s w',
      SASSessionCOM.__init__ kwargs w = (Ok s, w') ->
      sascfg s !! key = Some val)).
Proof.
  split.
  { intros self lock Hlock. unfold SASConfigCOM._try_override, SASConfigCOM.getattr.
    rewrite Hlock. destruct (is_False lock); reflexivity. }
  intros Hnd Hsb Hin Hkey lock config warnings.
  destruct (config_override_policy session kwargs key val Hnd Hsb Hin Hkey)
    as [Hlocked Hunlocked].
  split.
  - intros Hset. destruct (Hlocked Hset) as [Hcfg Hwarn].
    split; [exact Hcfg | split; [exact Hwarn |]].
    intros w s w'. apply session_init_config. exact Hcfg.
  - intros Hclear Hplain Hrelock.
    destruct (Hunlocked Hclear Hplain Hrelock) as (self & err & Hcfg & Hget).
    split; [eauto |].
    intros w s w' Hrun.
    destruct (session_init_config kwargs w s w' self err Hcfg Hrun) as [-> _].
    exact Hget.
Qed.

Lemma override_honoured_only_if_unlocked_witness :
  let locked := [KwSb (Demo.sb None); Kw "kernel" VNone;
                 Kw "host" (VStr "other.example.com")] in
  let unlocked := [KwSb (Demo.sb (Some (VBool false))); Kw "kernel" VNone;
                   Kw "host" (VStr "other.example.com")] in
  let warnings := ["Param 'host' was ignored due to configuration restriction"] in
  (SASConfigCOM.__init__ locked =
   (Ok (SASConfigCOM.from_config (scalars locked) (Demo.sb None)), warnings) /\
   In "Param 'host' was ignored due to configuration restriction" warnings /\
   forall w s w',
     SASSessionCOM.__init__ locked w = (Ok s, w') ->
     sascfg s = SASConfigCOM.from_config (scalars locked) (Demo.sb None) /\
     stderr w' = (stderr w ++ warnings)%list) /\
  ((exists self err,
      SASConfigCOM.__init__ unlocked = (Ok self, err) /\
      self !! "host" = Some (VStr "other.example.com")) /\
   forall w s w',
     SASSessionCOM.__init__ unlocked w = (Ok s, w') ->
     sascfg s !! "host" = Some (VStr "other.example.com")).
Proof.
  intros locked unlocked warnings.
  assert (Hnd : forall session,
            List.NoDup (map key_of [KwSb session; Kw "kernel" VNone;
                                    Kw "host" (VStr "other.example.com")])).
  { intros session. repeat constructor; simpl; intuition discriminate. }
  assert (Hkey : "host" ∉ SASConfigCOM.NO_OVERRIDE).
  { unfold SASConfigCOM.NO_OVERRIDE. intros Hin.
    apply list_elem_of_In in Hin. simpl in Hin. intuition discriminate. }
  split.
  - apply (proj1 (proj2 (override_honoured_only_if_unlocked (Demo.sb None) locked
             "host" (VStr "other.example.com")) (Hnd _) (or_introl eq_refl)
             (or_intror (or_intror (or_introl eq_refl))) Hkey)).
    reflexivity.
  - apply (proj2 (proj2 (override_honoured_only_if_unlocked (Demo.sb (Some (VBool false)))
             unlocked "host" (VStr "other.example.com"))
             (Hnd _) (or_introl eq_refl) (or_intror (or_intror (or_introl eq_refl))) Hkey)).
    + reflexivity.
    + repeat constructor; try discriminate;
        unfold SASConfigCOM.reserved; intros Hin; apply list_elem_of_In in Hin;
        simpl in Hin; intuition discriminate.
    + simpl. intros v [Hv|[Hv|[Hv|[]]]]; discriminate.
Defined.

(** C6 as stated fails with the lock flag clear: the loop reads
    [NO_OVERRIDE] again for every keyword, so once the keyword
    [NO_OVERRIDE='host'] has replaced it, the keyword [host] is filtered
    out: the field keeps its configuration-file value, and no warning is
    printed. *)
Lemma override_honoured_only_if_unlocked_counterexample :
  let session := Demo.sb (Some (VBool false)) in
  let kwargs := [KwSb session; Kw "NO_OVERRIDE" (VStr "host");
                 Kw "host" (VStr "other.example.com")] in
  is_False (SASConfigCOM.get_or (SAS_config_options session) "lock_down" (VBool true)) = true /\
  In (Kw "host" (VStr "other.example.com")) kwargs /\
  exists self,
    SASConfigCOM.__init__ kwargs = (Ok self, []) /\
    self !! "host" = Some (VStr "sas.example.com") /\
    self !! "host" <> Some (VStr "other.example.com").
Proof.
  intros session kwargs. split; [reflexivity |]. split; [simpl; tauto |].
  eexists. split; [reflexivity |]. split; [reflexivity |]. discriminate.
Qed.

(** Both constructions succeed on the demonstration broker. *)
Example session_init_demo :
  let kwargs session := [KwSb session; Kw "kernel" VNone;
                         Kw "host" (VStr "other.example.com")] in
  is_ok (fst (SASSessionCOM.__init__ (kwargs (Demo.sb None)) Demo.world0)) = true /\
  is_ok (fst (SASSessionCOM.__init__ (kwargs (Demo.sb (Some (VBool false))))
                Demo.world0)) = true.
Proof. split; reflexivity. Qed.

(** A flag that is falsy but not the object [False] still locks. *)
Example override_demo :
  SASConfigCOM.__init__ [KwSb (Demo.sb (Some (VInt 0))); Kw "host" (VStr "other.example.com")] =
  (Ok (SASConfigCOM.from_config [] (Demo.sb (Some (VInt 0)))),
   ["Param 'host' was ignored due to configuration restriction"]).
Proof. reflexivity. Qed.

(** A keyword that replaces [_try_override] on an unlocked configuration
    makes the next override raise. *)
Example shadowed_method_demo :
  fst (SASConfigCOM.__init__ [KwSb (Demo.sb (Some (VBool false)));
                              Kw "_try_override" (VInt 5); Kw "host" (VStr "h")]) =
  Raise TypeError.
Proof. reflexivity. Qed.

(** ** Session manager *)

Lemma _startsas_live st ws :
  workspace (self st) = Some ws -> _startsas st = (Ok ws, st).
Proof.
  intros Hws. unfold _startsas, mbind, M_bind, gets. now rewrite Hws.
Qed.

(** A successful [_startsas] leaves the workspace it returns in [self]. *)
Lemma _startsas_opens st id st' :
  _startsas st = (Ok id, st') -> workspace (self st') = Some id.
Proof.
  unfold _startsas, mbind, M_bind, gets.
  destruct (workspace (self st)) as [ws|] eqn:Hws.
  - intros [= <- <-]. exact Hws.
  - unfold cfgattr, CreateObjectByServer, call, modify, mret, M_ret, mbind, M_bind,
      gets, raise, SASConfigCOM.getattr. cbn.
    repeat match goal with
    | |- context [match ?m !! ?k with _ => _ end] => destruct (m !! k); cbn
    | |- context [if is_None ?v then _ else _] => destruct (is_None v); cbn
    | |- context [match broker_ids ?w with _ => _ end] => destruct (broker_ids w); cbn
    | |- (Raise _, _) = (Ok _, _) -> _ => discriminate
    end;
    intros [= <- <-]; reflexivity.
Qed.

(** C9.  For a session whose workspace is live, [_startsas] returns the
    workspace's identifier and changes nothing: no object is created, no
    connection opened, no call made to the broker. *)
Theorem startsas_idempotent (st : State) (ws : string) :
  workspace (self st) = Some ws ->
  _startsas st = (Ok ws, st) /\
  calls (world (snd (_startsas st))) = calls (world st) /\
  broker_ids (world (snd (_startsas st))) = broker_ids (world st).
Proof.
  intros Hws. rewrite (_startsas_live st ws Hws). repeat split.
Qed.

Lemma startsas_idempotent_witness :
  _startsas Demo.state0 = (Ok "8B1D", Demo.state0) /\
  calls (world (snd (_startsas Demo.state0))) = calls (world Demo.state0) /\
  broker_ids (world (snd (_startsas Demo.state0))) = broker_ids (world Demo.state0).
Proof. exact (startsas_idempotent Demo.state0 "8B1D" eq_refl). Defined.

(** The constructor opens the workspace; opening again is a no-op. *)
Lemma open_twice st id st' :
  _startsas st = (Ok id, st') -> _startsas st' = (Ok id, st').
Proof. intros Hrun. apply _startsas_live. now apply (_startsas_opens st). Qed.

(** ** Traces *)

Section TraceFacts.
Context {A B : Type} (P : com_call -> Prop).

Lemma appends_ret (a : A) : appends P (mret a).
Proof. intros st. exists []. now rewrite app_nil_r. Qed.

Lemma appends_raise (e : exn) : appends P (raise e : M A).
Proof. intros st. exists []. now rewrite app_nil_r. Qed.

Lemma appends_lift (r : outcome A) : appends P (lift r).
Proof. intros st. exists []. now rewrite app_nil_r. Qed.

Lemma appends_gets (f : State -> A) : appends P (gets f).
Proof. intros st. exists []. now rewrite app_nil_r. Qed.

Lemma appends_bind (c : M A) (f : A -> M B) :
  appends P c -> (forall a, appends P (f a)) -> appends P (c ≫= f).
Proof.
  intros Hc Hf st. unfold mbind, M_bind.
  destruct (Hc st) as (cs & Hcs & HP).
  destruct (c st) as [[a|e] st1]; simpl in *.
  - destruct (Hf a st1) as (cs' & Hcs' & HP').
    exists (cs ++ cs')%list. rewrite Hcs', Hcs, app_assoc. split; [reflexivity |].
    apply Forall_app. now split.
  - exists cs. now split.
Qed.

End TraceFacts.

Lemma appends_add_calls P cs :
  Forall P cs -> appends P (modify (add_calls cs)).
Proof. intros HP st. exists cs. now split. Qed.

Lemma appends_call P c : P c -> appends P (call c).
Proof. intros HP. apply appends_add_calls. now constructor. Qed.

Lemma appends_modify P (f : State -> State) :
  (forall st, calls (world (f st)) = calls (world st)) -> appends P (modify f).
Proof. intros Hf st. exists []. simpl. now rewrite Hf, app_nil_r. Qed.

Lemma appends_the_workspace P : appends P the_workspace.
Proof.
  intros st. exists []. unfold the_workspace.
  destruct (workspace (self st)); simpl; now rewrite app_nil_r.
Qed.

Lemma appends_cfgattr P attr : appends P (cfgattr attr).
Proof. intros st. exists []. simpl. now rewrite app_nil_r. Qed.

Lemma Forall_repeat {X} (P : X -> Prop) (x : X) (n : nat) :
  P x -> Forall P (repeat x n).
Proof. intros HP. induction n; simpl; constructor; assumption. Qed.

Ltac trace_step :=
  first
    [ apply appends_bind; [| intros ?]
    | apply appends_ret
    | apply appends_raise
    | apply appends_lift
    | apply appends_gets
    | apply appends_the_workspace
    | apply appends_cfgattr
    | apply appends_call; repeat split; intros []
    | apply appends_add_calls; apply Forall_repeat; repeat split; intros []
    | apply appends_modify; intros ?; reflexivity ].

Ltac trace_cases :=
  repeat first
    [ trace_step
    | match goal with
      | |- appends _ (match ?x with _ => _ end) => destruct x
      | |- appends _ (if ?x then _ else _) => destruct x
      | |- appends _ (let '(_, _) := ?x in _) => destruct x
      end ].

Section SubmitTraces.
Context `{Externals}.

Lemma _getlog_quiet buf : appends quiet (_getlog buf).
Proof. unfold _getlog. trace_cases. Qed.

Lemma _getlst_quiet buf : appends quiet (_getlst buf).
Proof. unfold _getlst. trace_cases. Qed.

Lemma _getfile_quiet fname buf dec : appends quiet (_getfile fname buf dec).
Proof. unfold _getfile. trace_cases. Qed.

Lemma _reset_no_submit : appends (fun c => ~ is_submit c) _reset.
Proof.
  unfold _reset, LanguageService_Reset.
  apply appends_bind; [apply appends_the_workspace | intros _].
  apply appends_bind; [apply appends_call; intros [] | intros _].
  apply appends_modify. reflexivity.
Qed.

End SubmitTraces.

(** ** Submission engine *)

Lemma bind_run {A B} (c : M A) (f : A -> M B) st a st1 :
  c st = (Ok a, st1) -> (c ≫= f) st = f a st1.
Proof. intros Hc. unfold mbind, M_bind. now rewrite Hc. Qed.

Lemma bind_raise {A B} (c : M A) (f : A -> M B) st e st1 :
  c st = (Raise e, st1) -> (c ≫= f) st = (Raise e, st1).
Proof. intros Hc. unfold mbind, M_bind. now rewrite Hc. Qed.

Lemma bind_ok_inv {A B} (c : M A) (f : A -> M B) st b st' :
  (c ≫= f) st = (Ok b, st') ->
  exists a st1, c st = (Ok a, st1) /\ f a st1 = (Ok b, st').
Proof.
  unfold mbind, M_bind. destruct (c st) as [[a|e] st1]; [eauto | discriminate].
Qed.

Lemma appends_mono {A} (P Q : com_call -> Prop) (c : M A) :
  (forall x, P x -> Q x) -> appends P c -> appends Q c.
Proof.
  intros HPQ Hc st. destruct (Hc st) as (cs & Hcs & HP).
  exists cs. split; [exact Hcs |]. eapply Forall_impl; eauto.
Qed.

Section Submission.
Context `{Externals}.

Lemma submit_no_prompt code results prompt :
  prompt = None \/ prompt = Some [] ->
  submit code results prompt =
  (_asubmit (RESET +:+ code +:+ RESET) results;; retrieve results).
Proof. intros [->| ->]; reflexivity. Qed.

Lemma Submit_run text st ws :
  workspace (self st) = Some ws ->
  LanguageService_Submit text st =
  if ls_error (engine (world st))
  then (Raise (com_error "LanguageService.Submit"), add_calls [LS_Submit text] st)
  else (Ok tt, set_engine (sas_run text) (add_calls [LS_Submit text] st)).
Proof.
  intros Hws. unfold LanguageService_Submit, the_workspace, call, modify, gets, raise,
    mbind, M_bind.
  rewrite Hws. cbn. destruct (ls_error (engine (world st))); reflexivity.
Qed.

Lemma _asubmit_framed st code results :
  (is_html results = true -> is_Some (sascfg (self st) !! "output")) ->
  _asubmit (RESET +:+ code +:+ RESET) results st =
  LanguageService_Submit (submitted_unit st code results) st.
Proof.
  intros Hout. unfold _asubmit, submitted_unit, cfgattr, SASConfigCOM.getattr,
    _gethtmlfn, gets, mbind, M_bind, mret, M_ret.
  destruct (is_html results); cbn.
  - destruct (Hout eq_refl) as [output ->]. cbn. now rewrite !append_assoc.
  - now rewrite append_nil_r.
Qed.

Lemma listing_quiet results : appends quiet (listing results).
Proof.
  unfold listing. destruct (is_html results); [| apply _getlst_quiet].
  apply appends_bind; [apply appends_gets | intros htmlfn].
  apply appends_bind; [apply _getfile_quiet | intros [b|s]];
    [apply appends_raise | apply appends_ret].
Qed.

Lemma retrieve_no_submit results :
  appends (fun c => ~ is_submit c) (retrieve results).
Proof.
  unfold retrieve.
  apply appends_bind;
    [apply (appends_mono quiet); [intros x Hx; apply Hx | apply _getlog_quiet] | intros log].
  apply appends_bind;
    [apply (appends_mono quiet); [intros x Hx; apply Hx | apply listing_quiet] | intros lst].
  apply appends_bind; [apply _reset_no_submit | intros _].
  apply appends_ret.
Qed.

(** C1, as the code has it.  For a call of [submit] without prompts, one
    unit is handed to [LanguageService.Submit] and it is the first call
    made.  When [results.lower()] is not [html] the unit is the sentinel,
    the code and the sentinel again, so the sentinel comes first.  When
    it is [html], the capture preamble and postamble enclose the whole
    framed text, sentinels included: the unit is preamble, sentinel,
    code, sentinel, postamble, and the sentinel is not its first text. *)
Theorem submit_unit_framing (st : State) (ws code results : string)
  (prompt : option (list (string * value))) :
  workspace (self st) = Some ws ->
  (is_html results = true -> is_Some (sascfg (self st) !! "output")) ->
  prompt = None \/ prompt = Some [] ->
  (exists rest,
     calls (world (snd (submit code results prompt st))) =
     (calls (world st) ++ LS_Submit (submitted_unit st code results) :: rest)%list /\
     Forall (fun c => ~ is_submit c) rest) /\
  (is_html results = false ->
   submitted_unit st code results = RESET +:+ code +:+ RESET /\
   String.prefix RESET (submitted_unit st code results) = true) /\
  (is_html results = true ->
   forall output, sascfg (self st) !! "output" = Some output ->
   submitted_unit st code results =
   ods_open output (workpath (_sb (self st)) +:+ HTML_RESULT_FILE)
     (HTML_Style (_sb (self st)))
   +:+ RESET +:+ code +:+ RESET +:+ ods_close output /\
   String.prefix RESET (submitted_unit st code results) = false).
Proof.
  intros Hws Hout Hprompt.
  split; [| split].
  - rewrite (submit_no_prompt code results prompt Hprompt).
    unfold mbind at 1. unfold M_bind.
    rewrite (_asubmit_framed st code results Hout), (Submit_run _ st ws Hws).
    destruct (ls_error (engine (world st))).
    + exists []. split; [reflexivity | constructor].
    + destruct (retrieve_no_submit results
                  (set_engine (sas_run (submitted_unit st code results))
                     (add_calls [LS_Submit (submitted_unit st code results)] st)))
        as (cs & Hcs & Hquiet).
      exists cs. split; [| exact Hquiet].
      rewrite Hcs. cbn. now rewrite <- app_assoc.
  - unfold submitted_unit. intros ->. split; [reflexivity | apply prefix_append].
  - unfold submitted_unit. intros -> output ->. split; reflexivity.
Qed.

End Submission.

Lemma submit_unit_framing_witness :
  (exists rest,
     calls (world (snd (submit (H := Demo.externals) "proc print; run;" "HTML" None
                          Demo.state0))) =
     (calls (world Demo.state0)
      ++ LS_Submit (submitted_unit Demo.state0 "proc print; run;" "HTML") :: rest)%list /\
     Forall (fun c => ~ is_submit c) rest) /\
  (is_html "HTML" = false ->
   submitted_unit Demo.state0 "proc print; run;" "HTML" =
   RESET +:+ "proc print; run;" +:+ RESET /\
   String.prefix RESET (submitted_unit Demo.state0 "proc print; run;" "HTML") = true) /\
  (is_html "HTML" = true ->
   forall output, sascfg (self Demo.state0) !! "output" = Some output ->
   submitted_unit Demo.state0 "proc print; run;" "HTML" =
   ods_open output (workpath (_sb (self Demo.state0)) +:+ HTML_RESULT_FILE)
     (HTML_Style (_sb (self Demo.state0)))
   +:+ RESET +:+ "proc print; run;" +:+ RESET +:+ ods_close output /\
   String.prefix RESET (submitted_unit Demo.state0 "proc print; run;" "HTML") = false).
Proof.
  apply (submit_unit_framing (H := Demo.externals) Demo.state0 "8B1D"
           "proc print; run;" "HTML" None).
  - reflexivity.
  - intros _. exists (VStr "html5"). reflexivity.
  - left. reflexivity.
Defined.

(** C1 as stated fails in [html] mode: the claimed unit puts the sentinels
    outside the capture wrapping and starts with the sentinel; the unit
    handed over starts with the capture preamble. *)
Lemma submit_unit_framing_counterexample :
  let code := "proc print; run;" in
  let preamble := ods_open (VStr "html5") "/saswork/saspy_results.html" "HTMLBlue" in
  let postamble := ods_close (VStr "html5") in
  let claimed := RESET +:+ "" +:+ (preamble +:+ code +:+ postamble) +:+ RESET in
  let handed := preamble +:+ RESET +:+ code +:+ RESET +:+ postamble in
  calls (world (snd (submit (H := Demo.externals) code "html" None Demo.state0)))
    !! 0%nat = Some (LS_Submit handed) /\
  handed <> claimed /\
  String.prefix RESET handed = false.
Proof.
  cbv zeta. split; [reflexivity | split; [| reflexivity]].
  intros Heq. vm_compute in Heq. discriminate Heq.
Qed.

(** ** The reset after every submission *)

Section ResetAfterSubmit.
Context `{Externals}.

Lemma _reset_run st ws :
  workspace (self st) = Some ws ->
  _reset st = (Ok tt, set_engine (with_parser false) (add_calls [LS_Reset] st)).
Proof.
  intros Hws. unfold _reset, LanguageService_Reset, the_workspace, call, modify,
    mbind, M_bind.
  now rewrite Hws.
Qed.






Lemma _getfile_str_run st ws fname buf content enc text :
  workspace (self st) = Some ws ->
  remote_fs (engine (world st)) !! fname = Some (RemoteFile content) ->
  sascfg (self st) !! "encoding" = Some (VStr enc) ->
  decode enc (join_bytes (payload truthy_bytes (slices buf content))) = Ok text ->
  _getfile fname buf true st =
  (Ok (Str text),
   add_calls (getfile_calls fname buf
                (S (length (payload truthy_bytes (slices buf content))))) st).
Proof.
  intros Hws Hfile Henc Hdec.
  unfold _getfile, the_workspace, cfgattr, SASConfigCOM.getattr, lift, mbind, M_bind,
    gets, modify, call.
  rewrite Hws. cbn. rewrite Hfile, drain_bytes_spec. cbn.
  rewrite Henc. cbn. rewrite Hdec. cbn.
  f_equal. unfold add_calls, getfile_calls. cbn.
  rewrite <- !app_assoc. reflexivity.
Qed.

Lemma submit_returns st ws code results :
  workspace (self st) = Some ws ->
  ls_error (engine (world st)) = false ->
  (is_html results = true -> capture_ready (self st)) ->
  exists d st',
    submit code results None st = (Ok d, st') /\
    workspace (self st') = Some ws /\
    sascfg (self st') = sascfg (self st) /\
    _sb (self st') = _sb (self st) /\
    ls_error (engine (world st')) = false.
Proof.
  intros Hws Hclear Hcap.
  rewrite (submit_no_prompt code results None (or_introl eq_refl)).
  assert (Hout : is_html results = true -> is_Some (sascfg (self st) !! "output")).
  { intros Hh. destruct (Hcap Hh) as (output & _ & Hout & _). eauto. }
  erewrite bind_run;
    [| rewrite (_asubmit_framed st code results Hout), (Submit_run _ st ws Hws), Hclear;
       reflexivity].
  unfold retrieve.
  erewrite bind_run; [| apply (_getlog_run _ ws); exact Hws].
  cbv zeta.
  unfold listing. destruct (is_html results) eqn:Hhtml.
  - destruct (Hcap eq_refl) as (output & enc & Ho & Henc & Hdec & Hfile).
    destruct (Hfile (submitted_unit st code results) (engine (world (add_calls
                [LS_Submit (submitted_unit st code results)] st)))) as (content & Hcontent).
    destruct (Hdec (join_bytes (payload truthy_bytes (slices 2048 content))))
      as (text & Htext).
    erewrite bind_run.
    2:{ erewrite (bind_run _gethtmlfn); [| reflexivity].
        erewrite bind_run;
          [| apply (_getfile_str_run _ ws _ 2048 content enc text);
             [exact Hws | exact Hcontent | exact Henc | exact Htext]].
        reflexivity. }
    erewrite bind_run; [| apply (_reset_run _ ws); exact Hws].
    do 2 eexists. split; [reflexivity |]. repeat split; assumption.
  - erewrite bind_run; [| apply (_getlst_run _ ws); exact Hws].
    cbv zeta.
    erewrite bind_run; [| apply (_reset_run _ ws); exact Hws].
    do 2 eexists. split; [reflexivity |]. repeat split; assumption.
Qed.






End ResetAfterSubmit.




(** On the demonstration engine the first unit does leave the parser in
    its error state, and a second unit handed over without the reset is
    rejected. *)
Example stuck_without_reset :
  let st1 := snd (_asubmit (H := Demo.externals) "title 'unbalanced;" "text" Demo.state0) in
  ls_error (engine (world st1)) = true /\
  fst (_asubmit (H := Demo.externals) "proc print; run;" "text" st1) =
  Raise (com_error "LanguageService.Submit").
Proof. split; reflexivity. Qed.

(** The same two calls in rich-output mode. *)
Example submit_twice_html :
  let first := submit (H := Demo.externals) "title 'unbalanced;" "html" None Demo.state0 in
  let second := submit (H := Demo.externals) "proc print; run;" "HTML" None (snd first) in
  is_ok (fst first) = true /\ is_ok (fst second) = true /\
  last (calls (world (snd second))) = Some LS_Reset.
Proof. vm_compute. repeat split. Qed.

(** C3.  With a non-empty [prompt] the loop of [submit] evaluates the name
    [val], which no scope binds: the call raises [NameError] before any
    value is asked for and before anything is handed to the engine; the
    state is left as it was. *)
Theorem submit_prompt_raises_name_error `{Externals}
  (code results key : string) (hide : value) (rest : list (string * value)) (st : State) :
  submit code results (Some ((key, hide) :: rest)) st = (Raise (NameError "val"), st).
Proof. reflexivity. Qed.

(** [_prompt] itself does what [submit] means to use it for: an answer
    is returned with its key, and a cancelled prompt raises
    [KeyboardInterrupt]. *)
Lemma ask_cancelled key rest : ask key (None :: rest) = (Raise KeyboardInterrupt, rest, []).
Proof. reflexivity. Qed.

Lemma ask_answered key c val rest :
  ask key (Some (String c val) :: rest) = (Ok (key, String c val), rest, []).
Proof. reflexivity. Qed.

(** ** File transfer *)

Section FileTransfer.
Context `{Externals}.



Lemma upload_refused st local remote overwrite permission info :
  valid st remote = Some info -> info <> ∅ -> is_False overwrite = true ->
  upload local remote overwrite permission st =
  (Ok (transfer_result false
         ("File " +:+ remote +:+ " exists and overwrite was set to False. Upload was stopped.")),
   st).
Proof.
  unfold valid. intros Hv Hinfo Hover. unfold upload, mbind, M_bind, gets. cbn.
  rewrite Hv, Hover.
  rewrite bool_decide_false by congruence.
  rewrite bool_decide_false by discriminate. reflexivity.
Qed.

Lemma upload_into_directory st local remote overwrite permission :
  valid st remote = Some ∅ ->
  upload local remote overwrite permission st =
  upload_to local (remote +:+ hostsep (_sb (self st)) +:+ os_path_basename local)
    (permission_option permission) st.
Proof.
  unfold valid. intros Hv. unfold upload, mbind, M_bind, gets. cbn.
  rewrite Hv. reflexivity.
Qed.


(** [download] of an existing remote file: the local path is opened for
    writing, which empties it, the file is drained, and the bytes are
    written; [overwrite] takes no part. *)
Lemma download_run st ws local remote overwrite info content local_file :
  workspace (self st) = Some ws ->
  valid st remote = Some info -> info <> ∅ ->
  remote_fs (engine (world st)) !! remote = Some (RemoteFile content) ->
  local_target st local remote = Ok local_file ->
  (local_fs (world st) !! local = Some LocalDir /\
   local_fs (world st) !! local_file <> Some LocalDir) \/
  opens_for_writing (local_fs (world st)) local_file = true ->
  download local remote overwrite st =
  (Ok (transfer_result true "File successfully read using FileService."),
   set_local_fs (<[local_file := LocalFile content]>)
     (add_calls (getfile_calls remote 2048 (S (length (slices 2048 content))))
        (set_local_fs (<[local_file := LocalFile []]>) st))).
Proof.
  unfold valid, local_target. intros Hws Hv Hinfo Hfile Htarget Hopens.
  unfold download. unfold mbind at 1 2. unfold M_bind at 1 2. unfold gets at 1 2.
  rewrite Hv.
  rewrite bool_decide_false by discriminate.
  rewrite bool_decide_false by congruence.
  unfold mbind at 1. unfold M_bind at 1. unfold gets at 1.
  assert (Hresolve :
    (if bool_decide (local_fs (world st) !! local = Some LocalDir)
     then base ← lift (rpartition_2 remote (hostsep (_sb (self st))));
          mret (os_path_join local base)
     else mret local) st = (Ok local_file, st)).
  { destruct (bool_decide (local_fs (world st) !! local = Some LocalDir)).
    - unfold mbind, M_bind, lift, mret, M_ret.
      destruct (rpartition_2 remote (hostsep (_sb (self st)))) as [base|e];
        cbn in Htarget; [| discriminate]. now injection Htarget as ->.
    - injection Htarget as ->. reflexivity. }
  rewrite (bind_run _ _ st local_file st Hresolve).
  unfold mbind at 1. unfold M_bind at 1. unfold gets at 1.
  assert (Hopen :
    match local_fs (world st) !! local_file with
    | Some LocalDir => false
    | Some (LocalFile _) => true
    | None => bool_decide (local_fs (world st) !! local = Some LocalDir) ||
              can_create (local_fs (world st)) local_file
    end = true).
  { unfold opens_for_writing in Hopens.
    destruct (local_fs (world st) !! local_file) as [[|old]|];
      [destruct Hopens as [[_ Hnotdir] | Hopens]; [now destruct Hnotdir | discriminate]
      | reflexivity |].
    destruct Hopens as [[Hdir _] | ->]; [| apply orb_true_r].
    now rewrite bool_decide_true. }
  rewrite Hopen.
  erewrite bind_run; [| reflexivity].
  erewrite bind_run;
    [| apply (_getfile_bytes_run _ ws remote 2048 content); [exact Hws | exact Hfile]].
  cbv zeta.
  pose proof (drain_slices 2048 content ltac:(lia)) as Hdrain.
  rewrite drain_bytes_spec in Hdrain. injection Hdrain as Hjoin _ Hlen.
  rewrite Hjoin, Hlen. reflexivity.
Qed.

End FileTransfer.




(** C10.  [download] never consults [overwrite]: any two values of it give
    the same run.  When the remote path is an existing file, the bytes
    drained from it replace whatever the resolved local path held, also
    when [overwrite] is [False]. *)
Theorem download_ignores_overwrite `{Externals}
  (st : State) (ws local remote : string) (overwrite : value)
  (info : dict) (content old : list byte) (local_file : string) :
  workspace (self st) = Some ws ->
  valid st remote = Some info -> info <> ∅ ->
  remote_fs (engine (world st)) !! remote = Some (RemoteFile content) ->
  local_target st local remote = Ok local_file ->
  local_fs (world st) !! local_file = Some (LocalFile old) ->
  (forall overwrite', download local remote overwrite st = download local remote overwrite' st) /\
  exists st',
    download local remote overwrite st =
    (Ok (transfer_result true "File successfully read using FileService."), st') /\
    local_fs (world st') !! local_file = Some (LocalFile content).
Proof.
  intros Hws Hv Hinfo Hfile Htarget Hold. split; [reflexivity |].
  eexists. split.
  - apply (download_run st ws local remote overwrite info content local_file);
      try assumption.
    right. unfold opens_for_writing. now rewrite Hold.
  - cbn. apply lookup_insert_eq.
Qed.

Lemma download_ignores_overwrite_witness :
  (forall overwrite',
     download (H := Demo.externals) "/tmp/old.csv" "/data/cars.csv" (VBool false) Demo.state0 =
     download (H := Demo.externals) "/tmp/old.csv" "/data/cars.csv" overwrite' Demo.state0) /\
  exists st',
    download (H := Demo.externals) "/tmp/old.csv" "/data/cars.csv" (VBool false) Demo.state0 =
    (Ok (transfer_result true "File successfully read using FileService."), st') /\
    local_fs (world st') !! "/tmp/old.csv" = Some (LocalFile (bytes_of "make,msrp")).
Proof.
  apply (download_ignores_overwrite (H := Demo.externals) Demo.state0 "8B1D"
           "/tmp/old.csv" "/data/cars.csv" (VBool false)
           {[ "Size" := VInt 9 ]} (bytes_of "make,msrp") (bytes_of "stale") "/tmp/old.csv");
    try reflexivity.
  vm_compute. discriminate.
Defined.

(** ** Further properties of the session *)

(** X1.  Read with a positive buffer, [_getfile] returns the content of
    the remote file, whatever the buffer size. *)
Theorem getfile_returns_content `{Externals}
  (st : State) (ws fname : string) (buf : Z) (content : list byte) :
  workspace (self st) = Some ws ->
  remote_fs (engine (world st)) !! fname = Some (RemoteFile content) ->
  0 < buf ->
  fst (_getfile fname buf false st) = Ok (Bytes content).
Proof.
  intros Hws Hfile Hbuf.
  rewrite (_getfile_bytes_run st ws fname buf content Hws Hfile). cbv zeta.
  pose proof (drain_slices buf content Hbuf) as Hdrain.
  rewrite drain_bytes_spec in Hdrain. injection Hdrain as Hjoin _ _.
  cbn. now rewrite Hjoin.
Qed.

Lemma getfile_returns_content_witness :
  fst (_getfile (H := Demo.externals) "/data/cars.csv" 2 false Demo.state0) =
  Ok (Bytes (bytes_of "make,msrp")).
Proof.
  apply (getfile_returns_content (H := Demo.externals) Demo.state0 "8B1D"
           "/data/cars.csv" 2 (bytes_of "make,msrp")); [reflexivity | reflexivity | lia].
Defined.

(** X2.  [_getlog] appends what it flushed to the running log of the
    session, and [saslog] returns the running log. *)
Theorem getlog_accumulates (st : State) (ws : string) (buf : Z) :
  workspace (self st) = Some ws ->
  exists result,
    fst (_getlog buf st) = Ok result /\
    _log (self (snd (_getlog buf st))) = _log (self st) +:+ result /\
    fst (saslog (snd (_getlog buf st))) = Ok (_log (self st) +:+ result).
Proof.
  intros Hws. rewrite (_getlog_run st ws buf Hws). cbv zeta.
  eexists. repeat split.
Qed.

Lemma getlog_accumulates_witness :
  exists result,
    fst (_getlog 2048 Demo.state0) = Ok result /\
    _log (self (snd (_getlog 2048 Demo.state0))) =
    _log (self Demo.state0) +:+ result /\
    fst (saslog (snd (_getlog 2048 Demo.state0))) =
    Ok (_log (self Demo.state0) +:+ result).
Proof.
  exact (getlog_accumulates Demo.state0 "8B1D" 2048 eq_refl).
Defined.

(** X3.  [exist] is true exactly when the column query for the table
    path returns a row. *)
Theorem exist_iff_columns (st : State) (db : Z) (table : string) (libref : option string) :
  adodb (self st) = Some db ->
  fst (exist table libref st) =
  Ok (match default [] (schemas (world st) !! _tablepath (_sb (self st)) table libref) with
      | [] => false
      | _ :: _ => true
      end).
Proof.
  intros Hdb. unfold exist, OpenSchema, the_adodb, call, modify, gets, mbind, M_bind.
  rewrite Hdb. reflexivity.
Qed.

Lemma exist_iff_columns_witness :
  fst (exist "t" (Some "work") Demo.state0) = Ok true /\
  fst (exist "notable" (Some "sashelp") Demo.state0) = Ok false.
Proof.
  split.
  - exact (exist_iff_columns Demo.state0 1 "t" (Some "work") eq_refl).
  - exact (exist_iff_columns Demo.state0 1 "notable" (Some "sashelp") eq_refl).
Defined.

(** X4.  [_endsas] closes the connection, then releases the workspace
    from the keeper, then closes the workspace, in that order; the
    session keeps its workspace attribute. *)
Theorem endsas_order (st : State) (db : Z) (ws : string) :
  adodb (self st) = Some db ->
  workspace (self st) = Some ws ->
  fst (_endsas st) = Ok tt /\
  calls (world (snd (_endsas st))) =
  (calls (world st) ++ [ADODB_Close; Keeper_RemoveObject ws; Workspace_Close ws])%list /\
  workspace (self (snd (_endsas st))) = Some ws.
Proof.
  intros Hdb Hws.
  unfold _endsas, the_workspace, call, modify, gets, mbind, M_bind.
  rewrite Hdb. cbn. rewrite Hws. cbn.
  repeat split; [now rewrite <- !app_assoc | exact Hws].
Qed.

Lemma endsas_order_witness :
  fst (_endsas Demo.state0) = Ok tt /\
  calls (world (snd (_endsas Demo.state0))) =
  (calls (world Demo.state0)
   ++ [ADODB_Close; Keeper_RemoveObject "8B1D"; Workspace_Close "8B1D"])%list /\
  workspace (self (snd (_endsas Demo.state0))) = Some "8B1D".
Proof. exact (endsas_order Demo.state0 1 "8B1D" eq_refl eq_refl). Defined.

(** X5.  [_prompt] asks until the answer is non-empty and returns it with
    its key, printing a notice for every empty answer; an answer of
    [None] raises [KeyboardInterrupt]. *)
Theorem prompt_until_answered (key : string) (hide : value) (st : State)
  (empties : nat) (rest : list (option string)) :
  sascfg (self st) !! "_prompt" = None ->
  (forall c val,
     answers (world st) = (repeat (Some "") empties ++ Some (String c val) :: rest)%list ->
     fst (_prompt key hide st) = Ok (key, String c val) /\
     answers (world (snd (_prompt key hide st))) = rest /\
     stdout (world (snd (_prompt key hide st))) =
     (stdout (world st) ++ repeat "Input not valid." empties)%list) /\
  (answers (world st) = (repeat (Some "") empties ++ None :: rest)%list ->
   fst (_prompt key hide st) = Raise KeyboardInterrupt /\
   answers (world (snd (_prompt key hide st))) = rest).
Proof.
  intros Hattr. unfold _prompt. rewrite Hattr.
  assert (Hask : forall tail,
    ask key (repeat (Some "") empties ++ tail)%list =
    let '(r, rest', out) := ask key tail in
    (r, rest', (repeat "Input not valid." empties ++ out)%list)).
  { intros tail. induction empties as [|n IH]; simpl.
    - destruct (ask key tail) as [[r rest'] out]. reflexivity.
    - rewrite IH. destruct (ask key tail) as [[r rest'] out]. reflexivity. }
  split.
  - intros c val ->. rewrite Hask. cbn. rewrite app_nil_r. repeat split.
  - intros ->. rewrite Hask. cbn. repeat split.
Qed.

Lemma prompt_until_answered_witness :
  let st :=
    set_io [] [] [Some ""; Some ""; Some "2024"; None] [] Demo.state0 in
  fst (_prompt "year" (VBool false) st) = Ok ("year", "2024") /\
  answers (world (snd (_prompt "year" (VBool false) st))) = [None] /\
  stdout (world (snd (_prompt "year" (VBool false) st))) =
  ["Input not valid."; "Input not valid."].
Proof.
  intros st.
  exact (proj1 (prompt_until_answered "year" (VBool false) st 2 [None] eq_refl)
           "2"%char "024" eq_refl).
Defined.

(** ** Opening and closing *)

Lemma _startsas_local_run st id rest provider :
  workspace (self st) = None ->
  broker_ids (world st) = id :: rest ->
  sascfg (self st) !! "provider" = Some provider ->
  sascfg (self st) !! "host" = Some VNone ->
  _startsas st = (Ok id, opened id local_server VNone VNone provider rest st).
Proof.
  intros Hws Hids Hprov Hhost.
  unfold _startsas, cfgattr, CreateObjectByServer, call, modify, gets, raise,
    SASConfigCOM.getattr, mbind, M_bind, mret, M_ret.
  rewrite Hws. cbn. rewrite Hhost. cbn. rewrite Hids. cbn. rewrite Hprov. cbn.
  unfold opened, set_self, add_calls, set_io. cbn.
  now rewrite <- !app_assoc.
Qed.

Lemma _startsas_remote_run st id rest provider host port class_id user pw :
  workspace (self st) = None ->
  broker_ids (world st) = id :: rest ->
  sascfg (self st) !! "provider" = Some provider ->
  sascfg (self st) !! "host" = Some host -> is_None host = false ->
  sascfg (self st) !! "port" = Some port ->
  sascfg (self st) !! "class_id" = Some class_id ->
  sascfg (self st) !! "user" = Some user ->
  sascfg (self st) !! "pw" = Some pw ->
  _startsas st =
  (Ok id,
   opened id {| MachineDNSName := host; Port := port; Protocol := PROTOCOL_IOM;
                ClassIdentifier := Some class_id |} user pw provider rest st).
Proof.
  intros Hws Hids Hprov Hhost Hnone Hport Hclass Huser Hpw.
  unfold _startsas, cfgattr, CreateObjectByServer, call, modify, gets, raise,
    SASConfigCOM.getattr, mbind, M_bind, mret, M_ret.
  rewrite Hws. cbn. rewrite Hhost. cbn. rewrite Hnone. cbn.
  rewrite Hport, Hclass, Huser, Hpw. cbn. rewrite Hids. cbn. rewrite Hprov. cbn.
  unfold opened, set_self, add_calls, set_io. cbn.
  now rewrite <- !app_assoc.
Qed.

(** X6.  [_startsas] on a session without a workspace creates one through
    the broker, registers it with the keeper and opens the ADODB
    connection on the identifier the broker gave, which it returns.
    Without a host the server is the local one and no credentials are
    passed, whatever [user] and [pw] hold; with a host, the server
    carries host, port and class identifier, and [user] and [pw] are
    passed. *)
Theorem startsas_opens_connection (st : State) (id : string) (rest : list string)
  (provider : value) :
  workspace (self st) = None ->
  broker_ids (world st) = id :: rest ->
  sascfg (self st) !! "provider" = Some provider ->
  (sascfg (self st) !! "host" = Some VNone ->
   fst (_startsas st) = Ok id /\
   workspace (self (snd (_startsas st))) = Some id /\
   adodb (self (snd (_startsas st))) = Some STATE_OPEN /\
   calls (world (snd (_startsas st))) =
   (calls (world st) ++
    [Factory_CreateObjectByServer SAS_APP local_server VNone VNone;
     Keeper_AddObject id;
     ADODB_Open (connection_string provider id)])%list) /\
  (forall host port class_id user pw,
     sascfg (self st) !! "host" = Some host -> is_None host = false ->
     sascfg (self st) !! "port" = Some port ->
     sascfg (self st) !! "class_id" = Some class_id ->
     sascfg (self st) !! "user" = Some user ->
     sascfg (self st) !! "pw" = Some pw ->
     fst (_startsas st) = Ok id /\
     workspace (self (snd (_startsas st))) = Some id /\
     adodb (self (snd (_startsas st))) = Some STATE_OPEN /\
     calls (world (snd (_startsas st))) =
     (calls (world st) ++
      [Factory_CreateObjectByServer SAS_APP
         {| MachineDNSName := host; Port := port; Protocol := PROTOCOL_IOM;
            ClassIdentifier := Some class_id |} user pw;
       Keeper_AddObject id;
       ADODB_Open (connection_string provider id)])%list).
Proof.
  intros Hws Hids Hprov. split.
  - intros Hhost.
    rewrite (_startsas_local_run st id rest provider Hws Hids Hprov Hhost).
    repeat split.
  - intros host port class_id user pw Hhost Hnone Hport Hclass Huser Hpw.
    rewrite (_startsas_remote_run st id rest provider host port class_id user pw
               Hws Hids Hprov Hhost Hnone Hport Hclass Huser Hpw).
    repeat split.
Qed.

Lemma startsas_opens_connection_witness :
  let st :=
    {| self := with_connection None [] None Demo.session0; world := Demo.world0 |} in
  fst (_startsas st) = Ok "8B1E" /\
  workspace (self (snd (_startsas st))) = Some "8B1E" /\
  adodb (self (snd (_startsas st))) = Some STATE_OPEN /\
  calls (world (snd (_startsas st))) =
  (calls (world st) ++
   [Factory_CreateObjectByServer SAS_APP
      {| MachineDNSName := VStr "sas.example.com"; Port := VInt 8591;
         Protocol := PROTOCOL_IOM; ClassIdentifier := Some (VStr "440196d4") |}
      VNone VNone;
    Keeper_AddObject "8B1E";
    ADODB_Open (connection_string (VStr "sas.iomprovider") "8B1E")])%list.
Proof.
  intros st.
  apply (proj2 (startsas_opens_connection st "8B1E" ["8B1F"] (VStr "sas.iomprovider")
                  eq_refl eq_refl eq_refl)
           (VStr "sas.example.com") (VInt 8591) (VStr "440196d4") VNone VNone);
    reflexivity.
Defined.

(** X7.  When the broker fails to create the workspace, [_startsas]
    raises the broker's error after that one call, made with the local
    server and no credentials when the configuration has no host, and
    with the configured server and credentials when it has one: no
    connection is opened and the session is left without a workspace, so
    that a later [_startsas], once the broker has a workspace to give,
    opens it. *)
Theorem startsas_failure_leaves_unopened (st : State) :
  workspace (self st) = None ->
  broker_ids (world st) = [] ->
  let retry id rest :=
    set_io (stdout (world st)) (stderr (world st)) (answers (world st))
      (id :: rest) (snd (_startsas st)) in
  (sascfg (self st) !! "host" = Some VNone ->
   fst (_startsas st) = Raise (com_error "CreateObjectByServer") /\
   workspace (self (snd (_startsas st))) = None /\
   calls (world (snd (_startsas st))) =
   (calls (world st) ++
    [Factory_CreateObjectByServer SAS_APP local_server VNone VNone])%list /\
   forall id rest provider,
     sascfg (self st) !! "provider" = Some provider ->
     fst (_startsas (retry id rest)) = Ok id /\
     workspace (self (snd (_startsas (retry id rest)))) = Some id) /\
  (forall host port class_id user pw,
     sascfg (self st) !! "host" = Some host -> is_None host = false ->
     sascfg (self st) !! "port" = Some port ->
     sascfg (self st) !! "class_id" = Some class_id ->
     sascfg (self st) !! "user" = Some user ->
     sascfg (self st) !! "pw" = Some pw ->
     fst (_startsas st) = Raise (com_error "CreateObjectByServer") /\
     workspace (self (snd (_startsas st))) = None /\
     calls (world (snd (_startsas st))) =
     (calls (world st) ++
      [Factory_CreateObjectByServer SAS_APP
         {| MachineDNSName := host; Port := port; Protocol := PROTOCOL_IOM;
            ClassIdentifier := Some class_id |} user pw])%list /\
     forall id rest provider,
       sascfg (self st) !! "provider" = Some provider ->
       fst (_startsas (retry id rest)) = Ok id /\
       workspace (self (snd (_startsas (retry id rest)))) = Some id).
Proof.
  intros Hws Hids retry. split.
  - intros Hhost.
    assert (Hrun : _startsas st =
      (Raise (com_error "CreateObjectByServer"),
       add_calls [Factory_CreateObjectByServer SAS_APP local_server VNone VNone]
         (set_self (with_connection None [] (Some STATE_CLOSED)) st))).
    { unfold _startsas, cfgattr, CreateObjectByServer, call, modify, gets, raise,
        SASConfigCOM.getattr, mbind, M_bind, mret, M_ret.
      rewrite Hws. cbn. rewrite Hhost. cbn. rewrite Hids. reflexivity. }
    subst retry. cbv beta. rewrite Hrun.
    split; [reflexivity | split; [reflexivity | split; [reflexivity |]]].
    intros id rest provider Hprov.
    match goal with
    | |- context [_startsas ?r] =>
        rewrite (_startsas_local_run r id rest provider eq_refl eq_refl Hprov Hhost)
    end.
    split; reflexivity.
  - intros host port class_id user pw Hhost Hnone Hport Hclass Huser Hpw.
    assert (Hrun : _startsas st =
      (Raise (com_error "CreateObjectByServer"),
       add_calls [Factory_CreateObjectByServer SAS_APP
                    {| MachineDNSName := host; Port := port; Protocol := PROTOCOL_IOM;
                       ClassIdentifier := Some class_id |} user pw]
         (set_self (with_connection None [] (Some STATE_CLOSED)) st))).
    { unfold _startsas, cfgattr, CreateObjectByServer, call, modify, gets, raise,
        SASConfigCOM.getattr, mbind, M_bind, mret, M_ret.
      rewrite Hws. cbn. rewrite Hhost. cbn. rewrite Hnone. cbn.
      rewrite Hport, Hclass, Huser, Hpw. cbn. rewrite Hids. reflexivity. }
    subst retry. cbv beta. rewrite Hrun.
    split; [reflexivity | split; [reflexivity | split; [reflexivity |]]].
    intros id rest provider Hprov.
    match goal with
    | |- context [_startsas ?r] =>
        rewrite (_startsas_remote_run r id rest provider host port class_id user pw
                   eq_refl eq_refl Hprov Hhost Hnone Hport Hclass Huser Hpw)
    end.
    split; reflexivity.
Qed.

Lemma startsas_failure_leaves_unopened_witness :
  let st0 :=
    {| self := {| sascfg := SASConfigCOM.from_config [] (Demo.sb None);
                  _sb := Demo.sb None; _log := ""; workspace := None; keeper := [];
                  adodb := None; pid := None |};
       world := Demo.world0 |} in
  let remote := set_io [] [] [] [] st0 in
  let local :=
    set_self (fun s => {| sascfg := <["host" := VNone]> (sascfg s); _sb := _sb s;
                          _log := _log s; workspace := workspace s;
                          keeper := keeper s; adodb := adodb s; pid := pid s |})
      remote in
  (fst (_startsas local) = Raise (com_error "CreateObjectByServer") /\
   workspace (self (snd (_startsas local))) = None) /\
  (fst (_startsas remote) = Raise (com_error "CreateObjectByServer") /\
   workspace (self (snd (_startsas remote))) = None).
Proof.
  intros st0 remote local. split.
  - destruct (proj1 (startsas_failure_leaves_unopened local eq_refl eq_refl) eq_refl)
      as (Hraise & Hws & _).
    split; [exact Hraise | exact Hws].
  - destruct (proj2 (startsas_failure_leaves_unopened remote eq_refl eq_refl)
                (VStr "sas.example.com") (VInt 8591) (VStr "440196d4") VNone VNone
                eq_refl eq_refl eq_refl eq_refl eq_refl eq_refl)
      as (Hraise & Hws & _).
    split; [exact Hraise | exact Hws].
Defined.

Lemma _endsas_run st db ws :
  adodb (self st) = Some db -> workspace (self st) = Some ws ->
  _endsas st = (Ok tt, closed ws st).
Proof.
  intros Hdb Hws. unfold _endsas, the_workspace, call, modify, gets, mbind, M_bind.
  rewrite Hdb. cbn. rewrite Hws. cbn.
  unfold closed, set_self, add_calls, endsas_calls. cbn.
  now rewrite <- !app_assoc.
Qed.

(** X8.  The destructor closes the session only while the connection is
    open: on an open session it makes the calls of [_endsas], and run
    again, or run after [_endsas], it makes no call at all; on an object
    that never got its connection attribute it raises [AttributeError]. *)
Theorem del_closes_once (st : State) (ws : string) :
  workspace (self st) = Some ws ->
  adodb (self st) = Some STATE_OPEN ->
  __del__ st = (Ok tt, closed ws st) /\
  calls (world (closed ws st)) = (calls (world st) ++ endsas_calls ws)%list /\
  __del__ (closed ws st) = (Ok tt, closed ws st) /\
  __del__ (snd (_endsas st)) = (Ok tt, snd (_endsas st)) /\
  forall st0, adodb (self st0) = None -> __del__ st0 = (Raise (AttributeError "adodb"), st0).
Proof.
  intros Hws Hdb.
  assert (Hend := _endsas_run st STATE_OPEN ws Hdb Hws).
  repeat apply conj.
  - unfold __del__, the_adodb, mbind, M_bind. rewrite Hdb. cbn. exact Hend.
  - reflexivity.
  - reflexivity.
  - rewrite Hend. reflexivity.
  - intros st0 Hnone. unfold __del__, the_adodb, mbind, M_bind. now rewrite Hnone.
Qed.

Lemma del_closes_once_witness :
  __del__ Demo.state0 = (Ok tt, closed "8B1D" Demo.state0) /\
  calls (world (closed "8B1D" Demo.state0)) =
  (calls (world Demo.state0) ++ endsas_calls "8B1D")%list /\
  __del__ (closed "8B1D" Demo.state0) = (Ok tt, closed "8B1D" Demo.state0) /\
  __del__ (snd (_endsas Demo.state0)) = (Ok tt, snd (_endsas Demo.state0)) /\
  forall st0, adodb (self st0) = None -> __del__ st0 = (Raise (AttributeError "adodb"), st0).
Proof. exact (del_closes_once Demo.state0 "8B1D" eq_refl eq_refl). Defined.

(** ** File transfer, continued *)

Section Transfers.
Context `{Externals}.

Lemma upload_to_state st ws local remote_file perms data :
  workspace (self st) = Some ws ->
  local_fs (world st) !! local = Some (LocalFile data) ->
  remote_fs (engine (world st)) !! remote_file <> Some RemoteDir ->
  upload_to local remote_file perms st =
  (Ok (transfer_result true "File successfully written using FileService."),
   uploaded remote_file perms data st).
Proof.
  intros Hws Hlocal Hdir.
  unfold upload_to, the_workspace, call, modify, gets, raise, mbind, M_bind.
  rewrite Hlocal, Hws. cbn.
  destruct (remote_fs (engine (world st)) !! remote_file) as [[|content]|] eqn:Hnode;
    [contradiction | |];
    unfold uploaded, add_calls, set_engine; cbn; rewrite <- !app_assoc; reflexivity.
Qed.

Lemma upload_plain st local remote overwrite permission :
  valid st remote <> Some ∅ ->
  valid st remote = None \/ is_False overwrite = false ->
  upload local remote overwrite permission st =
  upload_to local remote (permission_option permission) st.
Proof.
  unfold valid. intros Hdir Hfree. unfold upload, mbind, M_bind, gets. cbn.
  rewrite bool_decide_false by exact Hdir.
  destruct Hfree as [-> | ->].
  - rewrite bool_decide_true by reflexivity. reflexivity.
  - now rewrite andb_false_r.
Qed.

(** X9.  A file uploaded and then downloaded arrives unchanged: after
    [upload] of a local file to a remote path that is free, or that may
    be overwritten, [download] of that path to a second local path that
    can be opened for writing (a file, or a free path where a file can
    be created) writes there the bytes of the first file, whatever
    their number and whatever [overwrite] is passed to [download]. *)
Theorem upload_download_round_trip
  (st : State) (ws local remote copy permission : string)
  (overwrite overwrite' : value) (data : list byte) (info : dict) :
  workspace (self st) = Some ws ->
  local_fs (world st) !! local = Some (LocalFile data) ->
  valid st remote <> Some ∅ ->
  valid st remote = None \/ is_False overwrite = false ->
  remote_fs (engine (world st)) !! remote <> Some RemoteDir ->
  file_info (_sb (self st)) (<[remote := RemoteFile data]> (remote_fs (engine (world st))))
    remote = Some info ->
  info <> ∅ ->
  opens_for_writing (local_fs (world st)) copy = true ->
  let up := upload local remote overwrite permission st in
  let down := download copy remote overwrite' (snd up) in
  fst up = Ok (transfer_result true "File successfully written using FileService.") /\
  fst down = Ok (transfer_result true "File successfully read using FileService.") /\
  local_fs (world (snd down)) !! copy = Some (LocalFile data) /\
  (copy <> local -> local_fs (world (snd down)) !! local = Some (LocalFile data)).
Proof.
  intros Hws Hlocal Hnotdir Hfree Hremote Hinfo Hne Hcopy up down.
  assert (Hup : up = (Ok (transfer_result true "File successfully written using FileService."),
                      uploaded remote (permission_option permission) data st)).
  { unfold up. rewrite (upload_plain st local remote overwrite permission Hnotdir Hfree).
    apply (upload_to_state st ws); assumption. }
  assert (Hdown : down =
    (Ok (transfer_result true "File successfully read using FileService."),
     set_local_fs (<[copy := LocalFile data]>)
       (add_calls (getfile_calls remote 2048 (S (length (slices 2048 data))))
          (set_local_fs (<[copy := LocalFile []]>)
             (uploaded remote (permission_option permission) data st))))).
  { unfold down. rewrite Hup. cbn [snd].
    apply (download_run _ ws copy remote overwrite' info data copy).
    - exact Hws.
    - unfold valid. cbn. exact Hinfo.
    - exact Hne.
    - cbn. apply lookup_insert_eq.
    - unfold local_target. cbn. rewrite bool_decide_false; [reflexivity |].
      intros Hdir. unfold opens_for_writing in Hcopy. rewrite Hdir in Hcopy.
      discriminate Hcopy.
    - right. exact Hcopy. }
  rewrite Hup, Hdown. cbn.
  repeat split.
  - apply lookup_insert_eq.
  - intros Hdiff. rewrite !lookup_insert_ne by exact Hdiff. exact Hlocal.
Qed.

(** X10.  [overwrite=False] does not protect a file inside a directory
    target: when [remote] is a directory, [upload] writes to the
    directory path, the host separator and the local basename without
    looking at what is there, and an existing file of that name is
    replaced. *)
Theorem upload_into_directory_ignores_overwrite
  (st : State) (ws local remote permission : string) (data old : list byte) :
  workspace (self st) = Some ws ->
  valid st remote = Some ∅ ->
  local_fs (world st) !! local = Some (LocalFile data) ->
  let remote_file := remote +:+ hostsep (_sb (self st)) +:+ os_path_basename local in
  remote_fs (engine (world st)) !! remote_file = Some (RemoteFile old) ->
  let up := upload local remote (VBool false) permission st in
  fst up = Ok (transfer_result true "File successfully written using FileService.") /\
  remote_fs (engine (world (snd up))) !! remote_file = Some (RemoteFile data).
Proof.
  intros Hws Hv Hlocal remote_file Hold up. unfold up.
  rewrite (upload_into_directory st local remote (VBool false) permission Hv).
  fold remote_file.
  rewrite (upload_to_state st ws local remote_file (permission_option permission) data
             Hws Hlocal); [| rewrite Hold; discriminate].
  split; [reflexivity |]. cbn. apply lookup_insert_eq.
Qed.

End Transfers.

Lemma upload_download_round_trip_witness :
  let up := upload (H := Demo.externals) "/tmp/old.csv" "/data/new.csv" (VBool false) ""
              Demo.state0 in
  let down := download (H := Demo.externals) "/tmp/copy.csv" "/data/new.csv" (VBool false)
                (snd up) in
  fst up = Ok (transfer_result true "File successfully written using FileService.") /\
  fst down = Ok (transfer_result true "File successfully read using FileService.") /\
  local_fs (world (snd down)) !! "/tmp/copy.csv" = Some (LocalFile (bytes_of "stale")) /\
  ("/tmp/copy.csv" <> "/tmp/old.csv" ->
   local_fs (world (snd down)) !! "/tmp/old.csv" = Some (LocalFile (bytes_of "stale"))).
Proof.
  apply (upload_download_round_trip (H := Demo.externals) Demo.state0 "8B1D"
           "/tmp/old.csv" "/data/new.csv" "/tmp/copy.csv" "" (VBool false) (VBool false)
           (bytes_of "stale") {[ "Size" := VInt 5 ]}).
  - reflexivity.
  - reflexivity.
  - vm_compute. discriminate.
  - left. reflexivity.
  - vm_compute. discriminate.
  - reflexivity.
  - vm_compute. discriminate.
  - reflexivity.
Defined.

Lemma upload_into_directory_ignores_overwrite_witness :
  let up := upload (H := Demo.externals) "/tmp/old.csv" "/data" (VBool false) ""
              demo_with_remote_copy in
  fst up = Ok (transfer_result true "File successfully written using FileService.") /\
  remote_fs (engine (world (snd up))) !! "/data/old.csv" = Some (RemoteFile (bytes_of "stale")).
Proof.
  apply (upload_into_directory_ignores_overwrite (H := Demo.externals)
           demo_with_remote_copy "8B1D" "/tmp/old.csv" "/data" ""
           (bytes_of "stale") (bytes_of "remote copy"));
    reflexivity.
Defined.

(** ** Column metadata by name *)

Lemma column_row_in rows name row :
  column_row rows name = Some row ->
  In row rows /\ dict_get (fields_dict row) "COLUMN_NAME" = Some name.
Proof.
  induction rows as [|r rows IH]; simpl; [discriminate|].
  destruct (column_row rows name) as [r'|] eqn:Hrest.
  - intros [= <-]. destruct (IH eq_refl) as [Hin Hname]. split; [now right | exact Hname].
  - destruct (decide (dict_get (fields_dict r) "COLUMN_NAME" = Some name)) as [Hname|];
      [|discriminate].
    intros [= <-]. split; [now left | exact Hname].
Qed.

Lemma schema_loop_cons sb row rest m fmt name :
  dict_get (fields_dict row) "FORMAT_NAME" = Some fmt ->
  dict_get (fields_dict row) "COLUMN_NAME" = Some name ->
  schema_loop sb (row :: rest) m =
  schema_loop sb rest
    (dict_set m name (dict_set (fields_dict row) "CONVERT" (Lambda (derive_convert sb fmt)))).
Proof.
  intros Hfmt Hname. simpl. unfold getitem, mbind, outcome_bind.
  rewrite Hfmt. rewrite dict_get_set_ne by discriminate. now rewrite Hname.
Qed.

Lemma schema_loop_lookup sb rows :
  Forall described rows ->
  forall m, exists meta,
    schema_loop sb rows m = Ok meta /\
    forall name,
      dict_get meta name =
      match column_row rows name ≫= column_record sb with
      | Some col => Some col
      | None => dict_get m name
      end.
Proof.
  induction 1 as [|row rows [[fmt Hfmt] [cn Hcn]] Hrows IH]; intros m.
  - exists m. split; reflexivity.
  - rewrite (schema_loop_cons sb row rows m fmt cn Hfmt Hcn).
    destruct (IH (dict_set m cn
                (dict_set (fields_dict row) "CONVERT" (Lambda (derive_convert sb fmt)))))
      as (meta & Hrun & Hlook).
    exists meta. split; [exact Hrun|]. intros name. rewrite Hlook. simpl column_row.
    destruct (column_row rows name) as [r|] eqn:Hr; simpl.
    + destruct (column_row_in rows name r Hr) as [Hin _].
      rewrite List.Forall_forall in Hrows. destruct (Hrows r Hin) as [[f Hf] _].
      unfold column_record, row_format. rewrite Hf. reflexivity.
    + destruct (decide (dict_get (fields_dict row) "COLUMN_NAME" = Some name)) as [Hname|Hne];
        simpl.
      * unfold column_record, row_format. rewrite Hfmt. simpl.
        assert (cn = name) as -> by congruence.
        apply dict_get_set_eq.
      * apply dict_get_set_ne. congruence.
Qed.

Lemma schema_loop_key_error sb pre row post m key :
  Forall described pre ->
  (key = "FORMAT_NAME" /\ dict_get (fields_dict row) "FORMAT_NAME" = None) \/
  (key = "COLUMN_NAME" /\ is_Some (dict_get (fields_dict row) "FORMAT_NAME") /\
   dict_get (fields_dict row) "COLUMN_NAME" = None) ->
  schema_loop sb (pre ++ row :: post) m = Raise (KeyError key).
Proof.
  intros Hpre Hrow. revert m.
  induction Hpre as [|r pre [[fmt Hfmt] [cn Hcn]] Hpre IH]; intros m.
  - simpl. unfold getitem, mbind, outcome_bind.
    destruct Hrow as [[-> Hnone] | (-> & [fmt Hfmt] & Hnone)].
    + now rewrite Hnone.
    + rewrite Hfmt. rewrite dict_get_set_ne by discriminate. now rewrite Hnone.
  - change ((r :: pre) ++ row :: post)%list with (r :: (pre ++ row :: post))%list.
    rewrite (schema_loop_cons sb r _ m fmt cn Hfmt Hcn). apply IH.
Qed.

Lemma dict_get_app {K V} `{EqDecision K} (d d' : list (K * V)) k :
  dict_get (d ++ d') k =
  match dict_get d k with Some v => Some v | None => dict_get d' k end.
Proof.
  induction d as [|[k' v'] d IH]; simpl; [reflexivity|].
  destruct (decide (k' = k)); [reflexivity | exact IH].
Qed.

Lemma dict_set_fresh {K V} `{EqDecision K} (d : list (K * V)) k v :
  dict_get d k = None -> dict_set d k v = (d ++ [(k, v)])%list.
Proof.
  induction d as [|[k' v'] d IH]; simpl; [reflexivity|].
  destruct (decide (k' = k)); [discriminate|]. intros Hget. now rewrite IH.
Qed.

Lemma schema_loop_distinct sb rows :
  Forall described rows ->
  NoDup (column_names rows) ->
  forall m,
    (forall name, In name (column_names rows) -> dict_get m name = None) ->
    schema_loop sb rows m = Ok (m ++ schema_records sb rows)%list.
Proof.
  induction 1 as [|row rows [[fmt Hfmt] [cn Hcn]] Hrows IH]; intros Hnodup m Hfresh.
  - simpl. now rewrite app_nil_r.
  - rewrite (schema_loop_cons sb row rows m fmt cn Hfmt Hcn).
    unfold column_names in Hnodup, Hfresh. simpl in Hnodup, Hfresh.
    rewrite Hcn in Hnodup, Hfresh.
    apply NoDup_cons in Hnodup as [Hnotin Hnodup].
    rewrite dict_set_fresh by (apply Hfresh; now left).
    rewrite IH.
    + unfold schema_records at 2. simpl. rewrite Hcn. unfold column_record, row_format.
      rewrite Hfmt. simpl. now rewrite <- app_assoc.
    + exact Hnodup.
    + intros name Hin. rewrite dict_get_app, (Hfresh name) by (now right). simpl.
      destruct (decide (cn = name)) as [->|]; [|reflexivity].
      exfalso. apply Hnotin. now apply list_elem_of_In.
Qed.

Lemma _schema_unfold st db table libref rows :
  adodb (self st) = Some db ->
  schemas (world st) !! _tablepath (_sb (self st)) table libref = Some rows ->
  rows <> [] ->
  _schema table libref st =
  (schema_loop (_sb (self st)) rows [],
   add_calls [ADODB_OpenSchema (_tablepath (_sb (self st)) table libref)] st).
Proof.
  intros Hdb Hrows Hne.
  unfold _schema, OpenSchema, the_adodb, mbind, M_bind, gets, call, modify, lift, raise.
  rewrite Hdb. cbn. rewrite Hrows. cbn.
  destruct rows; [contradiction | reflexivity].
Qed.

Lemma _schema_run st db table libref rows :
  adodb (self st) = Some db ->
  schemas (world st) !! _tablepath (_sb (self st)) table libref = Some rows ->
  rows <> [] ->
  Forall described rows ->
  exists meta,
    _schema table libref st =
    (Ok meta, add_calls [ADODB_OpenSchema (_tablepath (_sb (self st)) table libref)] st) /\
    forall name, dict_get meta name = column_row rows name ≫= column_record (_sb (self st)).
Proof.
  intros Hdb Hrows Hne Hdesc.
  destruct (schema_loop_lookup (_sb (self st)) rows Hdesc []) as (meta & Hrun & Hlook).
  exists meta. split.
  - rewrite (_schema_unfold st db table libref rows Hdb Hrows Hne). now rewrite Hrun.
  - intros name. rewrite Hlook.
    destruct (column_row rows name ≫= column_record (_sb (self st))); reflexivity.
Qed.

Lemma _schema_distinct st db table libref rows :
  adodb (self st) = Some db ->
  schemas (world st) !! _tablepath (_sb (self st)) table libref = Some rows ->
  rows <> [] ->
  Forall described rows ->
  NoDup (column_names rows) ->
  _schema table libref st =
  (Ok (schema_records (_sb (self st)) rows),
   add_calls [ADODB_OpenSchema (_tablepath (_sb (self st)) table libref)] st).
Proof.
  intros Hdb Hrows Hne Hdesc Hnodup.
  rewrite (_schema_unfold st db table libref rows Hdb Hrows Hne).
  rewrite (schema_loop_distinct (_sb (self st)) rows Hdesc Hnodup []); [reflexivity|].
  reflexivity.
Qed.

(** X11.  [_schema] keys its result by column name.  When every row of
    the column query has the fields [FORMAT_NAME] and [COLUMN_NAME], the
    result holds under each name the record of the last row that names
    it, with its [CONVERT], and nothing under any other name; when the
    names are distinct it holds one record per row, in the order of the
    rows.  The first row that lacks one of the two fields makes
    [_schema] raise [KeyError] for that field. *)
Theorem schema_keyed_by_column_name (st : State) (db : Z) (table : string)
  (libref : option string) (rows : list (list (string * cell))) :
  adodb (self st) = Some db ->
  schemas (world st) !! _tablepath (_sb (self st)) table libref = Some rows ->
  rows <> [] ->
  (Forall described rows ->
   exists meta,
     _schema table libref st =
     (Ok meta, add_calls [ADODB_OpenSchema (_tablepath (_sb (self st)) table libref)] st) /\
     (forall name,
        dict_get meta name = column_row rows name ≫= column_record (_sb (self st))) /\
     (NoDup (column_names rows) -> meta = schema_records (_sb (self st)) rows)) /\
  (forall pre row post,
     rows = (pre ++ row :: post)%list -> Forall described pre ->
     dict_get (fields_dict row) "FORMAT_NAME" = None ->
     fst (_schema table libref st) = Raise (KeyError "FORMAT_NAME")) /\
  (forall pre row post,
     rows = (pre ++ row :: post)%list -> Forall described pre ->
     is_Some (dict_get (fields_dict row) "FORMAT_NAME") ->
     dict_get (fields_dict row) "COLUMN_NAME" = None ->
     fst (_schema table libref st) = Raise (KeyError "COLUMN_NAME")).
Proof.
  intros Hdb Hrows Hne. repeat apply conj.
  - intros Hdesc.
    destruct (_schema_run st db table libref rows Hdb Hrows Hne Hdesc) as (meta & Hrun & Hlook).
    exists meta. split; [exact Hrun | split; [exact Hlook|]].
    intros Hnodup.
    rewrite (_schema_distinct st db table libref rows Hdb Hrows Hne Hdesc Hnodup) in Hrun.
    congruence.
  - intros pre row post -> Hpre Hnone.
    rewrite (_schema_unfold st db table libref _ Hdb Hrows Hne). cbn [fst].
    apply schema_loop_key_error; [exact Hpre | left; now split].
  - intros pre row post -> Hpre Hfmt Hnone.
    rewrite (_schema_unfold st db table libref _ Hdb Hrows Hne). cbn [fst].
    apply schema_loop_key_error; [exact Hpre | right; now repeat split].
Qed.

Lemma schema_keyed_by_column_name_witness :
  fst (_schema "t" (Some "work") state_twice_named) = Raise (KeyError "FORMAT_NAME") /\
  exists meta,
    fst (_schema "t" (Some "work") Demo.state0) = Ok meta /\
    (dict_get meta (Value (CStr "ts")) ≫= fun col => dict_get col "CONVERT") =
    Some (Lambda ConvertDatetime).
Proof.
  split.
  - apply (proj1 (proj2 (schema_keyed_by_column_name state_twice_named 1 "t" (Some "work")
                           twice_named eq_refl eq_refl ltac:(discriminate)))
             [ [("COLUMN_NAME", CStr "d"); ("FORMAT_NAME", CStr "BEST")];
               [("COLUMN_NAME", CStr "d"); ("FORMAT_NAME", CStr "DATE")] ]
             [("COLUMN_NAME", CStr "x")] []).
    + reflexivity.
    + repeat constructor; eexists; reflexivity.
    + reflexivity.
  - destruct (proj1 (schema_keyed_by_column_name Demo.state0 1 "t" (Some "work") _
                       eq_refl eq_refl ltac:(discriminate)))
      as (meta & Hrun & Hlook & _).
    + repeat constructor; eexists; reflexivity.
    + exists meta. split; [now rewrite Hrun|]. rewrite Hlook. reflexivity.
Defined.

(** ** Reading a table through the record set *)

Lemma apply_convert_raise sb g x e :
  apply_convert sb g x = Raise e -> e = TypeError \/ e = OverflowError.
Proof.
  unfold apply_convert, timedelta, datetime_add, mbind, outcome_bind, fmap, outcome_fmap.
  destruct g; [| |discriminate];
    (destruct x; [intros [= <-]; now left | | intros [= <-]; now left
                  | intros [= <-]; now left]);
    repeat match goal with
           | |- context [if ?b then _ else _] => destruct b
           end;
    try discriminate; intros [= <-]; now right.
Qed.

Lemma apply_convert_temporal sb fmt x :
  temporal sb fmt = true -> not_a_number x = true ->
  apply_convert sb (derive_convert sb fmt) x = Raise TypeError.
Proof.
  unfold temporal, derive_convert. intros Htemp Hint.
  destruct (field_in fmt (sas_date_fmts sb)).
  - destruct x; try reflexivity; discriminate.
  - simpl in Htemp. rewrite Htemp. destruct x; try reflexivity; discriminate.
Qed.

Lemma apply_convert_plain sb fmt x :
  temporal sb fmt = false ->
  apply_convert sb (derive_convert sb fmt) x = Ok x.
Proof.
  unfold temporal, derive_convert. intros Htemp.
  apply orb_false_elim in Htemp as [-> ->]. reflexivity.
Qed.

Section Cursor.
Context (sb : SASsession) (rows : list (list (string * cell)))
  (meta : list (field * col_info)).
Hypothesis Hdesc : Forall described rows.
Hypothesis Hmeta :
  forall name, dict_get meta name = column_row rows name ≫= column_record sb.

Lemma meta_convert name fmt :
  column_format rows (Value (CStr name)) = Some fmt ->
  exists col,
    dict_get meta (Value (CStr name)) = Some col /\
    dict_get col "CONVERT" = Some (Lambda (derive_convert sb fmt)).
Proof.
  unfold column_format. rewrite Hmeta.
  destruct (column_row rows (Value (CStr name))) as [row|]; [|discriminate].
  simpl. unfold column_record. intros ->. simpl.
  eexists. split; [reflexivity | apply dict_get_set_eq].
Qed.

Lemma convert_fields_cons name x rest fmt :
  column_format rows (Value (CStr name)) = Some fmt ->
  convert_fields sb meta ((name, x) :: rest) =
  y ← apply_convert sb (derive_convert sb fmt) x;
  ys ← convert_fields sb meta rest;
  Ok (y :: ys).
Proof.
  intros Hfmt. destruct (meta_convert name fmt Hfmt) as (col & Hcol & Hconv).
  simpl. rewrite Hcol. unfold getitem.
  change (Ok col ≫= ?f) with (f col). cbv beta. rewrite Hconv. reflexivity.
Qed.

Lemma convert_fields_ok fields :
  Forall (fun fld => exists fmt,
            column_format rows (Value (CStr (fst fld))) = Some fmt /\
            is_ok (apply_convert sb (derive_convert sb fmt) (snd fld)) = true) fields ->
  exists ys,
    convert_fields sb meta fields = Ok ys /\
    Forall2 (converts sb rows) fields ys.
Proof.
  induction 1 as [|[name x] fields (fmt & Hfmt & Hok) Hall (ys & Hrun & Hrel)].
  - exists []. split; [reflexivity | constructor].
  - simpl in Hfmt, Hok.
    rewrite (convert_fields_cons name x fields fmt Hfmt), Hrun.
    destruct (apply_convert sb (derive_convert sb fmt) x) as [y|e] eqn:Hy; [|discriminate].
    exists (y :: ys). split; [reflexivity|].
    constructor; [|exact Hrel]. exists fmt. split; [exact Hfmt | exact Hy].
Qed.

Lemma convert_fields_raise fields e :
  Forall (fun fld => is_Some (column_format rows (Value (CStr (fst fld))))) fields ->
  convert_fields sb meta fields = Raise e -> e = TypeError \/ e = OverflowError.
Proof.
  induction 1 as [|[name x] fields [fmt Hfmt] Hall IH].
  - discriminate.
  - simpl in Hfmt. rewrite (convert_fields_cons name x fields fmt Hfmt).
    unfold mbind, outcome_bind.
    destruct (apply_convert sb (derive_convert sb fmt) x) as [y|e'] eqn:Hy.
    + destruct (convert_fields sb meta fields) as [ys|e'']; [discriminate|].
      intros [= <-]. now apply IH.
    + intros [= <-]. exact (apply_convert_raise _ _ _ _ Hy).
Qed.

Lemma convert_fields_bad fields name x fmt :
  Forall (fun fld => is_Some (column_format rows (Value (CStr (fst fld))))) fields ->
  In (name, x) fields ->
  column_format rows (Value (CStr name)) = Some fmt ->
  temporal sb fmt = true -> not_a_number x = true ->
  is_ok (convert_fields sb meta fields) = false.
Proof.
  intros Hall Hin Hfmt Htemp Hint.
  induction Hall as [|[name' x'] fields [fmt' Hfmt'] Hall IH]; [destruct Hin|].
  simpl in Hfmt'. rewrite (convert_fields_cons name' x' fields fmt' Hfmt').
  unfold mbind, outcome_bind.
  destruct Hin as [[= -> ->] | Hin].
  - assert (fmt' = fmt) as -> by congruence.
    now rewrite (apply_convert_temporal sb fmt x Htemp Hint).
  - destruct (apply_convert sb (derive_convert sb fmt') x'); [|reflexivity].
    specialize (IH Hin). destruct (convert_fields sb meta fields); [discriminate | reflexivity].
Qed.

Lemma cursor_loop_ok records acc :
  Forall (Forall (fun fld => exists fmt,
            column_format rows (Value (CStr (fst fld))) = Some fmt /\
            is_ok (apply_convert sb (derive_convert sb fmt) (snd fld)) = true)) records ->
  exists out,
    cursor_loop sb meta records acc = Ok (acc ++ out)%list /\
    Forall2 (Forall2 (converts sb rows)) records out.
Proof.
  intros Hall. revert acc.
  induction Hall as [|fields records Hfields Hall IH]; intros acc.
  - exists []. split; [simpl; now rewrite app_nil_r | constructor].
  - destruct (convert_fields_ok fields Hfields) as (ys & Hrun & Hrel).
    destruct (IH (acc ++ [ys])%list) as (out & Hloop & Hout).
    exists (ys :: out). split.
    + simpl. rewrite Hrun. simpl. rewrite Hloop. now rewrite <- app_assoc.
    + now constructor.
Qed.

Lemma cursor_loop_raise records acc e :
  Forall (Forall (fun fld => is_Some (column_format rows (Value (CStr (fst fld))))))
    records ->
  cursor_loop sb meta records acc = Raise e -> e = TypeError \/ e = OverflowError.
Proof.
  intros Hall. revert acc.
  induction Hall as [|fields records Hfields Hall IH]; intros acc; simpl.
  - discriminate.
  - unfold mbind, outcome_bind.
    destruct (convert_fields sb meta fields) as [ys|e'] eqn:Hrun.
    + apply IH.
    + intros [= <-]. exact (convert_fields_raise fields e' Hfields Hrun).
Qed.

Lemma cursor_loop_bad records acc fields name x fmt :
  Forall (Forall (fun fld => is_Some (column_format rows (Value (CStr (fst fld))))))
    records ->
  In fields records -> In (name, x) fields ->
  column_format rows (Value (CStr name)) = Some fmt ->
  temporal sb fmt = true -> not_a_number x = true ->
  is_ok (cursor_loop sb meta records acc) = false.
Proof.
  intros Hall Hrec Hin Hfmt Htemp Hint. revert acc.
  induction Hall as [|fields' records Hfields Hall IH]; intros acc; [destruct Hrec|].
  simpl. unfold mbind, outcome_bind.
  destruct Hrec as [-> | Hrec].
  - pose proof (convert_fields_bad fields name x fmt Hfields Hin Hfmt Htemp Hint) as Hbad.
    destruct (convert_fields sb meta fields); [discriminate | reflexivity].
  - destruct (convert_fields sb meta fields'); [|reflexivity]. now apply IH.
Qed.

End Cursor.

Section ReadTable.
Context `{Externals} `{Marshalling}.

Lemma read_sasdata_unfold st ws db table libref dsopts rows records :
  workspace (self st) = Some ws ->
  adodb (self st) = Some db ->
  ls_error (engine (world st)) = false ->
  is_Some (sascfg (self st) !! "max_rows") ->
  is_Some (sascfg (self st) !! "pagesize") ->
  is_Some (sascfg (self st) !! "cachesize") ->
  schemas (world st) !! _tablepath (_sb (self st)) TARGET None = Some rows ->
  rows <> [] ->
  Forall described rows ->
  recordset (world (after_export (read_unit st table libref dsopts) st)) TARGET = records ->
  exists meta,
    (forall name,
       dict_get meta name = column_row rows name ≫= column_record (_sb (self st))) /\
    read_sasdata table libref dsopts st =
    (match records with
     | [] => Raise (com_error "MoveFirst")
     | first :: _ =>
         match cursor_loop (_sb (self st)) meta records [] with
         | Ok out => Ok (map fst first, out)
         | Raise e => Raise e
         end
     end,
     after_export (read_unit st table libref dsopts) st).
Proof.
  intros Hws Hdb Herr [mr Hmr] [ps Hps] [cs Hcs] Hrows Hne Hdesc Hrec.
  set (unit := read_unit st table libref dsopts) in *.
  set (st1 := set_engine (sas_run unit) (add_calls [LS_Submit unit] st)).
  assert (Hsub : LanguageService_Submit unit st = (Ok tt, st1)).
  { rewrite (Submit_run unit st ws Hws), Herr. reflexivity. }
  destruct (_schema_run st1 db TARGET None rows Hdb Hrows Hne Hdesc) as (meta & Hschema & Hlook).
  exists meta. split; [exact Hlook|].
  unfold read_sasdata. unfold mbind at 1, M_bind at 1, gets at 1.
  fold unit. rewrite (bind_run _ _ st _ _ Hsub).
  rewrite (bind_run _ _ st1 _ _ Hschema).
  change (add_calls [ADODB_OpenSchema (_tablepath (_sb (self st1)) TARGET None)] st1)
    with (after_export unit st).
  unfold the_adodb, cfgattr, SASConfigCOM.getattr, mbind, M_bind, gets, lift, raise, mret, M_ret.
  cbn [self after_export add_calls set_engine]. rewrite Hdb.
  change (sascfg (self (after_export unit st))) with (sascfg (self st)).
  rewrite Hmr, Hps, Hcs, Hrec.
  destruct records as [|first rest]; [reflexivity|].
  destruct (cursor_loop (_sb (self st)) meta (first :: rest) []); reflexivity.
Qed.

(** X12.  [read_sasdata] returns the names of the record set's fields as
    header and one row per record, in order, each cell the record's value
    under the conversion of its column's format: for every field
    [(name, x)] the cell is [apply_convert] of [derive_convert] of the
    format that the column query of the intermediate table gives for
    [name], and so [x] itself when that format is neither a date nor a
    datetime format.  The session is left as the export unit and the
    column query left it. *)
Theorem read_sasdata_converts_cells
  (st : State) (ws : string) (db : Z) (table : string) (libref : option string)
  (dsopts : option options) (rows : list (list (string * cell)))
  (first : list (string * cell)) (rest : list (list (string * cell))) :
  workspace (self st) = Some ws ->
  adodb (self st) = Some db ->
  ls_error (engine (world st)) = false ->
  is_Some (sascfg (self st) !! "max_rows") ->
  is_Some (sascfg (self st) !! "pagesize") ->
  is_Some (sascfg (self st) !! "cachesize") ->
  schemas (world st) !! _tablepath (_sb (self st)) TARGET None = Some rows ->
  rows <> [] ->
  Forall described rows ->
  recordset (world (after_export (read_unit st table libref dsopts) st)) TARGET =
  first :: rest ->
  Forall (Forall (fun fld => exists fmt,
            column_format rows (Value (CStr (fst fld))) = Some fmt /\
            is_ok (apply_convert (_sb (self st)) (derive_convert (_sb (self st)) fmt)
                     (snd fld)) = true)) (first :: rest) ->
  exists out,
    read_sasdata table libref dsopts st =
    (Ok (map fst first, out), after_export (read_unit st table libref dsopts) st) /\
    Forall2 (Forall2 (converts (_sb (self st)) rows)) (first :: rest) out /\
    Forall2 (Forall2 (fun fld y =>
               forall fmt,
                 column_format rows (Value (CStr (fst fld))) = Some fmt ->
                 temporal (_sb (self st)) fmt = false -> y = snd fld))
      (first :: rest) out.
Proof.
  intros Hws Hdb Herr Hmr Hps Hcs Hrows Hne Hdesc Hrec Hcells.
  destruct (read_sasdata_unfold st ws db table libref dsopts rows (first :: rest)
              Hws Hdb Herr Hmr Hps Hcs Hrows Hne Hdesc Hrec) as (meta & Hlook & Hrun).
  destruct (cursor_loop_ok (_sb (self st)) rows meta Hlook (first :: rest) [] Hcells)
    as (out & Hloop & Hout).
  exists out. split; [|split].
  - rewrite Hrun, Hloop. reflexivity.
  - exact Hout.
  - eapply Forall2_impl; [exact Hout|]. intros fields row Hrow.
    eapply Forall2_impl; [exact Hrow|]. intros fld y (fmt' & Hfmt' & Hy) fmt Hfmt Htemp.
    assert (fmt' = fmt) as -> by congruence.
    rewrite (apply_convert_plain _ _ _ Htemp) in Hy. congruence.
Qed.

(** X13.  A value that is not a number ([None] for a missing value, a
    string, a datetime) in a column with a date or datetime format stops
    [read_sasdata]: on an open session whose record set names known
    columns only, a single such cell anywhere in the table makes the
    call raise [TypeError] (or [OverflowError], when a date before it is
    out of range) instead of returning the table. *)
Theorem read_sasdata_rejects_missing_dates
  (st : State) (ws : string) (db : Z) (table : string) (libref : option string)
  (dsopts : option options) (rows : list (list (string * cell)))
  (records : list (list (string * cell))) (fields : list (string * cell))
  (name : string) (x : cell) (fmt : field) :
  workspace (self st) = Some ws ->
  adodb (self st) = Some db ->
  ls_error (engine (world st)) = false ->
  is_Some (sascfg (self st) !! "max_rows") ->
  is_Some (sascfg (self st) !! "pagesize") ->
  is_Some (sascfg (self st) !! "cachesize") ->
  schemas (world st) !! _tablepath (_sb (self st)) TARGET None = Some rows ->
  rows <> [] ->
  Forall described rows ->
  recordset (world (after_export (read_unit st table libref dsopts) st)) TARGET = records ->
  Forall (Forall (fun fld => is_Some (column_format rows (Value (CStr (fst fld))))))
    records ->
  In fields records -> In (name, x) fields ->
  column_format rows (Value (CStr name)) = Some fmt ->
  temporal (_sb (self st)) fmt = true ->
  not_a_number x = true ->
  fst (read_sasdata table libref dsopts st) = Raise TypeError \/
  fst (read_sasdata table libref dsopts st) = Raise OverflowError.
Proof.
  intros Hws Hdb Herr Hmr Hps Hcs Hrows Hne Hdesc Hrec Hknown Hfields Hin Hfmt Htemp Hint.
  destruct (read_sasdata_unfold st ws db table libref dsopts rows records
              Hws Hdb Herr Hmr Hps Hcs Hrows Hne Hdesc Hrec) as (meta & Hlook & Hrun).
  rewrite Hrun. cbn [fst].
  destruct records as [|first rest]; [destruct Hfields|].
  pose proof (cursor_loop_bad (_sb (self st)) rows meta Hlook (first :: rest) []
                fields name x fmt Hknown Hfields Hin Hfmt Htemp Hint) as Hbad.
  destruct (cursor_loop (_sb (self st)) meta (first :: rest) []) as [out|e] eqn:Hloop;
    [discriminate|].
  destruct (cursor_loop_raise (_sb (self st)) rows meta Hlook (first :: rest) [] e
              Hknown Hloop) as [-> | ->]; [now left | now right].
Qed.

Lemma Submit_ok_inv text st u st' :
  LanguageService_Submit text st = (Ok u, st') ->
  st' = set_engine (sas_run text) (add_calls [LS_Submit text] st).
Proof.
  unfold LanguageService_Submit, the_workspace, call, modify, gets, raise, mbind, M_bind.
  destruct (workspace (self st)); [|discriminate]. cbn.
  destruct (ls_error (engine (world st))); [discriminate|]. now intros [= _ <-].
Qed.

Lemma _schema_ok_inv table libref st meta st' :
  _schema table libref st = (Ok meta, st') ->
  st' = add_calls [ADODB_OpenSchema (_tablepath (_sb (self st)) table libref)] st.
Proof.
  unfold _schema, OpenSchema, the_adodb, mbind, M_bind, gets, call, modify, lift, raise.
  destruct (adodb (self st)); [|discriminate]. cbn.
  destruct (default [] (schemas (world st) !! _tablepath (_sb (self st)) table libref));
    [discriminate|].
  match goal with |- context [schema_loop ?a ?b ?c] => destruct (schema_loop a b c) end;
    [|discriminate].
  now intros [= _ <-].
Qed.

Lemma read_sasdata_ok_inv table libref dsopts st r st' :
  read_sasdata table libref dsopts st = (Ok r, st') ->
  st' = after_export (read_unit st table libref dsopts) st.
Proof.
  unfold read_sasdata. unfold mbind at 1, M_bind at 1, gets at 1.
  intros Hrun.
  apply bind_ok_inv in Hrun as (u & st1 & Hsub & Hrun).
  apply Submit_ok_inv in Hsub. subst st1.
  apply bind_ok_inv in Hrun as (meta & st2 & Hschema & Hrun).
  apply _schema_ok_inv in Hschema. subst st2.
  fold (read_unit st table libref dsopts) in Hrun.
  change (add_calls _ (set_engine _ (add_calls _ st)))
    with (after_export (read_unit st table libref dsopts) st) in Hrun.
  revert Hrun. generalize (after_export (read_unit st table libref dsopts) st). intros st2.
  unfold the_adodb, cfgattr, SASConfigCOM.getattr, mbind, M_bind, gets, lift, raise, mret, M_ret.
  destruct (adodb (self st2)); [|discriminate].
  destruct (sascfg (self st2) !! "max_rows"); [|discriminate].
  destruct (sascfg (self st2) !! "pagesize"); [|discriminate].
  destruct (sascfg (self st2) !! "cachesize"); [|discriminate].
  destruct (recordset (world st2) TARGET) as [|first rest]; [discriminate|].
  match goal with |- context [cursor_loop ?a ?b ?c ?d] => destruct (cursor_loop a b c d) end;
    [|discriminate].
  now intros [= _ <-].
Qed.

Lemma appends_the_adodb P : appends P the_adodb.
Proof.
  intros st. exists []. unfold the_adodb.
  destruct (adodb (self st)); (split; [now rewrite app_nil_r | constructor]).
Qed.

Lemma _schema_no_reset table libref :
  appends (fun c => ~ is_reset c) (_schema table libref).
Proof.
  unfold _schema, OpenSchema.
  repeat first [apply appends_the_adodb | trace_cases].
Qed.

Lemma Submit_no_reset text :
  appends (fun c => ~ is_reset c) (LanguageService_Submit text).
Proof. unfold LanguageService_Submit. trace_cases. Qed.

Lemma read_sasdata_no_reset table libref dsopts :
  appends (fun c => ~ is_reset c) (read_sasdata table libref dsopts).
Proof.
  unfold read_sasdata.
  repeat first
    [ apply Submit_no_reset | apply _schema_no_reset | apply appends_the_adodb | trace_cases ].
Qed.

End ReadTable.

(** ** Frames *)

Section Frames.
Context {A B X : Type} (f : State -> X).

Lemma preserves_ret (a : A) : preserves f (mret a).
Proof. intros st. reflexivity. Qed.

Lemma preserves_raise (e : exn) : preserves f (raise e : M A).
Proof. intros st. reflexivity. Qed.

Lemma preserves_lift (r : outcome A) : preserves f (lift r).
Proof. intros st. reflexivity. Qed.

Lemma preserves_gets (g : State -> A) : preserves f (gets g).
Proof. intros st. reflexivity. Qed.

Lemma preserves_bind (c : M A) (k : A -> M B) :
  preserves f c -> (forall a, preserves f (k a)) -> preserves f (c ≫= k).
Proof.
  intros Hc Hk st. unfold mbind, M_bind.
  specialize (Hc st). destruct (c st) as [[a|e] st1]; simpl in Hc.
  - now rewrite (Hk a st1).
  - exact Hc.
Qed.

Lemma preserves_modify (g : State -> State) :
  (forall st, f (g st) = f st) -> preserves f (modify g).
Proof. intros Hg st. apply Hg. Qed.

End Frames.

Lemma preserves_the_workspace {X} (f : State -> X) : preserves f the_workspace.
Proof. intros st. unfold the_workspace. now destruct (workspace (self st)). Qed.

Lemma preserves_the_adodb {X} (f : State -> X) : preserves f the_adodb.
Proof. intros st. unfold the_adodb. now destruct (adodb (self st)). Qed.

Lemma preserves_cfgattr {X} (f : State -> X) attr : preserves f (cfgattr attr).
Proof. intros st. reflexivity. Qed.

Ltac frame_step :=
  first
    [ apply preserves_bind; [| intros ?]
    | apply preserves_ret
    | apply preserves_raise
    | apply preserves_lift
    | apply preserves_gets
    | apply preserves_the_workspace
    | apply preserves_the_adodb
    | apply preserves_cfgattr
    | apply preserves_modify; intros ?; reflexivity ].

Ltac frame_cases :=
  repeat first
    [ frame_step
    | match goal with
      | |- preserves _ (match ?x with _ => _ end) => destruct x
      | |- preserves _ (if ?x then _ else _) => destruct x
      | |- preserves _ (let '(_, _) := ?x in _) => destruct x
      end ].

(** ** Reading a table through a CSV file *)

Lemma payload_slices (buf : Z) (content : list byte) :
  0 < buf ->
  join_bytes (payload truthy_bytes (slices buf content)) = content /\
  length (payload truthy_bytes (slices buf content)) = length (slices buf content).
Proof.
  intros Hbuf. pose proof (drain_slices buf content Hbuf) as Hdrain.
  rewrite drain_bytes_spec in Hdrain. injection Hdrain as Hjoin _ Hlen.
  split; [exact Hjoin | exact Hlen].
Qed.

Section CsvFormats.
Context `{Marshalling}.

Lemma FORMAT_STRING_date cn :
  FORMAT_STRING cn (Value (CStr FMT_DEFAULT_DATE_NAME))
    (Value (CInt FMT_DEFAULT_DATE_LENGTH)) (Value (CInt FMT_DEFAULT_DATE_PRECISION)) =
  str_field cn +:+ " E8601DA10.0".
Proof. reflexivity. Qed.

Lemma FORMAT_STRING_datetime cn :
  FORMAT_STRING cn (Value (CStr FMT_DEFAULT_DATETIME_NAME))
    (Value (CInt FMT_DEFAULT_DATETIME_LENGTH)) (Value (CInt FMT_DEFAULT_DATETIME_PRECISION)) =
  str_field cn +:+ " E8601DT26.6".
Proof. reflexivity. Qed.

Lemma record_field sb row fmt key :
  key <> "CONVERT" ->
  dict_get (dict_set (fields_dict row) "CONVERT" (Lambda (derive_convert sb fmt))) key =
  dict_get (fields_dict row) key.
Proof. intros Hne. apply dict_get_set_ne. congruence. Qed.

Lemma schema_records_cons sb row rows cn fmt :
  dict_get (fields_dict row) "COLUMN_NAME" = Some cn ->
  dict_get (fields_dict row) "FORMAT_NAME" = Some fmt ->
  schema_records sb (row :: rows) =
  (cn, dict_set (fields_dict row) "CONVERT" (Lambda (derive_convert sb fmt)))
  :: schema_records sb rows.
Proof.
  intros Hcn Hfmt. unfold schema_records. simpl.
  unfold column_record, row_format. rewrite Hcn, Hfmt. reflexivity.
Qed.

Lemma temporal_columns_cons sb row rows cn fmt :
  dict_get (fields_dict row) "COLUMN_NAME" = Some cn ->
  dict_get (fields_dict row) "FORMAT_NAME" = Some fmt ->
  temporal_columns sb (row :: rows) =
  if temporal sb fmt then cn :: temporal_columns sb rows else temporal_columns sb rows.
Proof.
  intros Hcn Hfmt. unfold temporal_columns. simpl.
  unfold row_format at 1. rewrite Hfmt. simpl.
  destruct (temporal sb fmt); [now rewrite Hcn | reflexivity].
Qed.

Lemma csv_formats_records sb rows :
  Forall described rows ->
  Forall (fun row => forall fmt,
            row_format row = Some fmt -> temporal sb fmt = false ->
            is_Some (dict_get (fields_dict row) "FORMAT_LENGTH") /\
            is_Some (dict_get (fields_dict row) "FORMAT_DECIMAL")) rows ->
  forall datecols fmtlist,
  exists fmts,
    csv_formats sb (schema_records sb rows) datecols fmtlist =
    Ok ((datecols ++ temporal_columns sb rows)%list, (fmtlist ++ fmts)%list) /\
    Forall2 (export_format sb) rows fmts.
Proof.
  intros Hdesc Hplain. induction Hdesc as [|row rows [[fmt Hfmt] [cn Hcn]] Hdesc IH];
    intros datecols fmtlist.
  - exists []. split; [simpl; now rewrite !app_nil_r | constructor].
  - apply Forall_cons in Hplain as [Hrow Hplain]. specialize (IH Hplain).
    rewrite (schema_records_cons sb row rows cn fmt Hcn Hfmt).
    rewrite (temporal_columns_cons sb row rows cn fmt Hcn Hfmt).
    cbn [csv_formats]. unfold getitem.
    rewrite !record_field by discriminate. rewrite Hfmt, Hcn.
    unfold temporal. cbn [mbind outcome_bind].
    destruct (field_in fmt (sas_date_fmts sb)) eqn:Hdate.
    + destruct (IH (datecols ++ [cn])%list
                  (fmtlist ++ [str_field cn +:+ " E8601DA10.0"])%list) as (fmts & Hrun & Hrel).
      exists ((str_field cn +:+ " E8601DA10.0") :: fmts). split.
      * cbn [mbind outcome_bind orb]. rewrite FORMAT_STRING_date, Hrun.
        now rewrite <- !app_assoc.
      * constructor; [|exact Hrel]. exists cn, fmt. unfold row_format.
        repeat split; try assumption. now rewrite Hdate.
    + destruct (field_in fmt (sas_datetime_fmts sb)) eqn:Hdatetime.
      * destruct (IH (datecols ++ [cn])%list
                    (fmtlist ++ [str_field cn +:+ " E8601DT26.6"])%list)
          as (fmts & Hrun & Hrel).
        exists ((str_field cn +:+ " E8601DT26.6") :: fmts). split.
        -- cbn [mbind outcome_bind orb]. rewrite FORMAT_STRING_datetime, Hrun.
           now rewrite <- !app_assoc.
        -- constructor; [|exact Hrel]. exists cn, fmt. unfold row_format.
           split; [exact Hcn | split; [exact Hfmt|]]. now rewrite Hdate, Hdatetime.
      * destruct (Hrow fmt) as [[len Hlen] [dec Hdec]];
          [exact Hfmt | unfold temporal; now rewrite Hdate, Hdatetime |].
        rewrite Hlen, Hdec.
        destruct (IH datecols (fmtlist ++ [FORMAT_STRING cn fmt len dec])%list)
          as (fmts & Hrun & Hrel).
        exists (FORMAT_STRING cn fmt len dec :: fmts). split.
        -- cbn [mbind outcome_bind orb]. rewrite Hrun. now rewrite <- !app_assoc.
        -- constructor; [|exact Hrel]. exists cn, fmt. unfold row_format.
           split; [exact Hcn | split; [exact Hfmt|]]. rewrite Hdate, Hdatetime.
           exists len, dec. now repeat split.
Qed.

End CsvFormats.

Section ReadCsvTable.
Context `{Externals} `{Marshalling}.

Lemma _getfile_text_run st ws fname content enc text :
  workspace (self st) = Some ws ->
  remote_fs (engine (world st)) !! fname = Some (RemoteFile content) ->
  sascfg (self st) !! "encoding" = Some (VStr enc) ->
  decode enc content = Ok text ->
  _getfile fname 2048 true st =
  (Ok (Str text),
   add_calls (getfile_calls fname 2048 (S (length (slices 2048 content)))) st).
Proof.
  intros Hws Hfile Henc Hdec.
  destruct (payload_slices 2048 content ltac:(lia)) as [Hjoin Hlen].
  rewrite (_getfile_str_run st ws fname 2048 content enc text Hws Hfile Henc);
    [now rewrite Hlen | now rewrite Hjoin].
Qed.

Lemma write_text_run st p text :
  write_text (VStr p) text st =
  if opens_for_writing (local_fs (world st)) p
  then (Ok tt, set_local_fs (<[p := LocalFile (text_encode text)]>) st)
  else (Raise (OSError p), st).
Proof.
  unfold write_text, opens_for_writing, mbind, M_bind, gets, modify, raise.
  destruct (local_fs (world st) !! p) as [[|data]|]; [reflexivity.. |].
  destruct (can_create (local_fs (world st)) p); reflexivity.
Qed.

Lemma sasdata2dataframeCSV_run st ws db enc table libref dsopts kwargs rows content text :
  workspace (self st) = Some ws ->
  adodb (self st) = Some db ->
  ls_error (engine (world st)) = false ->
  sascfg (self st) !! "encoding" = Some (VStr enc) ->
  schemas (world st) !! _tablepath (_sb (self st)) table libref = Some rows ->
  rows <> [] ->
  Forall described rows ->
  NoDup (column_names rows) ->
  Forall (fun row => forall fmt,
            row_format row = Some fmt -> temporal (_sb (self st)) fmt = false ->
            is_Some (dict_get (fields_dict row) "FORMAT_LENGTH") /\
            is_Some (dict_get (fields_dict row) "FORMAT_DECIMAL")) rows ->
  (forall unit,
     remote_fs (sas_run unit (engine (world st))) !! csv_file (_sb (self st)) =
     Some (RemoteFile content)) ->
  decode enc content = Ok text ->
  exists fmts,
    Forall2 (export_format (_sb (self st))) rows fmts /\
    sasdata2dataframeCSV table libref dsopts kwargs st =
    let st' := after_csv_export st table libref (csv_unit st table libref dsopts fmts)
                 (S (length (slices 2048 content))) in
    if keeps_tempfile kwargs then
      match write_text (kwarg kwargs "tempfile") text st' with
      | (Ok _, st'') => (Ok (pd_read_csv text (temporal_columns (_sb (self st)) rows)), st'')
      | (Raise e, st'') => (Raise e, st'')
      end
    else (Ok (pd_read_csv text (temporal_columns (_sb (self st)) rows)), st').
Proof.
  intros Hws Hdb Herr Henc Hrows Hne Hdesc Hnodup Hplain Hfile Hdec.
  destruct (csv_formats_records (_sb (self st)) rows Hdesc Hplain [] [])
    as (fmts & Hfmts & Hrel).
  exists fmts. split; [exact Hrel|].
  set (unit := csv_unit st table libref dsopts fmts).
  set (st1 := add_calls [ADODB_OpenSchema (_tablepath (_sb (self st)) table libref)] st).
  set (st2 := set_engine (sas_run unit) (add_calls [LS_Submit unit] st1)).
  assert (Hschema := _schema_distinct st db table libref rows Hdb Hrows Hne Hdesc Hnodup).
  assert (Hsub : LanguageService_Submit unit st1 = (Ok tt, st2)).
  { rewrite (Submit_run unit st1 ws Hws). cbn. rewrite Herr. reflexivity. }
  assert (Hget : _getfile (csv_file (_sb (self st))) 2048 true st2 =
                 (Ok (Str text),
                  add_calls (getfile_calls (csv_file (_sb (self st))) 2048
                               (S (length (slices 2048 content)))) st2)).
  { apply (_getfile_text_run st2 ws _ content enc text Hws); [apply Hfile | exact Henc | exact Hdec]. }
  assert (Hfinal : add_calls (getfile_calls (csv_file (_sb (self st))) 2048
                                (S (length (slices 2048 content)))) st2 =
                   after_csv_export st table libref unit (S (length (slices 2048 content)))).
  { unfold after_csv_export, st2, st1. now rewrite add_calls_app. }
  unfold sasdata2dataframeCSV. unfold mbind at 1, M_bind at 1, gets at 1.
  rewrite (bind_run _ _ st _ _ Hschema).
  unfold lift at 1. unfold mbind at 1, M_bind at 1. rewrite Hfmts.
  change (join " " ([] ++ fmts)%list) with (join " " fmts).
  fold (csv_file (_sb (self st))). fold (csv_unit st table libref dsopts fmts). fold unit.
  fold st1. rewrite (bind_run _ _ st1 _ _ Hsub).
  rewrite (bind_run _ _ st2 _ _ Hget). rewrite Hfinal.
  cbv zeta. fold (keeps_tempfile kwargs).
  destruct (keeps_tempfile kwargs); unfold mbind, M_bind, mret, M_ret.
  - destruct (write_text (kwarg kwargs "tempfile") text
                (after_csv_export st table libref unit (S (length (slices 2048 content)))))
      as [[[]|e] st'']; reflexivity.
  - reflexivity.
Qed.

(** X14.  [sasdata2dataframeCSV] exports every column with a date
    format as [E8601DA10.0] and every column with a datetime format as
    [E8601DT26.6], keeps the format, length and decimals of every other
    column, and hands pandas the decoded text of the exported file with
    the names of the date and datetime columns, in the order of the
    column query, as the columns to parse.  It queries the columns of
    the table itself, submits one unit and reads the file back. *)
Theorem csv_export_forces_iso_dates
  (st : State) (ws : string) (db : Z) (enc table : string) (libref : option string)
  (dsopts : option options) (kwargs : list (string * value))
  (rows : list (list (string * cell))) (content : list byte) (text : string) :
  workspace (self st) = Some ws ->
  adodb (self st) = Some db ->
  ls_error (engine (world st)) = false ->
  sascfg (self st) !! "encoding" = Some (VStr enc) ->
  schemas (world st) !! _tablepath (_sb (self st)) table libref = Some rows ->
  rows <> [] ->
  Forall described rows ->
  NoDup (column_names rows) ->
  Forall (fun row => forall fmt,
            row_format row = Some fmt -> temporal (_sb (self st)) fmt = false ->
            is_Some (dict_get (fields_dict row) "FORMAT_LENGTH") /\
            is_Some (dict_get (fields_dict row) "FORMAT_DECIMAL")) rows ->
  (forall unit,
     remote_fs (sas_run unit (engine (world st))) !! csv_file (_sb (self st)) =
     Some (RemoteFile content)) ->
  decode enc content = Ok text ->
  keeps_tempfile kwargs = false ->
  exists fmts,
    Forall2 (export_format (_sb (self st))) rows fmts /\
    sasdata2dataframeCSV table libref dsopts kwargs st =
    (Ok (pd_read_csv text (temporal_columns (_sb (self st)) rows)),
     after_csv_export st table libref (csv_unit st table libref dsopts fmts)
       (S (length (slices 2048 content)))).
Proof.
  intros Hws Hdb Herr Henc Hrows Hne Hdesc Hnodup Hplain Hfile Hdec Hkeep.
  destruct (sasdata2dataframeCSV_run st ws db enc table libref dsopts kwargs rows content text
              Hws Hdb Herr Henc Hrows Hne Hdesc Hnodup Hplain Hfile Hdec)
    as (fmts & Hrel & Hrun).
  exists fmts. split; [exact Hrel|]. rewrite Hrun. cbv zeta. now rewrite Hkeep.
Qed.

Lemma _schema_keeps_files table libref :
  preserves (fun st => local_fs (world st)) (_schema table libref).
Proof. unfold _schema, OpenSchema, call. frame_cases. Qed.

Lemma Submit_keeps_files text :
  preserves (fun st => local_fs (world st)) (LanguageService_Submit text).
Proof. unfold LanguageService_Submit, call. frame_cases. Qed.

Lemma _getfile_keeps_files fname buf dec :
  preserves (fun st => local_fs (world st)) (_getfile fname buf dec).
Proof. unfold _getfile, call. frame_cases. Qed.

Lemma keeps_tempfile_false kwargs :
  kwarg kwargs "tempkeep" <> VBool true \/ kwarg kwargs "tempfile" = VNone ->
  keeps_tempfile kwargs = false.
Proof.
  unfold keeps_tempfile. intros [Hkeep | ->].
  - destruct (kwarg kwargs "tempkeep") as [|[|]| |]; try reflexivity. now destruct Hkeep.
  - apply andb_false_r.
Qed.

(** X15.  [sasdata2dataframeCSV] touches the local file system only to
    keep the temporary file, and keeps it only when [tempkeep] is the
    value [True] and [tempfile] is not [None]: otherwise, whatever the
    outcome of the call, the local files are what they were, so that a
    [tempkeep] that is merely truthy, or a [tempfile] without
    [tempkeep], writes nothing.  When both are given, the file is
    written after the export has been read back: if the path can be
    opened for writing (it is a file, or it is free and a file can be
    created there), the file holds the text handed to pandas; if not
    (it is a directory, or no file can be created there), the call
    raises [OSError], no data frame is built and the local files are what
    they were. *)
Theorem csv_tempfile_only_when_kept
  (table : string) (libref : option string) (dsopts : option options)
  (kwargs : list (string * value)) :
  (kwarg kwargs "tempkeep" <> VBool true \/ kwarg kwargs "tempfile" = VNone ->
   preserves (fun st => local_fs (world st))
     (sasdata2dataframeCSV table libref dsopts kwargs)) /\
  (forall st ws db enc rows content text path,
     workspace (self st) = Some ws ->
     adodb (self st) = Some db ->
     ls_error (engine (world st)) = false ->
     sascfg (self st) !! "encoding" = Some (VStr enc) ->
     schemas (world st) !! _tablepath (_sb (self st)) table libref = Some rows ->
     rows <> [] ->
     Forall described rows ->
     NoDup (column_names rows) ->
     Forall (fun row => forall fmt,
               row_format row = Some fmt -> temporal (_sb (self st)) fmt = false ->
               is_Some (dict_get (fields_dict row) "FORMAT_LENGTH") /\
               is_Some (dict_get (fields_dict row) "FORMAT_DECIMAL")) rows ->
     (forall unit,
        remote_fs (sas_run unit (engine (world st))) !! csv_file (_sb (self st)) =
        Some (RemoteFile content)) ->
     decode enc content = Ok text ->
     kwarg kwargs "tempkeep" = VBool true ->
     kwarg kwargs "tempfile" = VStr path ->
     (opens_for_writing (local_fs (world st)) path = true ->
      fst (sasdata2dataframeCSV table libref dsopts kwargs st) =
      Ok (pd_read_csv text (temporal_columns (_sb (self st)) rows)) /\
      local_fs (world (snd (sasdata2dataframeCSV table libref dsopts kwargs st))) =
      <[path := LocalFile (text_encode text)]> (local_fs (world st))) /\
     (opens_for_writing (local_fs (world st)) path = false ->
      fst (sasdata2dataframeCSV table libref dsopts kwargs st) = Raise (OSError path) /\
      local_fs (world (snd (sasdata2dataframeCSV table libref dsopts kwargs st))) =
      local_fs (world st))).
Proof.
  split.
  - intros Hkeep. apply keeps_tempfile_false in Hkeep.
    unfold sasdata2dataframeCSV. fold (keeps_tempfile kwargs). rewrite Hkeep.
    repeat first
      [ apply _schema_keeps_files | apply Submit_keeps_files | apply _getfile_keeps_files
      | frame_cases ].
  - intros st ws db enc rows content text path
      Hws Hdb Herr Henc Hrows Hne Hdesc Hnodup Hplain Hfile Hdec Hkeep Htemp.
    destruct (sasdata2dataframeCSV_run st ws db enc table libref dsopts kwargs rows content
                text Hws Hdb Herr Henc Hrows Hne Hdesc Hnodup Hplain Hfile Hdec)
      as (fmts & _ & Hrun).
    rewrite Hrun. cbv zeta. unfold keeps_tempfile. rewrite Hkeep, Htemp.
    cbn [is_True is_None negb andb].
    rewrite write_text_run.
    change (local_fs (world (after_csv_export st table libref
                               (csv_unit st table libref dsopts fmts)
                               (S (length (slices 2048 content))))))
      with (local_fs (world st)).
    split; intros ->; split; reflexivity.
Qed.

(** C8.  The cursor path and the CSV path of [sasdata2dataframe] do not
    agree on every table.  On an open session, for a table whose columns
    are described and distinct and whose records name known columns
    only, a record with a value that is not a number ([None] for a
    missing value) in a column with a date or datetime format makes the
    cursor path (any [method] but CSV) raise [TypeError] (or
    [OverflowError], when a date before it is out of range), while the
    CSV path returns the frame that pandas builds from the exported
    text. *)
Theorem read_paths_diverge_on_missing_date
  (st : State) (ws : string) (db : Z) (enc table : string) (libref : option string)
  (dsopts : option options) (method : string) (kwargs : list (string * value))
  (rows : list (list (string * cell)))
  (records : list (list (string * cell))) (fields : list (string * cell))
  (name : string) (x : cell) (fmt : field) (content : list byte) (text : string) :
  workspace (self st) = Some ws ->
  adodb (self st) = Some db ->
  ls_error (engine (world st)) = false ->
  is_Some (sascfg (self st) !! "max_rows") ->
  is_Some (sascfg (self st) !! "pagesize") ->
  is_Some (sascfg (self st) !! "cachesize") ->
  sascfg (self st) !! "encoding" = Some (VStr enc) ->
  schemas (world st) !! _tablepath (_sb (self st)) table libref = Some rows ->
  schemas (world st) !! _tablepath (_sb (self st)) TARGET None = Some rows ->
  rows <> [] ->
  Forall described rows ->
  NoDup (column_names rows) ->
  Forall (fun row => forall fmt,
            row_format row = Some fmt -> temporal (_sb (self st)) fmt = false ->
            is_Some (dict_get (fields_dict row) "FORMAT_LENGTH") /\
            is_Some (dict_get (fields_dict row) "FORMAT_DECIMAL")) rows ->
  recordset (world (after_export (read_unit st table libref dsopts) st)) TARGET = records ->
  Forall (Forall (fun fld => is_Some (column_format rows (Value (CStr (fst fld))))))
    records ->
  In fields records -> In (name, x) fields ->
  column_format rows (Value (CStr name)) = Some fmt ->
  temporal (_sb (self st)) fmt = true ->
  not_a_number x = true ->
  (forall unit,
     remote_fs (sas_run unit (engine (world st))) !! csv_file (_sb (self st)) =
     Some (RemoteFile content)) ->
  decode enc content = Ok text ->
  keeps_tempfile kwargs = false ->
  String.eqb (upper method) "CSV" = false ->
  (fst (sasdata2dataframe table libref dsopts method kwargs st) = Raise TypeError \/
   fst (sasdata2dataframe table libref dsopts method kwargs st) = Raise OverflowError) /\
  fst (sasdata2dataframe table libref dsopts "CSV" kwargs st) =
  Ok (pd_read_csv text (temporal_columns (_sb (self st)) rows)).
Proof.
  intros Hws Hdb Herr Hmr Hps Hcs Henc Hrows Htarget Hne Hdesc Hnodup Hplain Hrec Hknown
    Hfields Hin Hfmt Htemp Hnan Hfile Hdec Hkeep Hmethod.
  split.
  - unfold sasdata2dataframe. rewrite Hmethod.
    destruct (read_sasdata_unfold st ws db table libref dsopts rows records
                Hws Hdb Herr Hmr Hps Hcs Htarget Hne Hdesc Hrec) as (meta & Hlook & Hrun).
    unfold mbind, M_bind. rewrite Hrun.
    destruct records as [|first rest]; [destruct Hfields|].
    pose proof (cursor_loop_bad (_sb (self st)) rows meta Hlook (first :: rest) []
                  fields name x fmt Hknown Hfields Hin Hfmt Htemp Hnan) as Hbad.
    destruct (cursor_loop (_sb (self st)) meta (first :: rest) []) as [out|e] eqn:Hloop;
      [discriminate|].
    destruct (cursor_loop_raise (_sb (self st)) rows meta Hlook (first :: rest) [] e
                Hknown Hloop) as [-> | ->]; [now left | now right].
  - unfold sasdata2dataframe.
    change (String.eqb (upper "CSV") "CSV") with true. cbv iota.
    destruct (sasdata2dataframeCSV_run st ws db enc table libref dsopts kwargs rows content
                text Hws Hdb Herr Henc Hrows Hne Hdesc Hnodup Hplain Hfile Hdec)
      as (fmts & _ & Hrun).
    rewrite Hrun. cbv zeta. now rewrite Hkeep.
Qed.

Lemma write_text_no_call p text : appends (fun c => ~ is_reset c) (write_text p text).
Proof.
  unfold write_text. destruct p; trace_cases.
Qed.

Lemma sasdata2dataframeCSV_no_reset table libref dsopts kwargs :
  appends (fun c => ~ is_reset c) (sasdata2dataframeCSV table libref dsopts kwargs).
Proof.
  unfold sasdata2dataframeCSV.
  repeat first
    [ apply Submit_no_reset | apply _schema_no_reset | apply write_text_no_call
    | apply appends_the_adodb
    | apply (appends_mono quiet); [intros x [_ Hx]; exact Hx | apply _getfile_quiet]
    | trace_cases ].
Qed.

(** X16.  The table readers bypass the framing and the reset of
    [submit].  Neither [read_sasdata] nor [sasdata2dataframeCSV] ever
    resets the language service.  [read_sasdata] hands over its export
    text as it is, without sentinels; when it returns, the engine is as
    that unit left it, and the calls it has made to the language
    service and to the connection are the submission and the column
    query (the trace does not record the operations on the record set).
    When the parser is in its error state, [read_sasdata] raises the
    broker's error and leaves it in that state. *)
Theorem table_reads_never_reset
  (table : string) (libref : option string) (dsopts : option options)
  (kwargs : list (string * value)) :
  appends (fun c => ~ is_reset c) (read_sasdata table libref dsopts) /\
  appends (fun c => ~ is_reset c) (sasdata2dataframeCSV table libref dsopts kwargs) /\
  (forall st r st',
     read_sasdata table libref dsopts st = (Ok r, st') ->
     calls (world st') =
     (calls (world st) ++
      [LS_Submit (read_export TARGET (_tablepath (_sb (self st)) table libref)
                    (dsopts_text dsopts));
       ADODB_OpenSchema (_tablepath (_sb (self st)) TARGET None)])%list /\
     engine (world st') =
     sas_run (read_export TARGET (_tablepath (_sb (self st)) table libref)
                (dsopts_text dsopts)) (engine (world st))) /\
  (forall st ws,
     workspace (self st) = Some ws ->
     ls_error (engine (world st)) = true ->
     fst (read_sasdata table libref dsopts st) = Raise (com_error "LanguageService.Submit") /\
     ls_error (engine (world (snd (read_sasdata table libref dsopts st)))) = true).
Proof.
  split; [apply read_sasdata_no_reset|].
  split; [apply sasdata2dataframeCSV_no_reset|].
  split.
  - intros st r st' Hrun. apply read_sasdata_ok_inv in Hrun. subst st'.
    unfold after_export, read_unit. cbn. now rewrite <- app_assoc.
  - intros st ws Hws Herr.
    assert (Hsub := Submit_run (read_unit st table libref dsopts) st ws Hws).
    rewrite Herr in Hsub.
    assert (Hrun : read_sasdata table libref dsopts st =
                   (Raise (com_error "LanguageService.Submit"),
                    add_calls [LS_Submit (read_unit st table libref dsopts)] st)).
    { unfold read_sasdata. unfold mbind at 1, M_bind at 1, gets at 1.
      fold (read_unit st table libref dsopts).
      now rewrite (bind_raise _ _ st _ _ Hsub). }
    rewrite Hrun. split; [reflexivity | exact Herr].
Qed.

End ReadCsvTable.

Lemma read_sasdata_converts_cells_witness :
  let ext := DemoTables.externals in
  let mar := DemoTables.marshalling DemoTables.sales in
  let st := DemoTables.state1 in
  exists out,
    read_sasdata (H := ext) (Mar := mar) "cars" (Some "sashelp") None st =
    (Ok (["make"; "sold"], out),
     after_export (H := ext) (read_unit (H0 := mar) st "cars" (Some "sashelp") None) st) /\
    Forall2 (Forall2 (converts (_sb (self st)) DemoTables.sales_columns))
      DemoTables.sales out /\
    Forall2 (Forall2 (fun fld y =>
               forall fmt,
                 column_format DemoTables.sales_columns (Value (CStr (fst fld))) = Some fmt ->
                 temporal (_sb (self st)) fmt = false -> y = snd fld))
      DemoTables.sales out.
Proof.
  intros ext mar st.
  apply (read_sasdata_converts_cells (H := ext) (H0 := mar) st "8B1D" 1 "cars"
           (Some "sashelp") None DemoTables.sales_columns
           [("make", CStr "Acura"); ("sold", CInt 1)]
           [[("make", CStr "Audi"); ("sold", CInt 366)]]).
  - reflexivity.
  - reflexivity.
  - reflexivity.
  - eexists; reflexivity.
  - eexists; reflexivity.
  - eexists; reflexivity.
  - reflexivity.
  - discriminate.
  - repeat (apply List.Forall_cons; [split; eexists; reflexivity|]). apply List.Forall_nil.
  - reflexivity.
  - repeat (apply List.Forall_cons;
            [repeat (apply List.Forall_cons; [eexists; split; reflexivity|]);
             apply List.Forall_nil|]).
    apply List.Forall_nil.
Defined.

Lemma read_sasdata_rejects_missing_dates_witness :
  let ext := DemoTables.externals in
  let mar := DemoTables.marshalling DemoTables.sales_missing in
  fst (read_sasdata (H := ext) (Mar := mar) "cars" (Some "sashelp") None DemoTables.state1) =
  Raise TypeError \/
  fst (read_sasdata (H := ext) (Mar := mar) "cars" (Some "sashelp") None DemoTables.state1) =
  Raise OverflowError.
Proof.
  intros ext mar.
  apply (read_sasdata_rejects_missing_dates (H := ext) (H0 := mar) DemoTables.state1
           "8B1D" 1 "cars" (Some "sashelp") None DemoTables.sales_columns
           DemoTables.sales_missing [("make", CStr "Audi"); ("sold", CNone)]
           "sold" CNone (Value (CStr "DATE"))).
  - reflexivity.
  - reflexivity.
  - reflexivity.
  - eexists; reflexivity.
  - eexists; reflexivity.
  - eexists; reflexivity.
  - reflexivity.
  - discriminate.
  - repeat (apply List.Forall_cons; [split; eexists; reflexivity|]). apply List.Forall_nil.
  - reflexivity.
  - repeat (apply List.Forall_cons;
            [repeat (apply List.Forall_cons; [eexists; reflexivity|]);
             apply List.Forall_nil|]).
    apply List.Forall_nil.
  - right. left. reflexivity.
  - right. left. reflexivity.
  - reflexivity.
  - reflexivity.
  - reflexivity.
Defined.

Lemma read_paths_diverge_on_missing_date_witness :
  let ext := DemoTables.externals in
  let mar := DemoTables.marshalling DemoTables.sales_missing in
  let st := DemoTables.state1 in
  let text := "make,sold" +:+ nl +:+ "Acura,1960-01-02" +:+ nl in
  fst (sasdata2dataframe (H := ext) (Mar := mar) "sales" (Some "work") None "" [] st) =
  Raise TypeError /\
  fst (sasdata2dataframe (H := ext) (Mar := mar) "sales" (Some "work") None "CSV" [] st) =
  Ok (DemoTables.Csv text (temporal_columns (_sb (self st)) DemoTables.sales_columns)).
Proof.
  intros ext mar st text.
  assert (Hknown : Forall (Forall (fun fld =>
            is_Some (column_format DemoTables.sales_columns (Value (CStr (fst fld))))))
            DemoTables.sales_missing).
  { repeat (apply List.Forall_cons;
            [repeat (apply List.Forall_cons; [eexists; reflexivity|]);
             apply List.Forall_nil|]).
    apply List.Forall_nil. }
  assert (Hdesc : Forall described DemoTables.sales_columns).
  { repeat (apply List.Forall_cons; [split; eexists; reflexivity|]). apply List.Forall_nil. }
  assert (Hnodup : NoDup (column_names DemoTables.sales_columns)).
  { apply (bool_decide_unpack _). vm_compute. exact I. }
  assert (Hplain : Forall (fun row => forall fmt,
            row_format row = Some fmt -> temporal (_sb (self st)) fmt = false ->
            is_Some (dict_get (fields_dict row) "FORMAT_LENGTH") /\
            is_Some (dict_get (fields_dict row) "FORMAT_DECIMAL")) DemoTables.sales_columns).
  { repeat (apply List.Forall_cons; [intros fmt _ _; split; eexists; reflexivity|]).
    apply List.Forall_nil. }
  destruct (read_paths_diverge_on_missing_date (H := ext) (H0 := mar) st "8B1D" 1 "utf-8"
              "sales" (Some "work") None "" [] DemoTables.sales_columns
              DemoTables.sales_missing [("make", CStr "Audi"); ("sold", CNone)]
              "sold" CNone (Value (CStr "DATE")) (bytes_of text) text
              eq_refl eq_refl eq_refl
              (ex_intro _ _ eq_refl) (ex_intro _ _ eq_refl) (ex_intro _ _ eq_refl)
              eq_refl eq_refl eq_refl ltac:(discriminate) Hdesc Hnodup Hplain eq_refl Hknown
              (or_intror (or_introl eq_refl)) (or_intror (or_introl eq_refl))
              eq_refl eq_refl eq_refl (fun _ => eq_refl) eq_refl eq_refl eq_refl)
    as [[Hcursor | Hcursor] Hcsv].
  - split; [exact Hcursor | exact Hcsv].
  - vm_compute in Hcursor. discriminate Hcursor.
Defined.

Lemma csv_export_forces_iso_dates_witness :
  let ext := DemoTables.externals in
  let mar := DemoTables.marshalling DemoTables.sales in
  let st := DemoTables.state1 in
  let content := bytes_of ("make,sold" +:+ nl +:+ "Acura,1960-01-02" +:+ nl) in
  exists fmts,
    Forall2 (export_format (H0 := mar) (_sb (self st))) DemoTables.sales_columns fmts /\
    sasdata2dataframeCSV (H := ext) (Mar := mar) "sales" (Some "work") None [] st =
    (Ok (DemoTables.Csv ("make,sold" +:+ nl +:+ "Acura,1960-01-02" +:+ nl)
           (temporal_columns (_sb (self st)) DemoTables.sales_columns)),
     after_csv_export (H := ext) st "sales" (Some "work")
       (csv_unit (H0 := mar) st "sales" (Some "work") None fmts)
       (S (length (slices 2048 content)))).
Proof.
  intros ext mar st content.
  apply (csv_export_forces_iso_dates (H := ext) (H0 := mar) st "8B1D" 1 "utf-8" "sales"
           (Some "work") None [] DemoTables.sales_columns content
           ("make,sold" +:+ nl +:+ "Acura,1960-01-02" +:+ nl)).
  - reflexivity.
  - reflexivity.
  - reflexivity.
  - reflexivity.
  - reflexivity.
  - discriminate.
  - repeat (apply List.Forall_cons; [split; eexists; reflexivity|]). apply List.Forall_nil.
  - apply (bool_decide_unpack _). vm_compute. exact I.
  - repeat (apply List.Forall_cons; [intros fmt _ _; split; eexists; reflexivity|]).
    apply List.Forall_nil.
  - intros unit. reflexivity.
  - reflexivity.
  - reflexivity.
Defined.

Lemma csv_tempfile_only_when_kept_witness :
  let ext := DemoTables.externals in
  let mar := DemoTables.marshalling DemoTables.sales in
  let st := DemoTables.state1 in
  let kwargs := [("tempkeep", VBool true); ("tempfile", VStr "/tmp/sales.csv")] in
  let text := "make,sold" +:+ nl +:+ "Acura,1960-01-02" +:+ nl in
  fst (sasdata2dataframeCSV (H := ext) (Mar := mar) "sales" (Some "work") None kwargs st) =
  Ok (DemoTables.Csv text (temporal_columns (_sb (self st)) DemoTables.sales_columns)) /\
  local_fs (world (snd (sasdata2dataframeCSV (H := ext) (Mar := mar) "sales" (Some "work")
                          None kwargs st))) =
  <["/tmp/sales.csv" := LocalFile (bytes_of text)]> (local_fs (world st)).
Proof.
  intros ext mar st kwargs text.
  refine (proj1 (proj2 (csv_tempfile_only_when_kept (H := ext) (H0 := mar) "sales"
                          (Some "work") None kwargs)
                   st "8B1D" 1 "utf-8" DemoTables.sales_columns (bytes_of text) text
                   "/tmp/sales.csv" eq_refl eq_refl eq_refl eq_refl eq_refl
                   ltac:(discriminate) _ _ _ _ eq_refl eq_refl eq_refl) _).
  - repeat (apply List.Forall_cons; [split; eexists; reflexivity|]). apply List.Forall_nil.
  - apply (bool_decide_unpack _). vm_compute. exact I.
  - repeat (apply List.Forall_cons; [intros fmt _ _; split; eexists; reflexivity|]).
    apply List.Forall_nil.
  - intros unit. reflexivity.
  - reflexivity.
Defined.

(** ** What [submit] returns *)

Section SubmitResult.
Context `{Externals}.

Lemma submit_text_run st ws code results :
  workspace (self st) = Some ws ->
  ls_error (engine (world st)) = false ->
  is_html results = false ->
  let unit := RESET +:+ code +:+ RESET in
  let e1 := sas_run unit (engine (world st)) in
  submit code results None st =
  (Ok ({[ "LOG" := VStr (flushed (ls_log e1)); "LST" := VStr (flushed (ls_lst e1)) ]} : dict),
   after_text_submit unit st).
Proof.
  intros Hws Hclear Hhtml unit e1.
  rewrite (submit_no_prompt code results None (or_introl eq_refl)).
  erewrite bind_run;
    [| rewrite (_asubmit_framed st code results), (Submit_run _ st ws Hws), Hclear;
       [reflexivity | rewrite Hhtml; discriminate]].
  unfold submitted_unit. rewrite Hhtml. fold unit.
  unfold retrieve.
  erewrite bind_run; [| apply (_getlog_run _ ws); exact Hws].
  cbv zeta. unfold listing. rewrite Hhtml.
  erewrite bind_run; [| apply (_getlst_run _ ws); exact Hws].
  cbv zeta.
  erewrite bind_run; [| apply (_reset_run _ ws); exact Hws].
  reflexivity.
Qed.

Lemma after_text_submit_calls unit st :
  calls (world (after_text_submit unit st)) =
  (calls (world st) ++
   LS_Submit unit ::
   (repeat (LS_FlushLog 2048)
      (S (length (payload truthy_str (ls_log (sas_run unit (engine (world st))))))) ++
    repeat (LS_FlushList 2048)
      (S (length (payload truthy_str (ls_lst (sas_run unit (engine (world st)))))))) ++
   [LS_Reset])%list.
Proof.
  unfold after_text_submit.
  cbn [calls world set_engine add_calls set_self]. 
  rewrite <- !app_assoc. reflexivity.
Qed.

(** X17.  In text mode, on an open session whose parser accepts input,
    [submit] returns under [LOG] and [LST] the log and the listing that
    the engine holds after running the framed unit, each up to its first
    empty chunk; it appends that log to the session log, leaves in the
    queues what lies behind the first empty chunk, and leaves the files
    of the engine as the unit left them. *)
Theorem submit_text_returns_log_and_listing
  (st : State) (ws code results : string) :
  workspace (self st) = Some ws ->
  ls_error (engine (world st)) = false ->
  is_html results = false ->
  let e1 := sas_run (RESET +:+ code +:+ RESET) (engine (world st)) in
  let run := submit code results None st in
  fst run =
  Ok ({[ "LOG" := VStr (flushed (ls_log e1)); "LST" := VStr (flushed (ls_lst e1)) ]} : dict) /\
  _log (self (snd run)) = _log (self st) +:+ flushed (ls_log e1) /\
  fst (saslog (snd run)) = Ok (_log (self st) +:+ flushed (ls_log e1)) /\
  ls_log (engine (world (snd run))) = unflushed (ls_log e1) /\
  ls_lst (engine (world (snd run))) = unflushed (ls_lst e1) /\
  remote_fs (engine (world (snd run))) = remote_fs e1 /\
  local_fs (world (snd run)) = local_fs (world st).
Proof.
  intros Hws Hclear Hhtml e1 run. unfold run.
  rewrite (submit_text_run st ws code results Hws Hclear Hhtml). cbv zeta. fold e1.
  repeat apply conj; reflexivity.
Qed.

End SubmitResult.

Lemma submit_text_returns_log_and_listing_witness :
  let run := submit (H := Demo.externals) "proc print; run;" "text" None Demo.state0 in
  fst run =
  Ok ({[ "LOG" := VStr ("NOTE: unit received." +:+ nl +:+ "NOTE: done." +:+ nl);
         "LST" := VStr ("The SAS System" +:+ nl) ]} : dict) /\
  _log (self (snd run)) = "NOTE: unit received." +:+ nl +:+ "NOTE: done." +:+ nl.
Proof.
  intros run.
  destruct (submit_text_returns_log_and_listing (H := Demo.externals) Demo.state0 "8B1D"
              "proc print; run;" "text" eq_refl eq_refl eq_refl) as (Hres & Hlog & _).
  split; [exact Hres | exact Hlog].
Defined.

(** ** CSV import and export programs *)

Section CsvPrograms.
Context `{Externals} `{Marshalling}.

Lemma read_csv_submits filepath table libref nosub opts st :
  is_True nosub = false ->
  read_csv filepath table libref nosub opts st =
  match read_csv filepath table libref (VBool true) opts st with
  | (Ok (Code code), _) =>
      match submit code "text" None st with
      | (Ok d, st') => (Ok (Result d), st')
      | (Raise e, st') => (Raise e, st')
      end
  | other => other
  end.
Proof.
  intros Hnosub. unfold read_csv, mbind, M_bind, gets, mret, M_ret.
  rewrite Hnosub. cbn [is_True].
  match goal with |- context [submit ?c ?r ?p st] => destruct (submit c r p st) as [[d|e] st'] end;
    reflexivity.
Qed.

(** X18.  With [nosub=True], [read_csv] makes no call, changes nothing
    and returns the import program; with any other [nosub], on an open
    session, the unit it hands to the language service is that very
    program between the reset sentinels, submitted in text mode, and it
    returns the log and the listing of that unit. *)
Theorem read_csv_nosub_returns_submitted_code
  (filepath table : string) (libref : option string) (opts : option options) (st : State) :
  exists code,
    read_csv filepath table libref (VBool true) opts st = (Ok (Code code), st) /\
    forall nosub ws,
      is_True nosub = false ->
      workspace (self st) = Some ws ->
      ls_error (engine (world st)) = false ->
      let e1 := sas_run (RESET +:+ code +:+ RESET) (engine (world st)) in
      let run := read_csv filepath table libref nosub opts st in
      fst run =
      Ok (Result {[ "LOG" := VStr (flushed (ls_log e1));
                    "LST" := VStr (flushed (ls_lst e1)) ]}) /\
      exists rest,
        calls (world (snd run)) =
        (calls (world st) ++ LS_Submit (RESET +:+ code +:+ RESET) :: rest)%list /\
        last rest = Some LS_Reset.
Proof.
  set (code := import_code
                 (double_quotes (if String.prefix "http" (lower filepath)
                                 then "url " +:+ filepath else filepath))
                 (_tablepath (_sb (self st)) table libref)
                 (_impopts (default no_options opts))).
  exists code. split; [reflexivity|].
  intros nosub ws Hnosub Hws Hclear e1 run.
  assert (Hrun : run =
    (Ok (Result {[ "LOG" := VStr (flushed (ls_log e1));
                   "LST" := VStr (flushed (ls_lst e1)) ]}),
     after_text_submit (RESET +:+ code +:+ RESET) st)).
  { unfold run. rewrite (read_csv_submits filepath table libref nosub opts st Hnosub).
    unfold read_csv at 1. unfold mbind, M_bind, gets, mret, M_ret. cbn [is_True].
    rewrite (submit_text_run st ws _ "text" Hws Hclear eq_refl). reflexivity. }
  rewrite Hrun. split; [reflexivity|]. cbn [snd].
  rewrite after_text_submit_calls.
  eexists. split; [reflexivity|]. apply last_snoc.
Qed.

Lemma write_csv_submits filepath table libref nosub opts dsopts st :
  is_True nosub = false ->
  write_csv filepath table libref nosub opts dsopts st =
  match write_csv filepath table libref (VBool true) opts dsopts st with
  | (Ok (VStr code), _) =>
      match submit code "text" None st with
      | (Ok d, st') =>
          match d !! "LOG" with
          | Some log => (Ok log, st')
          | None => (Raise (KeyError "LOG"), st')
          end
      | (Raise e, st') => (Raise e, st')
      end
  | other => other
  end.
Proof.
  intros Hnosub. unfold write_csv, mbind, M_bind, gets, mret, M_ret, raise.
  rewrite Hnosub. cbn [is_True].
  match goal with |- context [submit ?c ?r ?p st] => destruct (submit c r p st) as [[d|e] st'] end;
    [destruct (d !! "LOG")|]; reflexivity.
Qed.

(** X19.  [write_csv] drops its export options: whatever [opts] is, the
    program, the result and the final state are the same.  With
    [nosub=True] it makes no call and returns the export program; with
    any other [nosub], on an open session, it submits that program
    between the reset sentinels in text mode and returns the log of the
    unit alone, as a string. *)
Theorem write_csv_drops_export_options
  (filepath table : string) (libref : option string) (opts dsopts : option options)
  (st : State) :
  (forall nosub opts', 
     write_csv filepath table libref nosub opts dsopts st =
     write_csv filepath table libref nosub opts' dsopts st) /\
  exists code,
    write_csv filepath table libref (VBool true) opts dsopts st = (Ok (VStr code), st) /\
    forall nosub ws,
      is_True nosub = false ->
      workspace (self st) = Some ws ->
      ls_error (engine (world st)) = false ->
      let e1 := sas_run (RESET +:+ code +:+ RESET) (engine (world st)) in
      let run := write_csv filepath table libref nosub opts dsopts st in
      fst run = Ok (VStr (flushed (ls_log e1))) /\
      exists rest,
        calls (world (snd run)) =
        (calls (world st) ++ LS_Submit (RESET +:+ code +:+ RESET) :: rest)%list /\
        last rest = Some LS_Reset.
Proof.
  split; [reflexivity|].
  set (code := export_code (double_quotes filepath)
                 (_tablepath (_sb (self st)) table libref)
                 (_dsopts (default no_options dsopts)) (_expopts (default no_options opts))).
  exists code. split; [reflexivity|].
  intros nosub ws Hnosub Hws Hclear e1 run.
  assert (Hrun : run = (Ok (VStr (flushed (ls_log e1))),
                        after_text_submit (RESET +:+ code +:+ RESET) st)).
  { unfold run. rewrite (write_csv_submits filepath table libref nosub opts dsopts st Hnosub).
    unfold write_csv at 1. unfold mbind, M_bind, gets, mret, M_ret. cbn [is_True].
    rewrite (submit_text_run st ws _ "text" Hws Hclear eq_refl). cbv beta iota zeta.
    rewrite lookup_insert_eq. reflexivity. }
  rewrite Hrun. split; [reflexivity|]. cbn [snd].
  rewrite after_text_submit_calls.
  eexists. split; [reflexivity|]. apply last_snoc.
Qed.

End CsvPrograms.

(** ** Quoting of file paths *)

Lemma prefix_nil s : String.prefix EmptyString s = true.
Proof. now destruct s. Qed.

Lemma prefix_cons c s t : String.prefix (String c s) (String c t) = String.prefix s t.
Proof. simpl. destruct (ascii_dec c c); [reflexivity | contradiction]. Qed.

Lemma prefix_cons_ne c a s t : c <> a -> String.prefix (String c s) (String a t) = false.
Proof. intros Hne. simpl. destruct (ascii_dec c a); [contradiction | reflexivity]. Qed.

Lemma replace_from_match old new c s :
  String.prefix old (String c s) = true ->
  replace_from old new 0 (String c s) =
  new +:+ replace_from old new (String.length old - 1) s.
Proof. intros Hp. cbn [replace_from]. now rewrite Hp. Qed.

Lemma replace_from_other old new c s :
  String.prefix old (String c s) = false ->
  replace_from old new 0 (String c s) = String c (replace_from old new 0 s).
Proof. intros Hp. cbn [replace_from]. now rewrite Hp. Qed.

Lemma replace_from_skip old new k c s :
  replace_from old new (S k) (String c s) = replace_from old new k s.
Proof. reflexivity. Qed.

(** X20.  The quoting of a file path in the import and export programs
    is reversible: replacing every doubled double quote of the quoted
    path by a single one gives the path back, so that two different
    paths never yield the same quoted text. *)
Theorem double_quotes_round_trip :
  (forall filepath,
     replace (dquote +:+ dquote) dquote (double_quotes filepath) = filepath) /\
  (forall a b, double_quotes a = double_quotes b -> a = b).
Proof.
  assert (Hround : forall filepath,
            replace (dquote +:+ dquote) dquote (double_quotes filepath) = filepath).
  { unfold double_quotes, replace, dquote.
    change (String (ascii_of_nat 34) "" +:+ String (ascii_of_nat 34) "")
      with (String (ascii_of_nat 34) (String (ascii_of_nat 34) "")).
    induction filepath as [|c s IH]; [reflexivity|].
    destruct (ascii_dec (ascii_of_nat 34) c) as [<-|Hne].
    - rewrite replace_from_match by (rewrite prefix_cons; apply prefix_nil).
      change (String (ascii_of_nat 34) (String (ascii_of_nat 34) "") +:+ ?t)
        with (String (ascii_of_nat 34) (String (ascii_of_nat 34) t)).
      rewrite replace_from_match by (rewrite !prefix_cons; apply prefix_nil).
      change (String.length (String (ascii_of_nat 34) (String (ascii_of_nat 34) "")) - 1)%nat
        with 1%nat.
      rewrite replace_from_skip.
      change (String.length (String (ascii_of_nat 34) "") - 1)%nat with 0%nat.
      rewrite IH. reflexivity.
    - rewrite replace_from_other by (now apply prefix_cons_ne).
      rewrite replace_from_other by (now apply prefix_cons_ne).
      now rewrite IH. }
  split; [exact Hround|].
  intros a b Heq. rewrite <- (Hround a), <- (Hround b). now rewrite Heq.
Qed.

(** ** The listing of rich output *)

Lemma occurs_append c a b : occurs c (a +:+ b) = occurs c a || occurs c b.
Proof.
  induction a as [|x a IH]; [reflexivity|]. simpl. rewrite IH. now rewrite orb_assoc.
Qed.

Lemma replace_from_keeps_absent c old new s :
  occurs c new = false -> occurs c s = false ->
  forall skip, occurs c (replace_from old new skip s) = false.
Proof.
  intros Hnew. induction s as [|a s IH]; intros Hs skip; [reflexivity|].
  simpl in Hs. apply orb_false_elim in Hs as [Ha Hs].
  destruct skip as [|k]; [|rewrite replace_from_skip; now apply IH].
  destruct (String.prefix old (String a s)) eqn:Hp.
  - rewrite (replace_from_match _ _ _ _ Hp), occurs_append, Hnew. now apply IH.
  - rewrite (replace_from_other _ _ _ _ Hp). simpl. rewrite Ha. now apply IH.
Qed.

Lemma replace_char_removes c new s :
  occurs c new = false ->
  occurs c (replace (String c EmptyString) new s) = false.
Proof.
  intros Hnew. unfold replace. induction s as [|a s IH]; [reflexivity|].
  destruct (ascii_dec c a) as [<-|Hne].
  - rewrite replace_from_match by (rewrite prefix_cons; apply prefix_nil).
    change (String.length (String c "") - 1)%nat with 0%nat.
    rewrite occurs_append, Hnew. exact IH.
  - rewrite replace_from_other by (now apply prefix_cons_ne).
    simpl. rewrite IH, orb_false_r. apply Ascii.eqb_neq. congruence.
Qed.

Section Listing.
Context `{Externals}.

Lemma listing_html_no_form_feed results st lst st' :
  is_html results = true ->
  listing results st = (Ok lst, st') ->
  occurs form_feed lst = false.
Proof.
  intros Hhtml. unfold listing. rewrite Hhtml. intros Hrun.
  apply bind_ok_inv in Hrun as (htmlfn & st1 & _ & Hrun).
  apply bind_ok_inv in Hrun as (data & st2 & _ & Hrun).
  destruct data as [b|s]; [discriminate|].
  injection Hrun as <- _.
  apply replace_from_keeps_absent; [reflexivity|].
  apply replace_from_keeps_absent; [reflexivity|].
  apply (replace_char_removes form_feed). reflexivity.
Qed.

(** X21.  The listing that [submit] returns in rich-output mode holds no
    form feed: every form feed of the captured file is replaced by a
    line feed before the two style replacements, which add none.  On a
    session that is ready for capture, [submit] does return such a
    listing. *)
Theorem html_listing_has_no_form_feed (code results : string) :
  is_html results = true ->
  (forall prompt st d st',
     submit code results prompt st = (Ok d, st') ->
     exists lst, d !! "LST" = Some (VStr lst) /\ occurs form_feed lst = false) /\
  (forall st ws,
     workspace (self st) = Some ws ->
     ls_error (engine (world st)) = false ->
     capture_ready (self st) ->
     exists lst,
       fst (submit code results None st) =
       Ok ({[ "LOG" := VStr (flushed (ls_log (sas_run (submitted_unit st code results)
                                                (engine (world st)))));
              "LST" := VStr lst ]} : dict) /\
       occurs form_feed lst = false).
Proof.
  intros Hhtml.
  assert (Hany : forall prompt st d st',
            submit code results prompt st = (Ok d, st') ->
            exists log lst,
              d = ({[ "LOG" := VStr log; "LST" := VStr lst ]} : dict) /\
              occurs form_feed lst = false).
  { intros prompt st d st' Hrun. unfold submit in Hrun.
    apply bind_ok_inv in Hrun as (macros & st1 & _ & Hrun).
    apply bind_ok_inv in Hrun as (u & st2 & _ & Hrun).
    apply bind_ok_inv in Hrun as (log & st3 & _ & Hrun).
    apply bind_ok_inv in Hrun as (lst & st4 & Hlst & Hrun).
    apply bind_ok_inv in Hrun as (u' & st5 & _ & Hrun).
    injection Hrun as <- _. exists log, lst. split; [reflexivity|].
    exact (listing_html_no_form_feed results st3 lst st4 Hhtml Hlst). }
  split.
  - intros prompt st d st' Hrun.
    destruct (Hany prompt st d st' Hrun) as (log & lst & -> & Hff).
    exists lst. split; [|exact Hff].
    rewrite lookup_insert_ne by discriminate. apply lookup_insert_eq.
  - intros st ws Hws Hclear Hcap.
    destruct (submit_returns st ws code results Hws Hclear (fun _ => Hcap))
      as (d & st' & Hrun & _).
    destruct (Hany None st d st' Hrun) as (log & lst & -> & Hff).
    exists lst. rewrite Hrun. split; [|exact Hff].
    cbn [fst].

    assert (Hlog : log = flushed (ls_log (sas_run (submitted_unit st code results)
                                              (engine (world st))))).
    { revert Hrun. rewrite (submit_no_prompt code results None (or_introl eq_refl)).
      destruct Hcap as (output & enc & Hout & _).
      erewrite bind_run;
        [| rewrite (_asubmit_framed st code results), (Submit_run _ st ws Hws), Hclear;
           [reflexivity | intros _; eauto]].
      unfold retrieve.
      erewrite bind_run; [| apply (_getlog_run _ ws); exact Hws].
      cbv zeta. intros Hrun.
      apply bind_ok_inv in Hrun as (lst' & st4 & _ & Hrun).
      apply bind_ok_inv in Hrun as (u' & st5 & _ & Hrun).
      unfold mret, M_ret in Hrun.
      apply (f_equal (fun r : outcome dict * State =>
                        match fst r with Ok m => m !! "LOG" | Raise _ => None end)) in Hrun.
      cbn [fst] in Hrun. rewrite !lookup_insert_eq in Hrun.
      now injection Hrun as <-. }
    now rewrite Hlog.
Qed.

End Listing.

Lemma html_listing_has_no_form_feed_witness :
  exists lst,
    fst (submit (H := Demo.externals) "proc print; run;" "HTML" None Demo.state0) =
    Ok ({[ "LOG" := VStr (flushed (ls_log
             (sas_run (Externals := Demo.externals)
                (submitted_unit Demo.state0 "proc print; run;" "HTML")
                (engine (world Demo.state0)))));
           "LST" := VStr lst ]} : dict) /\
    occurs form_feed lst = false.
Proof.
  apply (proj2 (html_listing_has_no_form_feed (H := Demo.externals) "proc print; run;" "HTML"
                  eq_refl) Demo.state0 "8B1D" eq_refl eq_refl).
  exists (VStr "html5"), "utf-8". repeat split.
  - intros b. eexists. reflexivity.
  - intros unit e. eexists. apply lookup_insert_eq.
Defined.

(** ** The constructor *)

(** A configuration that was built holds the session object of the
    keyword [sb] and every attribute that [_startsas] reads. *)
Lemma config_init_attrs kwargs config err :
  SASConfigCOM.__init__ kwargs = (Ok config, err) ->
  (exists session, session_of kwargs = Some session) /\
  forall k, k ∈ ["host"; "port"; "user"; "pw"; "class_id"; "provider"] ->
            is_Some (config !! k).
Proof.
  unfold SASConfigCOM.__init__, session_of.
  destruct (List.find _ kwargs) as [[key val | session]|]; [discriminate | | discriminate].
  intros Hrun. split; [eauto |].
  intros k Hk. apply (override_all_dom _ _ _ _ Hrun).
  unfold SASConfigCOM.from_config.
  repeat (apply elem_of_cons in Hk as [-> | Hk];
          [repeat (rewrite lookup_insert_ne by discriminate);
           rewrite lookup_insert_eq; eauto |]).
  now apply elem_of_nil in Hk.
Qed.

(** With a session under [sb] and keywords that replace neither
    [NO_OVERRIDE] nor [_try_override], the configuration is built. *)
Lemma config_init_plain kwargs session :
  List.find (fun x => String.eqb (key_of x) "sb") kwargs = Some (KwSb session) ->
  plain_keywords kwargs ->
  exists config err, SASConfigCOM.__init__ kwargs = (Ok config, err).
Proof.
  intros Hsb Hplain. unfold SASConfigCOM.__init__. rewrite Hsb.
  destruct (from_config_class_attrs (scalars kwargs) session) as [Hno Htry].
  destruct (override_all_plain kwargs _ _ (from_config_lock _ _) Hno Htry Hplain)
    as (config & err & Hrun & _).
  eauto.
Qed.

Lemma _startsas_fresh st id rest :
  workspace (self st) = None ->
  broker_ids (world st) = id :: rest ->
  (forall k, k ∈ ["host"; "port"; "user"; "pw"; "class_id"; "provider"] ->
             is_Some (sascfg (self st) !! k)) ->
  exists server user pw provider,
    _startsas st = (Ok id, opened id server user pw provider rest st).
Proof.
  intros Hws Hids Hattr.
  destruct (Hattr "host") as [host Hhost]; [set_solver|].
  destruct (Hattr "port") as [port Hport]; [set_solver|].
  destruct (Hattr "user") as [user Huser]; [set_solver|].
  destruct (Hattr "pw") as [pw Hpw]; [set_solver|].
  destruct (Hattr "class_id") as [class_id Hclass]; [set_solver|].
  destruct (Hattr "provider") as [provider Hprov]; [set_solver|].
  destruct (is_None host) eqn:Hnone.
  - destruct host; try discriminate.
    do 4 eexists. exact (_startsas_local_run st id rest provider Hws Hids Hprov Hhost).
  - do 4 eexists.
    exact (_startsas_remote_run st id rest provider host port class_id user pw
             Hws Hids Hprov Hhost Hnone Hport Hclass Huser Hpw).
Qed.

Lemma _startsas_no_broker st :
  workspace (self st) = None ->
  broker_ids (world st) = [] ->
  (forall k, k ∈ ["host"; "port"; "user"; "pw"; "class_id"; "provider"] ->
             is_Some (sascfg (self st) !! k)) ->
  fst (_startsas st) = Raise (com_error "CreateObjectByServer").
Proof.
  intros Hws Hids Hattr.
  destruct (Hattr "host") as [host Hhost]; [set_solver|].
  destruct (Hattr "port") as [port Hport]; [set_solver|].
  destruct (Hattr "user") as [user Huser]; [set_solver|].
  destruct (Hattr "pw") as [pw Hpw]; [set_solver|].
  destruct (Hattr "class_id") as [class_id Hclass]; [set_solver|].
  unfold _startsas, cfgattr, CreateObjectByServer, call, modify, gets, raise,
    SASConfigCOM.getattr, mbind, M_bind, mret, M_ret.
  rewrite Hws. cbn. rewrite Hhost. cbn.
  destruct (is_None host); cbn.
  - rewrite Hids. reflexivity.
  - rewrite Hport, Hclass, Huser, Hpw. cbn. rewrite Hids. reflexivity.
Qed.

(** X22.  The constructor builds the configuration, then opens the
    session.  When the configuration is built and the broker delivers a
    workspace, the session the constructor returns has that workspace,
    registered with the keeper, an open connection, an empty log, the
    configuration that was built, the session object of the keyword [sb],
    and the workspace's identifier as its [pid]; the warnings of the
    configuration are on [stderr].  When the broker delivers none, the
    constructor raises the broker's error.  When the configuration
    raises, the constructor raises the same exception before any call is
    made: so without the keyword [sb] it raises [KeyError].  The
    configuration is built whenever [sb] is a session object and no
    keyword replaces [NO_OVERRIDE] or [_try_override]. *)
Theorem init_opens_session (kwargs : list keyword) (w : World) :
  (forall config err,
     SASConfigCOM.__init__ kwargs = (Ok config, err) ->
     (forall id rest,
        broker_ids w = id :: rest ->
        exists s w',
          SASSessionCOM.__init__ kwargs w = (Ok s, w') /\
          pid s = Some id /\ workspace s = Some id /\ keeper s = [id] /\
          adodb s = Some STATE_OPEN /\ _log s = EmptyString /\
          session_of kwargs = Some (_sb s) /\
          sascfg s = config /\
          stderr w' = (stderr w ++ err)%list /\
          broker_ids w' = rest /\
          exists server user pw provider,
            calls w' =
            (calls w ++ [Factory_CreateObjectByServer SAS_APP server user pw;
                         Keeper_AddObject id;
                         ADODB_Open (connection_string provider id)])%list) /\
     (broker_ids w = [] ->
      fst (SASSessionCOM.__init__ kwargs w) = Raise (com_error "CreateObjectByServer"))) /\
  (forall e err,
     SASConfigCOM.__init__ kwargs = (Raise e, err) ->
     fst (SASSessionCOM.__init__ kwargs w) = Raise e /\
     calls (snd (SASSessionCOM.__init__ kwargs w)) = calls w) /\
  (~ In "sb" (map key_of kwargs) ->
   SASConfigCOM.__init__ kwargs = (Raise (KeyError "sb"), [])) /\
  (forall session,
     List.find (fun x => String.eqb (key_of x) "sb") kwargs = Some (KwSb session) ->
     plain_keywords kwargs ->
     exists config err, SASConfigCOM.__init__ kwargs = (Ok config, err)).
Proof.
  repeat apply conj.
  - intros config err Hcfg.
    destruct (config_init_attrs kwargs config err Hcfg) as [[session Hsb] Hattr].
    split.
    + intros id rest Hids. unfold SASSessionCOM.__init__. rewrite Hcfg, Hsb.
      match goal with
      | |- context [_startsas ?st0] =>
          destruct (_startsas_fresh st0 id rest eq_refl Hids Hattr)
            as (server & user & pw & provider & Hrun);
          rewrite Hrun
      end.
      do 2 eexists. split; [reflexivity|].
      repeat (split; [reflexivity|]).
      exists server, user, pw, provider. reflexivity.
    + intros Hids. unfold SASSessionCOM.__init__. rewrite Hcfg, Hsb.
      match goal with
      | |- context [_startsas ?st0] =>
          pose proof (_startsas_no_broker st0 eq_refl Hids Hattr) as Hrun;
          destruct (_startsas st0) as [[id|e] st1]
      end; [discriminate|].
      cbn [fst] in *. now injection Hrun as ->.
  - intros e err Hcfg. unfold SASSessionCOM.__init__. rewrite Hcfg.
    destruct (session_of kwargs); split; reflexivity.
  - intros Hsb. unfold SASConfigCOM.__init__.
    destruct (List.find _ kwargs) as [x|] eqn:Hfind; [| reflexivity].
    apply find_some in Hfind as [Hin Hkey]. apply String.eqb_eq in Hkey.
    exfalso. apply Hsb. rewrite <- Hkey. now apply in_map.
  - apply config_init_plain.
Qed.

(** ** Failures of the file service *)

Section TransferFailures.
Context `{Externals}.

Lemma _getfile_unopened st ws fname buf dec :
  workspace (self st) = Some ws ->
  (forall content, remote_fs (engine (world st)) !! fname <> Some (RemoteFile content)) ->
  _getfile fname buf dec st =
  (Raise (com_error "OpenBinaryStream"),
   add_calls [FS_AssignFileref "outfile" fname ""; Stream_Open STREAM_READ] st).
Proof.
  intros Hws Hfile.
  unfold _getfile, the_workspace, call, modify, gets, raise, mbind, M_bind.
  rewrite Hws. cbn.
  destruct (remote_fs (engine (world st)) !! fname) as [[|content]|] eqn:Hnode.
  - now rewrite add_calls_app.
  - now destruct (Hfile content).
  - now rewrite add_calls_app.
Qed.

(** X23.  When the binary stream of a remote file cannot be opened,
    [_getfile] raises the provider's error after it has assigned the
    fileref and asked for the stream, and these are its only calls: it
    neither closes a stream nor deassigns the fileref [outfile]. *)
Theorem getfile_failure_leaves_fileref
  (st : State) (ws fname : string) (buf : Z) (dec : bool) :
  workspace (self st) = Some ws ->
  (forall content, remote_fs (engine (world st)) !! fname <> Some (RemoteFile content)) ->
  fst (_getfile fname buf dec st) = Raise (com_error "OpenBinaryStream") /\
  calls (world (snd (_getfile fname buf dec st))) =
  (calls (world st) ++ [FS_AssignFileref "outfile" fname ""; Stream_Open STREAM_READ])%list.
Proof.
  intros Hws Hfile. rewrite (_getfile_unopened st ws fname buf dec Hws Hfile).
  split; reflexivity.
Qed.

(** X24.  [download] opens the local file for writing before it reads
    the remote one: when the remote file cannot be read although the
    file-info collaborator reports it, [download] raises the provider's
    error and the local file, whatever it held, is left empty. *)
Theorem failed_download_empties_local_file
  (st : State) (ws local remote local_file : string) (overwrite : value) (info : dict)
  (old : list byte) :
  workspace (self st) = Some ws ->
  valid st remote = Some info -> info <> ∅ ->
  (forall content, remote_fs (engine (world st)) !! remote <> Some (RemoteFile content)) ->
  local_target st local remote = Ok local_file ->
  local_fs (world st) !! local_file = Some (LocalFile old) ->
  fst (download local remote overwrite st) = Raise (com_error "OpenBinaryStream") /\
  local_fs (world (snd (download local remote overwrite st))) !! local_file =
  Some (LocalFile []).
Proof.
  unfold valid, local_target. intros Hws Hv Hinfo Hfile Htarget Hold.
  assert (Hrun : download local remote overwrite st =
                 (Raise (com_error "OpenBinaryStream"),
                  add_calls [FS_AssignFileref "outfile" remote ""; Stream_Open STREAM_READ]
                    (set_local_fs (<[local_file := LocalFile []]>) st))).
  { unfold download. unfold mbind at 1 2, M_bind at 1 2, gets at 1 2. cbn beta iota.
    rewrite Hv.
    rewrite bool_decide_false by discriminate.
    rewrite bool_decide_false by congruence.
    unfold mbind at 1, M_bind at 1, gets at 1. cbn beta iota.
    assert (Hfile_target :
      ((if bool_decide (local_fs (world st) !! local = Some LocalDir)
        then base ← lift (rpartition_2 remote (hostsep (_sb (self st))));
             mret (os_path_join local base)
        else mret local) : M string) st = (Ok local_file, st)).
    { destruct (bool_decide (local_fs (world st) !! local = Some LocalDir)).
      - unfold mbind, M_bind, lift, mret, M_ret.
        destruct (rpartition_2 remote (hostsep (_sb (self st)))) as [base|e];
          [|discriminate].
        cbn in Htarget. now injection Htarget as <-.
      - unfold mret, M_ret. now injection Htarget as <-. }
    rewrite (bind_run _ _ st _ _ Hfile_target).
    unfold mbind at 1, M_bind at 1, gets at 1. cbn beta iota. rewrite Hold.
    cbv iota.
    unfold mbind at 1, M_bind at 1, modify at 1. cbn beta iota.
    erewrite bind_raise; [reflexivity|].
    apply (_getfile_unopened _ ws); [exact Hws | exact Hfile]. }
  rewrite Hrun. split; [reflexivity|]. cbn. apply lookup_insert_eq.
Qed.

(** X25.  [upload] of a local path that is not a readable file raises
    [OSError] before any call to the file service is made, and changes
    nothing, unless the remote target exists and [overwrite] is [False],
    in which case the refusal is returned without looking at the local
    path. *)
Theorem upload_missing_local_file
  (st : State) (local remote : string) (overwrite : value) (permission : string) :
  (forall data, local_fs (world st) !! local <> Some (LocalFile data)) ->
  (valid st remote = Some ∅ \/ valid st remote = None \/ is_False overwrite = false ->
   upload local remote overwrite permission st = (Raise (OSError local), st)) /\
  (forall info,
     valid st remote = Some info -> info <> ∅ -> is_False overwrite = true ->
     fst (upload local remote overwrite permission st) =
     Ok (transfer_result false
           ("File " +:+ remote +:+
            " exists and overwrite was set to False. Upload was stopped."))).
Proof.
  intros Hlocal.
  assert (Hto : forall remote_file perms,
            upload_to local remote_file perms st = (Raise (OSError local), st)).
  { intros remote_file perms. unfold upload_to, mbind, M_bind, gets, raise.
    destruct (local_fs (world st) !! local) as [[|data]|] eqn:Hnode; try reflexivity.
    now destruct (Hlocal data). }
  split.
  - unfold valid. intros Hcase. unfold upload, mbind, M_bind, gets. cbn beta iota.
    destruct (bool_decide (file_info (_sb (self st)) (remote_fs (engine (world st))) remote
                           = Some ∅)) eqn:Hdir; [apply Hto|].
    apply bool_decide_eq_false in Hdir.
    destruct Hcase as [Hv | [Hv | Hover]]; [contradiction | |].
    + rewrite Hv. rewrite bool_decide_true by reflexivity. apply Hto.
    + rewrite Hover, andb_false_r. apply Hto.
  - intros info Hv Hinfo Hover.
    now rewrite (upload_refused st local remote overwrite permission info Hv Hinfo Hover).
Qed.

End TransferFailures.

Lemma getfile_failure_leaves_fileref_witness :
  fst (_getfile (H := Demo.externals) "/data/none.csv" 2048 false Demo.state0) =
  Raise (com_error "OpenBinaryStream") /\
  calls (world (snd (_getfile (H := Demo.externals) "/data/none.csv" 2048 false Demo.state0))) =
  (calls (world Demo.state0) ++
   [FS_AssignFileref "outfile" "/data/none.csv" ""; Stream_Open STREAM_READ])%list.
Proof.
  apply (getfile_failure_leaves_fileref (H := Demo.externals) Demo.state0 "8B1D"
           "/data/none.csv" 2048 false eq_refl).
  intros content. vm_compute. discriminate.
Defined.

Lemma failed_download_empties_local_file_witness :
  fst (download (H := Demo.externals) "/tmp/old.csv" "/data/gone.csv" (VBool false)
         demo_with_stale_info) = Raise (com_error "OpenBinaryStream") /\
  local_fs (world (snd (download (H := Demo.externals) "/tmp/old.csv" "/data/gone.csv"
                          (VBool false) demo_with_stale_info))) !! "/tmp/old.csv" =
  Some (LocalFile []).
Proof.
  apply (failed_download_empties_local_file (H := Demo.externals) demo_with_stale_info
           "8B1D" "/tmp/old.csv" "/data/gone.csv" "/tmp/old.csv" (VBool false)
           {[ "Size" := VInt 9 ]} (bytes_of "stale")).
  - reflexivity.
  - reflexivity.
  - vm_compute. discriminate.
  - intros content. vm_compute. discriminate.
  - reflexivity.
  - reflexivity.
Defined.

Lemma upload_missing_local_file_witness :
  upload (H := Demo.externals) "/tmp/none.csv" "/data/new.csv" (VBool true) ""
    Demo.state0 = (Raise (OSError "/tmp/none.csv"), Demo.state0).
Proof.
  refine (proj1 (upload_missing_local_file (H := Demo.externals) Demo.state0
                   "/tmp/none.csv" "/data/new.csv" (VBool true) "" _) _).
  - intros data. vm_compute. discriminate.
  - right. left. reflexivity.
Defined.

(** ** The statements above on the demonstration session *)

Lemma table_reads_never_reset_witness :
  let mar := DemoTables.marshalling DemoTables.sales in
  let stuck := snd (_asubmit (H := Demo.externals) "title 'unbalanced;" "text" Demo.state0) in
  fst (read_sasdata (H := Demo.externals) (Mar := mar) "cars" (Some "sashelp") None stuck) =
  Raise (com_error "LanguageService.Submit") /\
  ls_error (engine (world (snd (read_sasdata (H := Demo.externals) (Mar := mar)
                                  "cars" (Some "sashelp") None stuck)))) = true.
Proof.
  intros mar stuck.
  apply (proj2 (proj2 (proj2 (table_reads_never_reset (H := Demo.externals) (H0 := mar)
                                "cars" (Some "sashelp") None [])))
           stuck "8B1D"); reflexivity.
Defined.

Lemma read_csv_nosub_returns_submitted_code_witness :
  let mar := DemoTables.marshalling DemoTables.sales in
  exists code,
    read_csv (H := Demo.externals) (Mar := mar) "/data/cars.csv" "cars" (Some "work")
      (VBool true) None Demo.state0 = (Ok (Code code), Demo.state0) /\
    fst (read_csv (H := Demo.externals) (Mar := mar) "/data/cars.csv" "cars" (Some "work")
           (VBool false) None Demo.state0) =
    Ok (Result {[ "LOG" := VStr ("NOTE: unit received." +:+ nl +:+ "NOTE: done." +:+ nl);
                  "LST" := VStr ("The SAS System" +:+ nl) ]}).
Proof.
  intros mar.
  destruct (read_csv_nosub_returns_submitted_code (H := Demo.externals) (H0 := mar)
              "/data/cars.csv" "cars" (Some "work") None Demo.state0)
    as (code & Hcode & Hsub).
  exists code. split; [exact Hcode|].
  exact (proj1 (Hsub (VBool false) "8B1D" eq_refl eq_refl eq_refl)).
Defined.

Lemma write_csv_drops_export_options_witness :
  let mar := DemoTables.marshalling DemoTables.sales in
  write_csv (H := Demo.externals) (Mar := mar) "/data/out.csv" "cars" (Some "work")
    (VBool false) (Some "delimiter=';';") None Demo.state0 =
  write_csv (H := Demo.externals) (Mar := mar) "/data/out.csv" "cars" (Some "work")
    (VBool false) None None Demo.state0 /\
  fst (write_csv (H := Demo.externals) (Mar := mar) "/data/out.csv" "cars" (Some "work")
         (VBool false) (Some "delimiter=';';") None Demo.state0) =
  Ok (VStr ("NOTE: unit received." +:+ nl +:+ "NOTE: done." +:+ nl)).
Proof.
  intros mar.
  destruct (write_csv_drops_export_options (H := Demo.externals) (H0 := mar)
              "/data/out.csv" "cars" (Some "work") (Some "delimiter=';';") None Demo.state0)
    as (Hsame & code & _ & Hsub).
  split; [exact (Hsame (VBool false) None)|].
  exact (proj1 (Hsub (VBool false) "8B1D" eq_refl eq_refl eq_refl)).
Defined.

Lemma init_opens_session_witness :
  exists s w',
    SASSessionCOM.__init__ [KwSb (Demo.sb None)] Demo.world0 = (Ok s, w') /\
    pid s = Some "8B1E" /\ workspace s = Some "8B1E" /\ adodb s = Some STATE_OPEN.
Proof.
  destruct (proj1 (proj1 (init_opens_session [KwSb (Demo.sb None)] Demo.world0) _ _ eq_refl)
              "8B1E" ["8B1F"] eq_refl)
    as (s & w' & Hrun & Hpid & Hws & _ & Hdb & _).
  exists s, w'. repeat split; assumption.
Defined.
